(** * Crawl-and-extract engine of the WordPress scraper

    A shallow embedding of [WordPressScraper]
    (src/wordpress_scrapper/rag_enahnced/new_rag_wordpress_scrapper.py) and of
    the parts of [WebsiteScraper] (src/webscrapper/web_scrapper.py) that it
    shares, followed by the properties of the frontier, the URL normaliser,
    the content extractor and the document downloader.

    Conventions.
    - A Python [str] is a [string]; its characters are the code points below
      256, so [str.lower], [str.strip] and the regular-expression class [\w]
      are given on that range.
    - A Python [set] of URLs is a [gset string].
    - Code that can raise returns a [result]; the constructor [Raise] carries
      the exception class. *)

From Stdlib Require Import Strings.String Strings.Ascii.
From Stdlib Require Import Numbers.DecimalString Numbers.DecimalNat.
From Stdlib Require Import Arith Lia List Bool.
From stdpp Require Import base relations list gmap sets strings.

Open Scope string_scope.
Open Scope list_scope.
Open Scope nat_scope.
Open Scope stdpp_scope.

#[local] Set Warnings "-clear-no-such-hyp".

(** ** Exceptions *)

Inductive exn : Type :=
| ValueError
| AttributeError.

Inductive result (A : Type) : Type :=
| Ok (a : A)
| Raise (e : exn).
Arguments Ok {A} a.
Arguments Raise {A} e.

#[global] Instance result_ret : MRet result := fun A a => Ok a.

#[global] Instance result_bind : MBind result := fun A B k r =>
  match r with
  | Ok a => k a
  | Raise e => Raise e
  end.

(** ** Python built-ins on [str] *)

Module Py.

Definition ord (c : ascii) : nat := nat_of_ascii c.

Definition between (lo hi n : nat) : bool := (lo <=? n) && (n <=? hi).

(** [c.lower()] for one code point below 256: [A-Z] and the upper-case
    Latin-1 letters move up by 32. *)
Definition lower_char (c : ascii) : ascii :=
  let n := ord c in
  if between 65 90 n || (between 192 222 n && negb (n =? 215))
  then ascii_of_nat (n + 32)
  else c.

Fixpoint lower (s : string) : string :=
  match s with
  | EmptyString => EmptyString
  | String c s' => String (lower_char c) (lower s')
  end.

(** [c.isspace()] *)
Definition isspace (c : ascii) : bool :=
  let n := ord c in
  between 9 13 n || between 28 32 n || (n =? 133) || (n =? 160).

(** [c.isalnum()] *)
Definition isalnum (c : ascii) : bool :=
  let n := ord c in
  between 48 57 n || between 65 90 n || between 97 122 n
  || (n =? 170) || (n =? 178) || (n =? 179) || (n =? 181)
  || (n =? 185) || (n =? 186) || between 188 190 n
  || between 192 214 n || between 216 246 n || between 248 255 n.

(** [s.startswith(pre)] *)
Definition startswith (s pre : string) : bool := String.prefix pre s.

(** [s.endswith(suf)]: some suffix of [s] is [suf]. *)
Fixpoint endswith (s suf : string) : bool :=
  String.eqb s suf
  || match s with
     | EmptyString => false
     | String _ s' => endswith s' suf
     end.

(** [pat in s] *)
Fixpoint contains (pat s : string) : bool :=
  String.prefix pat s
  || match s with
     | EmptyString => false
     | String _ s' => contains pat s'
     end.

(** [c in s] for a single character *)
Fixpoint has_char (c : ascii) (s : string) : bool :=
  match s with
  | EmptyString => false
  | String a s' => Ascii.eqb a c || has_char c s'
  end.

(** [s.split(c)[0]]: the text before the first [c]. *)
Fixpoint before (c : ascii) (s : string) : string :=
  match s with
  | EmptyString => EmptyString
  | String a s' => if Ascii.eqb a c then EmptyString else String a (before c s')
  end.

(** The text after the first [c], when there is one: the second component
    of [s.split(c, 1)]. *)
Fixpoint after (c : ascii) (s : string) : string :=
  match s with
  | EmptyString => EmptyString
  | String a s' => if Ascii.eqb a c then s' else after c s'
  end.

(** [s.split(c)] *)
Fixpoint split (c : ascii) (s : string) : list string :=
  match s with
  | EmptyString => [EmptyString]
  | String a s' =>
      if Ascii.eqb a c then EmptyString :: split c s'
      else match split c s' with
           | [] => [String a EmptyString]
           | w :: ws => String a w :: ws
           end
  end.

(** [s[:-1]] *)
Fixpoint drop_last (s : string) : string :=
  match s with
  | EmptyString => EmptyString
  | String _ EmptyString => EmptyString
  | String a s' => String a (drop_last s')
  end.

(** [s.lstrip(chars)] and [s.rstrip(chars)], the character set given as a
    predicate. *)
Fixpoint lstrip (p : ascii -> bool) (s : string) : string :=
  match s with
  | EmptyString => EmptyString
  | String a s' => if p a then lstrip p s' else s
  end.

Fixpoint rstrip (p : ascii -> bool) (s : string) : string :=
  match s with
  | EmptyString => EmptyString
  | String a s' =>
      match rstrip p s' with
      | EmptyString => if p a then EmptyString else String a EmptyString
      | r => String a r
      end
  end.

Definition strip_with (p : ascii -> bool) (s : string) : string :=
  rstrip p (lstrip p s).

(** [s.strip()] *)
Definition strip (s : string) : string := strip_with isspace s.

(** [s.strip(c)] for a single character *)
Definition strip_char (c : ascii) (s : string) : string :=
  strip_with (fun a => Ascii.eqb a c) s.

(** [s.replace(a, b)] for single characters *)
Fixpoint replace_char (a b : ascii) (s : string) : string :=
  match s with
  | EmptyString => EmptyString
  | String c s' => String (if Ascii.eqb c a then b else c) (replace_char a b s')
  end.

(** [s.replace(c, "")] *)
Fixpoint remove_char (c : ascii) (s : string) : string :=
  match s with
  | EmptyString => EmptyString
  | String a s' => if Ascii.eqb a c then remove_char c s' else String a (remove_char c s')
  end.

(** [sep.join(l)] *)
Definition join (sep : string) (l : list string) : string := String.concat sep l.

(** [s.split()]: the maximal runs of non-space characters. *)
Fixpoint words (s : string) : list string :=
  match s with
  | EmptyString => []
  | String a s' =>
      if isspace a then words s'
      else
        match s' with
        | EmptyString => [String a EmptyString]
        | String b _ =>
            if isspace b then String a EmptyString :: words s'
            else match words s' with
                 | [] => [String a EmptyString]
                 | w :: ws => String a w :: ws
                 end
        end
  end.

(** [c * n] *)
Fixpoint repeat_char (c : ascii) (n : nat) : string :=
  match n with
  | O => EmptyString
  | S n' => String c (repeat_char c n')
  end.

(** [str(n)] for a natural number *)
Definition str_of_nat (n : nat) : string :=
  NilEmpty.string_of_uint (Nat.to_uint n).

(** The first element of [l] whose key is maximal: [max(l, key=key)] keeps
    its current choice unless a later element is strictly greater. *)
Definition max_by {A : Type} (key : A -> nat) (x : A) (l : list A) : A :=
  fold_left (fun best y => if key best <? key y then y else best) l x.

End Py.

(** ** Regular expressions used by the scraper *)

Module Re.

(** [\w] *)
Definition word (c : ascii) : bool := Py.isalnum c || Ascii.eqb c "_".

(** [re.sub(cls, '_', s)] where [cls] is a negated character class: every
    character outside [keep] becomes an underscore. *)
Fixpoint sub_outside (keep : ascii -> bool) (s : string) : string :=
  match s with
  | EmptyString => EmptyString
  | String c s' => String (if keep c then c else "_"%char) (sub_outside keep s')
  end.

End Re.

(** ** [urllib.parse]

    [urlparse], [urlunparse] and [urljoin] belong to the Python standard
    library, not to the repository; the scraper calls them. They are given
    here as in CPython 3.10 ([Lib/urllib/parse.py]) on [str] arguments.
    [urlsplit] raises [ValueError] for a network location with an unmatched
    square bracket; on code points below 256 its normalisation check of the
    network location never fires. *)

Module Urllib.

Record ParseResult : Type := mkParseResult {
  scheme : string;
  netloc : string;
  path : string;
  params : string;
  query : string;
  fragment : string
}.

Definition uses_relative : list string :=
  [""; "ftp"; "http"; "gopher"; "nntp"; "imap"; "wais"; "file"; "https";
   "shttp"; "mms"; "prospero"; "rtsp"; "rtspu"; "sftp"; "svn"; "svn+ssh";
   "ws"; "wss"].

Definition uses_netloc : list string :=
  [""; "ftp"; "http"; "gopher"; "nntp"; "telnet"; "imap"; "wais"; "file";
   "mms"; "https"; "shttp"; "snews"; "prospero"; "rtsp"; "rtspu"; "rsync";
   "svn"; "svn+ssh"; "sftp"; "nfs"; "git"; "git+ssh"; "ws"; "wss"].

Definition uses_params : list string :=
  [""; "ftp"; "hdl"; "prospero"; "http"; "imap"; "https"; "shttp"; "rtsp";
   "rtspu"; "sip"; "sips"; "mms"; "sftp"; "tel"].

Definition mem (s : string) (l : list string) : bool :=
  existsb (String.eqb s) l.

(** [scheme_chars]: ASCII letters, digits and [+-.] *)
Definition scheme_char (c : ascii) : bool :=
  let n := Py.ord c in
  Py.between 48 57 n || Py.between 65 90 n || Py.between 97 122 n
  || Ascii.eqb c "+" || Ascii.eqb c "-" || Ascii.eqb c ".".

Fixpoint all_chars (p : ascii -> bool) (s : string) : bool :=
  match s with
  | EmptyString => true
  | String c s' => p c && all_chars p s'
  end.

(** The scheme test of [urlsplit]: a colon at a positive index whose
    prefix consists of scheme characters. *)
Definition split_scheme (default url : string) : string * string :=
  if Py.has_char ":" url then
    let pre := Py.before ":" url in
    match pre with
    | EmptyString => (default, url)
    | String _ _ =>
        if all_chars scheme_char pre
        then (Py.lower pre, Py.after ":" url)
        else (default, url)
    end
  else (default, url).

Definition netloc_delim (c : ascii) : bool :=
  Ascii.eqb c "/" || Ascii.eqb c "?" || Ascii.eqb c "#".

(** [_splitnetloc(url, 2)] applied to the text after the two slashes:
    the network location runs up to the first of [/?#]. *)
Fixpoint splitnetloc (s : string) : string * string :=
  match s with
  | EmptyString => (EmptyString, EmptyString)
  | String c s' =>
      if netloc_delim c then (EmptyString, s)
      else let '(n, r) := splitnetloc s' in (String c n, r)
  end.

Definition unsafe_removed (url : string) : string :=
  Py.remove_char "010" (Py.remove_char "013" (Py.remove_char "009" url)).

Definition urlsplit (url0 default : string) : result ParseResult :=
  let url := unsafe_removed url0 in
  let '(sch, url) := split_scheme (unsafe_removed default) url in
  '(nl, url) ←
    match url with
    | String "/" (String "/" rest) =>
        let '(nl, url') := splitnetloc rest in
        if (Py.has_char "[" nl && negb (Py.has_char "]" nl))
           || (Py.has_char "]" nl && negb (Py.has_char "[" nl))
        then Raise ValueError
        else Ok (nl, url')
    | _ => Ok (EmptyString, url)
    end;
  let '(url, frag) :=
    if Py.has_char "#" url then (Py.before "#" url, Py.after "#" url)
    else (url, EmptyString) in
  let '(url, qry) :=
    if Py.has_char "?" url then (Py.before "?" url, Py.after "?" url)
    else (url, EmptyString) in
  Ok (mkParseResult sch nl url EmptyString qry frag).

(** [url.find(';', url.rfind('/'))] split: the parameters start at the
    first semicolon of the last path segment. *)
Fixpoint splitparams (url : string) : string * string :=
  match url with
  | EmptyString => (EmptyString, EmptyString)
  | String c s' =>
      if Py.has_char "/" s' then
        let '(u, p) := splitparams s' in (String c u, p)
      else if Py.has_char ";" url then (Py.before ";" url, Py.after ";" url)
      else (url, EmptyString)
  end.

Definition urlparse_with (url default : string) : result ParseResult :=
  r ← urlsplit url default;
  if mem (scheme r) uses_params && Py.has_char ";" (path r) then
    let '(u, p) := splitparams (path r) in
    Ok (mkParseResult (scheme r) (netloc r) u p (query r) (fragment r))
  else Ok r.

(** [urlparse(url)] *)
Definition urlparse (url : string) : result ParseResult :=
  urlparse_with url EmptyString.

Definition nonempty (s : string) : bool := negb (String.eqb s EmptyString).

Definition urlunsplit (sch nl url qry frag : string) : string :=
  let url :=
    if nonempty nl
       || (nonempty sch && mem sch uses_netloc
           && negb (Py.startswith url "//"))
    then
      let url := if nonempty url && negb (Py.startswith url "/")
                 then "/" +:+ url else url in
      "//" +:+ nl +:+ url
    else url in
  let url := if nonempty sch then sch +:+ ":" +:+ url else url in
  let url := if nonempty qry then url +:+ "?" +:+ qry else url in
  if nonempty frag then url +:+ "#" +:+ frag else url.

Definition urlunparse (r : ParseResult) : string :=
  let url := if nonempty (params r) then path r +:+ ";" +:+ params r
             else path r in
  urlunsplit (scheme r) (netloc r) url (query r) (fragment r).

(** [segments[1:-1] = filter(None, segments[1:-1])] *)
Definition drop_empty_middle (segments : list string) : list string :=
  match segments with
  | a :: (_ :: _) as rest =>
      a :: filter (fun s => nonempty s = true) (removelast rest)
        ++ [List.last rest EmptyString]
  | _ => segments
  end.

(** The loop over [segments]; [acc] is [resolved_path] in reverse. *)
Fixpoint resolve_segments (acc segments : list string) : list string :=
  match segments with
  | [] => rev acc
  | seg :: rest =>
      if String.eqb seg ".." then resolve_segments (tl acc) rest
      else if String.eqb seg "." then resolve_segments acc rest
      else resolve_segments (seg :: acc) rest
  end.

Definition urljoin (base url : string) : result string :=
  if negb (nonempty base) then Ok url
  else if negb (nonempty url) then Ok base
  else
    b ← urlparse_with base EmptyString;
    u ← urlparse_with url (scheme b);
    if negb (String.eqb (scheme u) (scheme b)) || negb (mem (scheme u) uses_relative)
    then Ok url
    else if mem (scheme u) uses_netloc && nonempty (netloc u)
    then Ok (urlunparse u)
    else
      let nl := if mem (scheme u) uses_netloc then netloc b else netloc u in
      if negb (nonempty (path u)) && negb (nonempty (params u)) then
        let qry := if nonempty (query u) then query u else query b in
        Ok (urlunparse
              (mkParseResult (scheme u) nl (path b) (params b) qry (fragment u)))
      else
        let base_parts := Py.split "/" (path b) in
        let base_parts :=
          if nonempty (List.last base_parts EmptyString)
          then removelast base_parts else base_parts in
        let segments :=
          if Py.startswith (path u) "/" then Py.split "/" (path u)
          else drop_empty_middle (base_parts ++ Py.split "/" (path u)) in
        let resolved := resolve_segments [] segments in
        let resolved :=
          let l := List.last segments EmptyString in
          if String.eqb l "." || String.eqb l ".."
          then resolved ++ [EmptyString] else resolved in
        let joined := Py.join "/" resolved in
        let joined := if nonempty joined then joined else "/" in
        Ok (urlunparse
              (mkParseResult (scheme u) nl joined (params u) (query u)
                             (fragment u))).

End Urllib.

(** ** [os.path] (POSIX) *)

Module OsPath.

(** [os.path.join(a, b)] *)
Definition join (a b : string) : string :=
  if Py.startswith b "/" then b
  else if negb (Urllib.nonempty a) || Py.endswith a "/" then a +:+ b
  else a +:+ "/" +:+ b.

(** [os.path.basename(p)]: the text after the last slash. *)
Fixpoint basename (p : string) : string :=
  match p with
  | EmptyString => EmptyString
  | String _ p' => if Py.has_char "/" p then basename p' else p
  end.

(** The text up to and including the last slash. *)
Fixpoint dirpart (p : string) : string :=
  match p with
  | EmptyString => EmptyString
  | String c p' => if Py.has_char "/" p then String c (dirpart p') else EmptyString
  end.

(** Split at the last dot: [(p[:i], p[i:])] with [i = p.rfind('.')]. *)
Fixpoint rsplit_dot (p : string) : option (string * string) :=
  match p with
  | EmptyString => None
  | String c p' =>
      match rsplit_dot p' with
      | Some (b, e) => Some (String c b, e)
      | None => if Ascii.eqb c "." then Some (EmptyString, p) else None
      end
  end.

(** [os.path.splitext(p)]: the extension starts at the last dot of the
    base name, unless only dots precede it there. *)
Definition splitext (p : string) : string * string :=
  match rsplit_dot (basename p) with
  | Some (b, e) =>
      if Urllib.all_chars (fun c => Ascii.eqb c ".") b then (p, EmptyString)
      else (dirpart p +:+ b, e)
  | None => (p, EmptyString)
  end.

End OsPath.

(** ** BeautifulSoup

    The parse tree of [bs4] and the queries the scraper runs on it. The
    parser itself ([BeautifulSoup(html, 'html.parser')]) is a parameter of
    the scraper below; here is what it returns: the document node, whose
    tag and attribute names are in lower case. *)

Module Bs4.

#[warnings="-register-all"] Inductive node : Type :=
| Tag (name : string) (attrs : gmap string string) (contents : list node)
| NavigableString (text : string)
| Comment (text : string).

(** [tag.name] *)
Definition name_of (n : node) : string :=
  match n with
  | Tag nm _ _ => nm
  | _ => EmptyString
  end.

(** [tag.get(k)] *)
Definition get (k : string) (n : node) : option string :=
  match n with
  | Tag _ ats _ => ats !! k
  | _ => None
  end.

Definition has_attr (k : string) (n : node) : bool :=
  match get k n with
  | Some _ => true
  | None => false
  end.

(** [tag.descendants]: every node below [n], in document order. *)
Fixpoint descendants (n : node) : list node :=
  match n with
  | Tag _ _ cs => flat_map (fun c => c :: descendants c) cs
  | _ => []
  end.

Definition tag_named (names : list string) (n : node) : bool :=
  match n with
  | Tag nm _ _ => Urllib.mem nm names
  | _ => false
  end.

(** [tag.find_all(names)] *)
Definition find_all (names : list string) (n : node) : list node :=
  List.filter (tag_named names) (descendants n).

(** [tag.find_all(name, attr=True)] *)
Definition find_all_with (nm attr : string) (n : node) : list node :=
  List.filter (fun d => tag_named [nm] d && has_attr attr d) (descendants n).

(** [tag.find(name)], which is also [soup.title] and [soup.body] *)
Definition find (nm : string) (n : node) : option node :=
  head (find_all [nm] n).

(** [soup.find(name, attrs={k: v})] *)
Definition find_attr (nm k v : string) (n : node) : option node :=
  head (List.filter
          (fun d => tag_named [nm] d
                    && match get k d with
                       | Some w => String.eqb w v
                       | None => false
                       end)
          (descendants n)).

(** [tag.string]: the single child when it is a string, or that child's
    own [.string]; [None] for any other number of children. *)
Fixpoint string_of (n : node) : option string :=
  match n with
  | Tag _ _ [c] => string_of c
  | Tag _ _ _ => None
  | NavigableString s => Some s
  | Comment s => Some s
  end.

(** [tag.get_text(strip=True)]: the stripped, non-empty text strings
    below the tag, concatenated. Comments are not text. *)
Definition stripped_strings (n : node) : list string :=
  flat_map
    (fun d =>
       match d with
       | NavigableString s =>
           let t := Py.strip s in
           if Urllib.nonempty t then [t] else []
       | _ => []
       end)
    (descendants n).

Definition get_text (n : node) : string :=
  String.concat EmptyString (stripped_strings n).

(** Selectors of the three shapes the scraper uses: a tag name, [.class]
    and [#id]. The class attribute is a list of space-separated names. *)
Definition matches (selector : string) (n : node) : bool :=
  match n with
  | Tag nm ats _ =>
      match selector with
      | String "." cls =>
          match ats !! "class" with
          | Some v => Urllib.mem cls (Py.words v)
          | None => false
          end
      | String "#" ident =>
          match ats !! "id" with
          | Some v => String.eqb v ident
          | None => false
          end
      | _ => String.eqb nm selector
      end
  | _ => false
  end.

(** [soup.select(selector)] *)
Definition select (selector : string) (n : node) : list node :=
  List.filter (matches selector) (descendants n).

(** The tree after [element.decompose()] on every node below [n] that
    satisfies [p]. *)
Fixpoint decompose_all (p : node -> bool) (n : node) : node :=
  match n with
  | Tag nm ats cs =>
      Tag nm ats
        ((fix kept (l : list node) : list node :=
            match l with
            | [] => []
            | c :: l' => if p c then kept l' else decompose_all p c :: kept l'
            end) cs)
  | _ => n
  end.

End Bs4.

(** The first match that [re.findall] returns in [download_document], for
    the pattern made of the word filename, an equals sign, an optional
    double quote, a group of one or more characters other than a double
    quote, and an optional double quote: after the leftmost place where the
    pattern matches, the longest run of characters other than a double
    quote. *)

Module ContentDisposition.

Definition quote : ascii := "034"%char.

Fixpoint drop (n : nat) (s : string) : string :=
  match n, s with
  | S n', String _ s' => drop n' s'
  | _, _ => s
  end.

Fixpoint find_filename (s : string) : option string :=
  match s with
  | EmptyString => None
  | String _ s' =>
      if String.prefix "filename=" s then
        let rest := drop 9 s in
        let rest :=
          match rest with
          | String c r => if Ascii.eqb c quote then r else rest
          | EmptyString => rest
          end in
        let name := Py.before quote rest in
        if Urllib.nonempty name then Some name else find_filename s'
      else find_filename s'
  end.

End ContentDisposition.

(** ** The scraper *)

Module WordPressScraper.

Import Urllib.

Definition newline2 : string := String "010" (String "010" EmptyString).

(** *** Records *)

(** The dictionary built by [extract_structured_content]. *)
Record Page : Type := mkPage {
  page_url : string;
  title : string;
  meta_description : string;
  headings : list (nat * string);
  content_blocks : list (string * string);
  images : list (string * string);
  links : list (string * string);
  plain_text : string
}.

(** The same dictionary after [save_structured_content] has added
    [chunk_info] and [file_path]. *)
Record SavedPage : Type := mkSavedPage {
  saved : Page;
  word_count : nat;
  char_count : nat;
  file_path : string
}.

(** [doc_info] *)
Record DocInfo : Type := mkDocInfo {
  doc_url : string;
  doc_file_path : string;
  doc_title : string;
  doc_content_type : string;
  size_bytes : nat
}.

(** What [session.get] hands to [download_document]. *)
Record Response : Type := mkResponse {
  status : nat;
  content_disposition : option string;
  content_type : option string;
  body : string
}.

(** What a path on disk holds: a directory, the JSON artifact of a page,
    or the bytes of a document. [os.path.exists] is membership in the
    domain of the map. *)
Inductive file : Type :=
| Directory
| Json (p : SavedPage)
| Bytes (data : string).

(** The attributes set by [__init__] that never change. *)
Record config : Type := mkConfig {
  start_url : string;
  output_folder : string;
  docs_folder : string;
  base_url : string
}.

(** The attributes that the crawl mutates, and the disk.
    [content_index["documents"]] receives the same [doc_info] objects as
    [downloaded_docs], in the same order, and is not kept apart. *)
Record state : Type := mkState {
  visited_urls : gset string;
  found_urls : gset string;
  downloaded_docs : list DocInfo;
  index_pages : list (string * string * string);
  fs : gmap string file
}.

Definition nav_selectors : list string :=
  ["nav"; "header"; ".nav"; ".navbar"; ".navigation"; "#nav"; "#navbar";
   ".menu"; "#menu"; ".header"; "#header"; ".site-header"; "#site-header";
   ".main-navigation"; "#main-navigation"; ".primary-menu"; "#primary-menu"].

Definition footer_selectors : list string :=
  ["footer"; ".footer"; "#footer"; ".site-footer"; "#site-footer";
   ".bottom"; "#bottom"; ".site-info"; "#site-info"; ".copyright";
   "#copyright"; ".widget-area"; "#widget-area"; ".sidebar"; "#sidebar"].

Definition document_extensions : list string :=
  [".pdf"; ".doc"; ".docx"; ".xls"; ".xlsx"; ".ppt"; ".pptx";
   ".csv"; ".txt"; ".rtf"; ".zip"; ".rar"; ".mp3"; ".mp4"; ".odt"].

Definition content_selectors : list string :=
  ["article"; ".post"; "#post"; ".post-content"; "#post-content";
   ".entry-content"; "#entry-content"; ".content"; "#content";
   ".page-content"; "#page-content"; "main"; ".main"; "#main"].

Definition ignore_exts : list string := [".css"; ".js"].

Definition ignored_patterns : list string :=
  ["wp-admin"; "wp-login"; "feed"; "comment"; "?s="; "wp-json"].

(** [__init__]: the base URL is the scheme and network location of the
    start URL; the frontier starts with the start URL alone. *)
Definition init (start out docs : string) : result config :=
  p ← urlparse start;
  Ok (mkConfig start out docs (scheme p +:+ "://" +:+ netloc p)).

Definition initial_state (c : config) (disk : gmap string file) : state :=
  mkState ∅ {[start_url c]} [] [] disk.

(** *** URL validation and normalisation *)

(** [is_valid_url] *)
Definition is_valid_url (c : config) (url : string) : result bool :=
  if negb (nonempty url) then Ok false
  else
    parsed_url ← urlparse url;
    parsed_base ← urlparse (base_url c);
    if nonempty (netloc parsed_url)
       && negb (String.eqb (netloc parsed_url) (netloc parsed_base))
    then Ok false
    else if existsb (Py.endswith (Py.lower url)) ignore_exts then Ok false
    else if existsb (fun pattern => Py.contains pattern url) ignored_patterns
    then Ok false
    else Ok true.

(** [is_document] *)
Definition is_document (url : string) : bool :=
  existsb (Py.endswith (Py.lower url)) document_extensions.

(** [full_url.split('#')[0]] *)
Definition strip_fragment (full_url : string) : string :=
  Py.before "#" full_url.

(** [if not self.is_document(full_url) and full_url.endswith('/'):
       full_url = full_url[:-1]] *)
Definition strip_trailing_slash (full_url : string) : string :=
  if negb (is_document full_url) && Py.endswith full_url "/"
  then Py.drop_last full_url
  else full_url.

(** The normalisation that [extract_urls] applies to a resolved link, in
    [WordPressScraper] and, line for line, in [WebsiteScraper]. *)
Definition normalize (full_url : string) : string :=
  strip_trailing_slash (strip_fragment full_url).

(** One iteration of the loop of [extract_urls], for the link [href] found
    on the page [url]: the new [found_urls]. *)
Definition discover_link (c : config) (visited : gset string) (url href : string)
    (found : gset string) : result (gset string) :=
  if negb (nonempty href) || Py.startswith href "javascript:" then Ok found
  else
    full_url ← urljoin url href;
    let full_url := strip_fragment full_url in
    if negb (nonempty full_url) then Ok found
    else
      let full_url := strip_trailing_slash full_url in
      valid ← is_valid_url c full_url;
      if valid && bool_decide (full_url ∉ visited)
      then Ok ({[full_url]} ∪ found)
      else Ok found.

(** The loop of [extract_urls] over the [href] values, in document order. *)
Fixpoint discover_links (c : config) (visited : gset string) (url : string)
    (hrefs : list string) (found : gset string) : result (gset string) :=
  match hrefs with
  | [] => Ok found
  | href :: rest =>
      found' ← discover_link c visited url href found;
      discover_links c visited url rest found'
  end.

(** [link['href'] for link in soup.find_all('a', href=True)] *)
Definition hrefs_of (soup : Bs4.node) : list string :=
  omap (Bs4.get "href") (Bs4.find_all_with "a" "href" soup).

(** [get_clean_filename] *)
Definition get_clean_filename (url : string) : result string :=
  parsed_url ← urlparse url;
  let path := Py.strip_char "/" (path parsed_url) in
  let path := if negb (nonempty path) then "homepage"
              else Py.replace_char "/" "_" path in
  Ok (Re.sub_outside
        (fun ch => Re.word ch || Ascii.eqb ch "-" || Ascii.eqb ch "_" || Ascii.eqb ch ".")
        path).

(** *** Content extraction *)

Section Extraction.

(** [BeautifulSoup(html_content, 'html.parser')] *)
Variable parse : string -> Bs4.node.

(** [soup.title.string.strip() if soup.title else "No Title"]: a tag is
    always true, and [.string] is [None] unless the tag has a single
    string below it; [None.strip()] raises [AttributeError]. *)
Definition extract_title (soup : Bs4.node) : result string :=
  match Bs4.find "title" soup with
  | Some t =>
      match Bs4.string_of t with
      | Some s => Ok (Py.strip s)
      | None => Raise AttributeError
      end
  | None => Ok "No Title"
  end.

Definition extract_meta_description (soup : Bs4.node) : string :=
  match Bs4.find_attr "meta" "name" "description" soup with
  | Some meta_tag =>
      match Bs4.get "content" meta_tag with
      | Some v => Py.strip v
      | None => EmptyString
      end
  | None => EmptyString
  end.

(** [remove_elements] *)
Definition remove_elements (soup : Bs4.node) (selectors : list string) : Bs4.node :=
  fold_left (fun s selector => Bs4.decompose_all (Bs4.matches selector) s)
            selectors soup.

(** The tree once the non-content elements, the navigation and the footer
    are decomposed. *)
Definition cleaned (soup : Bs4.node) : Bs4.node :=
  let soup :=
    Bs4.decompose_all
      (Bs4.tag_named ["script"; "style"; "meta"; "noscript"; "svg"; "iframe"])
      soup in
  let soup := remove_elements soup nav_selectors in
  remove_elements soup footer_selectors.

Definition text_length (x : Bs4.node) : nat := String.length (Bs4.get_text x).

(** [max(elements, key=lambda x: len(x.get_text(strip=True)))] *)
Definition largest (elements : list Bs4.node) : option Bs4.node :=
  match elements with
  | [] => None
  | x :: l => Some (Py.max_by text_length x l)
  end.

(** The loop over [content_selectors]: the first selector that selects
    anything decides. *)
Fixpoint select_main (selectors : list string) (soup : Bs4.node) : option Bs4.node :=
  match selectors with
  | [] => None
  | selector :: rest =>
      match Bs4.select selector soup with
      | [] => select_main rest soup
      | main_elements => largest main_elements
      end
  end.

Definition main_content (soup : Bs4.node) : option Bs4.node :=
  match select_main content_selectors soup with
  | Some m => Some m
  | None =>
      match largest (Bs4.find_all ["div"] soup) with
      | Some m => Some m
      | None => Bs4.find "body" soup
      end
  end.

(** The headings found for one [level]. *)
Definition headings_at (main : Bs4.node) (level : nat) : list (nat * string) :=
  flat_map
    (fun heading =>
       let heading_text := Bs4.get_text heading in
       if nonempty heading_text then [(level, heading_text)] else [])
    (Bs4.find_all ["h" +:+ Py.str_of_nat level] main).

(** [for level in range(1, 7): for heading in main_content.find_all(f'h{level}')] *)
Definition extract_headings (main : Bs4.node) : list (nat * string) :=
  flat_map (headings_at main) (seq 1 6).

Definition block_tags : list string := ["p"; "li"; "blockquote"; "pre"].

(** [if text and len(text) > 10] *)
Definition keeps_block (text : string) : bool :=
  nonempty text && (10 <? String.length text).

Definition extract_blocks (main : Bs4.node) : list (string * string) :=
  flat_map
    (fun p =>
       let text := Bs4.get_text p in
       if keeps_block text then [(Bs4.name_of p, text)] else [])
    (Bs4.find_all block_tags main).

Definition attr_or_empty (k : string) (n : Bs4.node) : string :=
  match Bs4.get k n with
  | Some v => v
  | None => EmptyString
  end.

(** A loop that appends to a list and may raise on the way. *)
Fixpoint collect {A B : Type} (f : A -> result (list B)) (l : list A) : result (list B) :=
  match l with
  | [] => Ok []
  | a :: l' =>
      here ← f a;
      there ← collect f l';
      Ok (here ++ there)
  end.

Definition extract_images (url : string) (main : Bs4.node) : result (list (string * string)) :=
  collect
    (fun img =>
       img_src ← urljoin url (attr_or_empty "src" img);
       let img_alt := Py.strip (attr_or_empty "alt" img) in
       Ok (if nonempty img_src then [(img_src, img_alt)] else []))
    (Bs4.find_all_with "img" "src" main).

Definition extract_links (url : string) (main : Bs4.node) : result (list (string * string)) :=
  collect
    (fun a =>
       let link_text := Bs4.get_text a in
       link_href ← urljoin url (attr_or_empty "href" a);
       Ok (if nonempty link_text && nonempty link_href
           then [(link_text, link_href)] else []))
    (Bs4.find_all_with "a" "href" main).

Definition build_plain_text (title meta_desc : string)
    (hs : list (nat * string)) (blocks : list (string * string)) : string :=
  let plain_text := title +:+ newline2 in
  let plain_text :=
    if nonempty meta_desc then plain_text +:+ meta_desc +:+ newline2
    else plain_text in
  let plain_text :=
    fold_left
      (fun acc heading =>
         acc +:+ Py.repeat_char "#" (fst heading) +:+ " " +:+ snd heading +:+ newline2)
      hs plain_text in
  let plain_text :=
    fold_left (fun acc block => acc +:+ snd block +:+ newline2) blocks plain_text in
  Py.strip plain_text.

(** [extract_structured_content]; [Ok None] is the [None] returned for
    empty HTML. *)
Definition extract_structured_content (url html_content : string)
    : result (option Page) :=
  if negb (nonempty html_content) then Ok None
  else
    let soup := parse html_content in
    title ← extract_title soup;
    let meta_desc := extract_meta_description soup in
    let soup := cleaned soup in
    match main_content soup with
    | Some main =>
        let hs := extract_headings main in
        let blocks := extract_blocks main in
        imgs ← extract_images url main;
        lnks ← extract_links url main;
        Ok (Some (mkPage url title meta_desc hs blocks imgs lnks
                         (build_plain_text title meta_desc hs blocks)))
    | None =>
        Ok (Some (mkPage url title meta_desc [] [] [] []
                         (build_plain_text title meta_desc [] [])))
    end.

End Extraction.

(** *** Persistence, download and the crawl loop *)

Section Crawl.

Variable parse : string -> Bs4.node.

(** [mimetypes.guess_extension] *)
Variable guess_extension : string -> option string.

(** [os.path.abspath] *)
Variable abspath : string -> string.

Definition set_found (st : state) (found : gset string) : state :=
  mkState (visited_urls st) found (downloaded_docs st) (index_pages st) (fs st).

Definition set_visited (st : state) (visited : gset string) : state :=
  mkState visited (found_urls st) (downloaded_docs st) (index_pages st) (fs st).

(** The path of the artifact of a page: the clean file name with [.json]
    in the output folder. *)
Definition artifact_path (c : config) (url : string) : result string :=
  filename ← get_clean_filename url;
  Ok (OsPath.join (output_folder c) (filename +:+ ".json")).

(** [save_structured_content]: the file is opened with mode ['w'], which
    creates it or replaces what it held. *)
Definition save_structured_content (c : config) (p : Page) (st : state) : result state :=
  file_path ← artifact_path c (page_url p);
  let sp :=
    mkSavedPage p (length (Py.words (plain_text p)))
                (String.length (plain_text p)) (abspath file_path) in
  Ok (mkState (visited_urls st) (found_urls st) (downloaded_docs st)
              (index_pages st ++ [(page_url p, title p, abspath file_path)])
              (<[file_path := Json sp]> (fs st))).

(** [response.headers.get('Content-Type', '').split(';')[0]] *)
Definition declared_type (r : Response) : string :=
  Py.before ";" (default EmptyString (content_type r)).

(** [not filename or '.' not in filename] *)
Definition lacks_extension (filename : string) : bool :=
  negb (nonempty filename) || negb (Py.has_char "." filename).

(** [document_<n>] with the guessed extension, or [.bin]. *)
Definition generated_name (count : nat) (r : Response) : string :=
  let filename := "document_" +:+ Py.str_of_nat (count + 1) in
  match guess_extension (declared_type r) with
  | Some extension =>
      if nonempty extension then filename +:+ extension else filename +:+ ".bin"
  | None => filename +:+ ".bin"
  end.

(** The header branch: [filename] is replaced when the header is present,
    not empty, and the pattern matches in it. *)
Definition from_header (filename : string) (r : Response) : string :=
  match content_disposition r with
  | Some cd =>
      if nonempty cd then
        match ContentDisposition.find_filename cd with
        | Some fname => fname
        | None => filename
        end
      else filename
  | None => filename
  end.

(** Lines 174-197 of [download_document]; [count] is
    [len(self.downloaded_docs)]. *)
Definition resolve_filename (count : nat) (url : string) (r : Response) : result string :=
  parsed_url ← urlparse url;
  let filename := OsPath.basename (path parsed_url) in
  if lacks_extension filename then
    let filename := from_header filename r in
    if lacks_extension filename then Ok (generated_name count r)
    else Ok filename
  else Ok filename.

(** [filename.split('?')[0]] and then the substitution of every character
    that is not a word character, a hyphen, an underscore, a dot or a
    space. *)
Definition sanitize_filename (filename : string) : string :=
  Re.sub_outside
    (fun ch => Re.word ch || Ascii.eqb ch "-" || Ascii.eqb ch "_"
               || Ascii.eqb ch "." || Ascii.eqb ch " ")
    (Py.before "?" filename).

(** [f"{base}_{counter}{ext}"] in the documents folder *)
Definition candidate (folder base ext : string) (counter : nat) : string :=
  OsPath.join folder (base +:+ "_" +:+ Py.str_of_nat counter +:+ ext).

(** The loop [while os.path.exists(file_path)], with the number of
    iterations bounded by [fuel]. *)
Fixpoint next_free (disk : gmap string file) (folder base ext : string)
    (fuel counter : nat) (file_path : string) : option string :=
  match disk !! file_path with
  | None => Some file_path
  | Some _ =>
      match fuel with
      | O => None
      | S fuel' =>
          next_free disk folder base ext fuel' (S counter)
                    (candidate folder base ext counter)
      end
  end.

(** Lines 206-214: the path the document is written to. One more
    iteration than there are files on the disk is always enough.
    [WebsiteScraper.download_document] has the same loop (lines 136-142 of
    web_scrapper.py). *)
Definition unique_path (disk : gmap string file) (folder filename : string)
    : option string :=
  let file_path := OsPath.join folder filename in
  let '(base, ext) := OsPath.splitext filename in
  next_free disk folder base ext (S (size disk)) 1 file_path.

(** [download_document]. [resp] is [None] when [session.get] raises. The
    whole body is in a [try], so every failure returns [None] and leaves
    the state as it was. *)
Definition download_document (c : config) (url : string) (resp : option Response)
    (st : state) : state * option string :=
  match resp with
  | None => (st, None)
  | Some r =>
      if negb (status r =? 200) then (st, None)
      else
        match resolve_filename (length (downloaded_docs st)) url r with
        | Raise _ => (st, None)
        | Ok filename =>
            let filename := sanitize_filename filename in
            match unique_path (fs st) (docs_folder c) filename with
            | None => (st, None)
            | Some file_path =>
                let doc_info :=
                  mkDocInfo url (abspath file_path) filename (declared_type r)
                            (String.length (body r)) in
                (mkState (visited_urls st) (found_urls st)
                         (downloaded_docs st ++ [doc_info]) (index_pages st)
                         (<[file_path := Bytes (body r)]> (fs st)),
                 Some (abspath file_path))
            end
        end
  end.

(** What the network answers during one iteration of the loop of [scrape]:
    the result of [get_page_content] and the response to [session.get]. *)
Record answer : Type := mkAnswer {
  page_html : option string;
  response : option Response
}.

(** [extract_urls]: the new [found_urls]. *)
Definition extract_urls (c : config) (visited : gset string) (url html_content : string)
    (found : gset string) : result (gset string) :=
  if negb (nonempty html_content) then Ok found
  else discover_links c visited url (hrefs_of (parse html_content)) found.

(** The body of the loop for a page with HTML: [extract_urls], then
    [extract_structured_content], then [save_structured_content]. *)
Definition process_page (c : config) (url html : string) (st : state) : result state :=
  found ← extract_urls c (visited_urls st) url html (found_urls st);
  let st := set_found st found in
  structured_content ← extract_structured_content parse url html;
  match structured_content with
  | Some p => save_structured_content c p st
  | None => Ok st
  end.

(** One iteration of [while self.found_urls], lines 494-514, when [pop]
    returns [url]. *)
Definition iteration (c : config) (url : string) (a : answer) (st : state)
    : result state :=
  let st := set_found st (found_urls st ∖ {[url]}) in
  if bool_decide (url ∈ visited_urls st) then Ok st
  else
    let st := set_visited st ({[url]} ∪ visited_urls st) in
    if is_document url then Ok (fst (download_document c url (response a) st))
    else
      match page_html a with
      | Some html => if nonempty html then process_page c url html st else Ok st
      | None => Ok st
      end.

(** The same loop in small steps, one per statement that reads or writes
    the frontier. *)
Inductive pc : Type :=
| LoopHead
| Popped (url : string)
| Marked (url : string)
| Extracting (url html : string) (hrefs : list string)
| Finished
| Crashed (e : exn).

Inductive step (c : config) : pc * state -> pc * state -> Prop :=
| step_finish st :
    found_urls st = ∅ ->
    step c (LoopHead, st) (Finished, st)
| step_pop st url :
    url ∈ found_urls st ->
    step c (LoopHead, st) (Popped url, set_found st (found_urls st ∖ {[url]}))
| step_seen st url :
    url ∈ visited_urls st ->
    step c (Popped url, st) (LoopHead, st)
| step_mark st url :
    url ∉ visited_urls st ->
    step c (Popped url, st) (Marked url, set_visited st ({[url]} ∪ visited_urls st))
| step_document st url resp :
    is_document url = true ->
    step c (Marked url, st) (LoopHead, fst (download_document c url resp st))
| step_no_content st url :
    is_document url = false ->
    step c (Marked url, st) (LoopHead, st)
| step_content st url html :
    is_document url = false ->
    nonempty html = true ->
    step c (Marked url, st) (Extracting url html (hrefs_of (parse html)), st)
| step_link st url html href rest found :
    discover_link c (visited_urls st) url href (found_urls st) = Ok found ->
    step c (Extracting url html (href :: rest), st)
           (Extracting url html rest, set_found st found)
| step_link_raise st url html href rest e :
    discover_link c (visited_urls st) url href (found_urls st) = Raise e ->
    step c (Extracting url html (href :: rest), st) (Crashed e, st)
| step_saved st url html p st' :
    extract_structured_content parse url html = Ok (Some p) ->
    save_structured_content c p st = Ok st' ->
    step c (Extracting url html [], st) (LoopHead, st')
| step_nothing st url html :
    extract_structured_content parse url html = Ok None ->
    step c (Extracting url html [], st) (LoopHead, st)
| step_extract_raise st url html e :
    extract_structured_content parse url html = Raise e ->
    step c (Extracting url html [], st) (Crashed e, st)
| step_save_raise st url html p e :
    extract_structured_content parse url html = Ok (Some p) ->
    save_structured_content c p st = Raise e ->
    step c (Extracting url html [], st) (Crashed e, st).

End Crawl.

End WordPressScraper.

Import WordPressScraper.

(** * Readings of the specification

    Definitions that the statements below compare the code with, or
    state it through. *)

(** The invariant carried through the loop: the two sets are disjoint,
    and the URL just popped is no longer pending. *)
Definition frontier_inv (s : pc * state) : Prop :=
  visited_urls s.2 ## found_urls s.2
  /\ match s.1 with
     | Popped url => url ∉ found_urls s.2
     | _ => True
     end.

(** The level of a heading element, [None] for any other node. *)
Definition heading_level (n : Bs4.node) : option nat :=
  match n with
  | Bs4.Tag nm _ _ =>
      if String.eqb nm "h1" then Some 1
      else if String.eqb nm "h2" then Some 2
      else if String.eqb nm "h3" then Some 3
      else if String.eqb nm "h4" then Some 4
      else if String.eqb nm "h5" then Some 5
      else if String.eqb nm "h6" then Some 6
      else None
  | _ => None
  end.

(** The specification's reading of the headings field: the [h1] to [h6]
    elements below the main content node, in document order, each with
    its level and its text. *)
Definition headings_in_document_order (main : Bs4.node) : list (nat * string) :=
  flat_map
    (fun d =>
       match heading_level d with
       | Some level => [(level, Bs4.get_text d)]
       | None => []
       end)
    (Bs4.descendants main).

Definition has_text (heading : nat * string) : bool := Urllib.nonempty heading.2.

Definition at_level (level : nat) (heading : nat * string) : bool :=
  heading.1 =? level.

(** The file name that the header yields, if any. *)
Definition header_filename (r : Response) : option string :=
  match content_disposition r with
  | Some cd => ContentDisposition.find_filename cd
  | None => None
  end.

(** The order of resolution as the specification words it: the base name
    if it has a dot, else the name in the header, else the generated
    name. *)
Definition resolution_as_specified (guess_extension : string -> option string)
    (count : nat) (base_name : string) (r : Response) : string :=
  if Py.has_char "." base_name then base_name
  else
    match header_filename r with
    | Some fname => fname
    | None => generated_name guess_extension count r
    end.

(** The order of resolution with the test the code makes on the name from
    the header. *)
Definition resolution_order (guess_extension : string -> option string)
    (count : nat) (base_name : string) (r : Response) : string :=
  if Py.has_char "." base_name then base_name
  else
    match header_filename r with
    | Some fname =>
        if Py.has_char "." fname then fname
        else generated_name guess_extension count r
    | None => generated_name guess_extension count r
    end.

(** A run of downloads, one after the other, as the loop of [scrape]
    issues them: the state after the last one and what each returned. *)
Fixpoint download_all (guess_extension : string -> option string)
    (abspath : string -> string) (c : config)
    (requests : list (string * option Response)) (st : state)
    : state * list (option string) :=
  match requests with
  | [] => (st, [])
  | (url, resp) :: rest =>
      let '(st1, returned) := download_document guess_extension abspath c url resp st in
      let '(st2, others) := download_all guess_extension abspath c rest st1 in
      (st2, returned :: others)
  end.

(** [download_document] returned a path, not [None]. *)
Definition succeeded (returned : option string) : bool :=
  match returned with
  | Some _ => true
  | None => false
  end.

(** A request that the server answers with status 200 for a URL that
    parses. *)
Definition answered (request : string * option Response) : Prop :=
  exists r parsed,
    request.2 = Some r /\ status r = 200
    /\ Urllib.urlparse request.1 = Ok parsed.



(** * Example inputs *)

Definition example_config : config :=
  mkConfig "https://example.com/" "scraped_data" "downloaded_docs"
           "https://example.com".

Definition empty_document : Bs4.node := Bs4.Tag "[document]" ∅ [].

Definition home_html : string :=
  "<html><head><title>Home</title></head><body><a href='/about'>About us</a><a href='https://other.com/x'>Other</a></body></html>".

Definition home_tree : Bs4.node :=
  Bs4.Tag "[document]" ∅
    [Bs4.Tag "html" ∅
       [Bs4.Tag "head" ∅ [Bs4.Tag "title" ∅ [Bs4.NavigableString "Home"]];
        Bs4.Tag "body" ∅
          [Bs4.Tag "a" {["href" := "/about"]} [Bs4.NavigableString "About us"];
           Bs4.Tag "a" {["href" := "https://other.com/x"]}
                   [Bs4.NavigableString "Other"]]]].

Definition home_page : Page :=
  mkPage "https://example.com/" "Home" EmptyString [] [] []
         [("About us", "https://example.com/about");
          ("Other", "https://other.com/x")]
         "Home".

Definition untitled_html : string :=
  "<html><head><title></title></head><body><p>Some paragraph text.</p></body></html>".

(** What the parser returns for [untitled_html]: the title tag is there
    and has no children. *)
Definition untitled_tree : Bs4.node :=
  Bs4.Tag "[document]" ∅
    [Bs4.Tag "html" ∅
       [Bs4.Tag "head" ∅ [Bs4.Tag "title" ∅ []];
        Bs4.Tag "body" ∅
          [Bs4.Tag "p" ∅ [Bs4.NavigableString "Some paragraph text."]]]].

Definition short_html : string :=
  "<html><head><title>T</title></head><body><p>0123456789</p></body></html>".

Definition short_paragraph : Bs4.node :=
  Bs4.Tag "p" ∅ [Bs4.NavigableString "0123456789"].

Definition short_body : Bs4.node := Bs4.Tag "body" ∅ [short_paragraph].

Definition short_tree : Bs4.node :=
  Bs4.Tag "[document]" ∅
    [Bs4.Tag "html" ∅
       [Bs4.Tag "head" ∅ [Bs4.Tag "title" ∅ [Bs4.NavigableString "T"]];
        short_body]].

Definition article_html : string :=
  "<html><head><title> Post </title><meta name='description' content='About things'></head><body><nav><a href='/'>Home</a></nav><article><h2>Intro</h2><h1>Title</h1><p>This paragraph is long enough.</p><p>0123456789</p><img src='/i.png' alt='pic'><a href='/next#top'>Next</a></article><footer><p>Copyright notice text</p></footer></body></html>".

Definition article_node : Bs4.node :=
  Bs4.Tag "article" ∅
    [Bs4.Tag "h2" ∅ [Bs4.NavigableString "Intro"];
     Bs4.Tag "h1" ∅ [Bs4.NavigableString "Title"];
     Bs4.Tag "p" ∅ [Bs4.NavigableString "This paragraph is long enough."];
     Bs4.Tag "p" ∅ [Bs4.NavigableString "0123456789"];
     Bs4.Tag "img" {["src" := "/i.png"; "alt" := "pic"]} [];
     Bs4.Tag "a" {["href" := "/next#top"]} [Bs4.NavigableString "Next"]].

Definition article_tree : Bs4.node :=
  Bs4.Tag "[document]" ∅
    [Bs4.Tag "html" ∅
       [Bs4.Tag "head" ∅
          [Bs4.Tag "title" ∅ [Bs4.NavigableString " Post "];
           Bs4.Tag "meta" {["name" := "description"; "content" := "About things"]} []];
        Bs4.Tag "body" ∅
          [Bs4.Tag "nav" ∅
             [Bs4.Tag "a" {["href" := "/"]} [Bs4.NavigableString "Home"]];
           article_node;
           Bs4.Tag "footer" ∅
             [Bs4.Tag "p" ∅ [Bs4.NavigableString "Copyright notice text"]]]]].

Definition article_page : Page :=
  mkPage "https://example.com/post" "Post" "About things"
         [(1, "Title"); (2, "Intro")]
         [("p", "This paragraph is long enough.")]
         [("https://example.com/i.png", "pic")]
         [("Next", "https://example.com/next#top")]
         ("Post" +:+ newline2 +:+ "About things" +:+ newline2 +:+ "# Title"
          +:+ newline2 +:+ "## Intro" +:+ newline2
          +:+ "This paragraph is long enough.").

Definition nested_page : Page :=
  mkPage "https://example.com/a/b" "Nested" EmptyString [] [] [] [] "Nested".

Definition flat_page : Page :=
  mkPage "https://example.com/a_b" "Flat" EmptyString [] [] [] [] "Flat".

(** A stand-in for the table of [mimetypes] with the one entry used in
    the examples. *)
Definition pdf_only (content_type : string) : option string :=
  if String.eqb content_type "application/pdf" then Some ".pdf" else None.

Definition quoted (s : string) : string :=
  String ContentDisposition.quote (s +:+ String ContentDisposition.quote EmptyString).

(** [Content-Disposition: attachment; filename=] followed by the quoted
    name. *)
Definition attachment (name : string) : string :=
  "attachment; filename=" +:+ quoted name.

Definition report_response : Response :=
  mkResponse 200 (Some (attachment "report.pdf")) (Some "application/octet-stream")
             "%PDF".

Definition dotless_response : Response :=
  mkResponse 200 (Some (attachment "report")) (Some "application/pdf") "%PDF".

Definition bare_response (content_type : string) : Response :=
  mkResponse 200 None (Some content_type) "data".

Definition report_request : string * option Response :=
  ("https://example.com/docs/report.pdf", Some (bare_response "application/pdf")).








(** * Further definitions

    Names for predicates that the code writes in line, and the parts of
    the two scrapers that the statements of the second half are about. *)

(** The character class of the substitution in [download_document]: what
    a document file name keeps. *)
Definition filename_char (ch : ascii) : bool :=
  Re.word ch || Ascii.eqb ch "-" || Ascii.eqb ch "_" || Ascii.eqb ch "."
  || Ascii.eqb ch " ".

(** The character class of the substitution in [get_clean_filename]. *)
Definition slug_char (ch : ascii) : bool :=
  Re.word ch || Ascii.eqb ch "-" || Ascii.eqb ch "_" || Ascii.eqb ch ".".

(** A URL as [extract_urls] puts it in the frontier: valid, and without
    fragment. *)
Definition admitted (c : config) (u : string) : Prop :=
  is_valid_url c u = Ok true /\ Py.has_char "#" u = false.

(** Where a URL of the frontier comes from: it is the start URL, or a
    link admitted by [extract_urls]. *)
Definition known (c : config) (u : string) : Prop :=
  u = start_url c \/ admitted c u.

(** The URLs listed in [content_index["pages"]] and in
    [downloaded_docs]. *)
Definition page_urls (st : state) : list string :=
  map (fun entry => entry.1.1) (index_pages st).

Definition doc_urls (st : state) : list string :=
  map doc_url (downloaded_docs st).

(** What the loop of [scrape] keeps true of the frontier and of the two
    indexes, at each of its points. *)
Definition crawl_inv (c : config) (s : pc * state) : Prop :=
  visited_urls s.2 ## found_urls s.2
  /\ (forall u, u ∈ visited_urls s.2 ∪ found_urls s.2 -> known c u)
  /\ NoDup (page_urls s.2)
  /\ NoDup (doc_urls s.2)
  /\ (forall u, In u (page_urls s.2) -> u ∈ visited_urls s.2 /\ is_document u = false)
  /\ (forall u, In u (doc_urls s.2) -> u ∈ visited_urls s.2 /\ is_document u = true)
  /\ match s.1 with
     | Popped url => (url ∉ visited_urls s.2) /\ (url ∉ found_urls s.2) /\ known c url
     | Marked url =>
         url ∈ visited_urls s.2 /\ ~ In url (page_urls s.2) /\ ~ In url (doc_urls s.2)
     | Extracting url _ _ =>
         url ∈ visited_urls s.2 /\ ~ In url (page_urls s.2) /\ is_document url = false
     | _ => True
     end.

(** What [extract_structured_content] decomposes before it looks for the
    main content: the non-content elements, and every element that one of
    the navigation or footer selectors selects. *)
Definition removable (n : Bs4.node) : bool :=
  Bs4.tag_named ["script"; "style"; "meta"; "noscript"; "svg"; "iframe"] n
  || existsb (fun selector => Bs4.matches selector n)
             (nav_selectors ++ footer_selectors).

(** A test on an element that looks at its name and attributes only, as
    the tag and selector tests do. *)
Definition shallow (p : Bs4.node -> bool) : Prop :=
  forall nm ats cs cs', p (Bs4.Tag nm ats cs) = p (Bs4.Tag nm ats cs').

(** What one link contributes to the frontier, apart from the set it is
    added to: [None] when the loop of [extract_urls] skips it, the
    normalised URL when it adds it. *)
Definition link_target (c : config) (visited : gset string) (url href : string)
    : result (option string) :=
  if negb (Urllib.nonempty href) || Py.startswith href "javascript:" then Ok None
  else
    full_url ← Urllib.urljoin url href;
    if negb (Urllib.nonempty (strip_fragment full_url)) then Ok None
    else
      valid ← is_valid_url c (normalize full_url);
      if valid && bool_decide (normalize full_url ∉ visited)
      then Ok (Some (normalize full_url))
      else Ok None.

Definition add_target (target : option string) (found : gset string) : gset string :=
  match target with
  | Some u => {[u]} ∪ found
  | None => found
  end.

(** The three characters that [urlsplit] removes from a URL before it
    looks at it: tab, line feed and carriage return. *)
Definition unsafe_char (ch : ascii) : bool :=
  Ascii.eqb ch "009" || Ascii.eqb ch "010" || Ascii.eqb ch "013".

(** The test that [urlsplit] makes on the square brackets of a network
    location. *)
Definition brackets_match (nl : string) : bool :=
  negb ((Py.has_char "[" nl && negb (Py.has_char "]" nl))
        || (Py.has_char "]" nl && negb (Py.has_char "[" nl))).

(** A network location as [urlsplit] returns it: none of the characters
    that end it or that were removed, and brackets that match. *)
Definition netloc_shaped (nl : string) : Prop :=
  Urllib.all_chars (fun ch => negb (Urllib.netloc_delim ch) && negb (unsafe_char ch)) nl
  = true
  /\ brackets_match nl = true.

(** ** [web_scrapper.py]: the validator of [WebsiteScraper] *)

Module WebsiteScraper.

Definition ignore_exts : list string :=
  [".css"; ".js"; ".jpg"; ".jpeg"; ".png"; ".gif"; ".svg"; ".ico"].

(** [is_valid_url]; [base_url] is [self.base_url]. *)
Definition is_valid_url (base_url url : string) : result bool :=
  if negb (Urllib.nonempty url) then Ok false
  else
    parsed_url ← Urllib.urlparse url;
    parsed_base ← Urllib.urlparse base_url;
    if Urllib.nonempty (Urllib.netloc parsed_url)
       && negb (String.eqb (Urllib.netloc parsed_url) (Urllib.netloc parsed_base))
    then Ok false
    else if existsb (Py.endswith (Py.lower url)) ignore_exts then Ok false
    else Ok true.

End WebsiteScraper.

(** * Properties *)

(** ** Facts about the string functions *)

Lemma has_char_before (c : ascii) (s : string) :
  Py.has_char c (Py.before c s) = false.
Proof.
  induction s as [|a s IH]; simpl; [reflexivity|].
  destruct (Ascii.eqb a c) eqn:E; simpl; [reflexivity|].
  rewrite E. exact IH.
Qed.

Lemma before_without (c : ascii) (s : string) :
  Py.has_char c s = false -> Py.before c s = s.
Proof.
  induction s as [|a s IH]; simpl; [reflexivity|].
  destruct (Ascii.eqb a c); simpl; [discriminate|].
  intros H. f_equal. auto.
Qed.

Lemma has_char_drop_last (c : ascii) (s : string) :
  Py.has_char c s = false -> Py.has_char c (Py.drop_last s) = false.
Proof.
  induction s as [|a s IH]; simpl; [reflexivity|].
  intros H. apply orb_false_iff in H as [Ha Hs].
  destruct s as [|b s]; [reflexivity|].
  change (Py.has_char c (String a (Py.drop_last (String b s))) = false).
  simpl Py.has_char at 1. rewrite Ha. simpl. auto.
Qed.

Lemma app_cons (a : ascii) (s t : string) :
  String a s +:+ t = String a (s +:+ t).
Proof. reflexivity. Qed.

Lemma app_empty (t : string) : EmptyString +:+ t = t.
Proof. reflexivity. Qed.

Lemma endswith_app (s suf : string) :
  Py.endswith s suf = true <-> exists p, s = p +:+ suf.
Proof.
  split.
  - induction s as [|a s IH]; cbn [Py.endswith].
    + rewrite orb_false_r. intros H%String.eqb_eq. exists EmptyString. exact H.
    + intros [H%String.eqb_eq | H]%orb_true_iff.
      * exists EmptyString. exact H.
      * destruct (IH H) as [p ->]. exists (String a p). reflexivity.
  - intros [p ->]. induction p as [|a p IH].
    + change (EmptyString +:+ suf) with suf.
      destruct suf; cbn [Py.endswith]; rewrite String.eqb_refl; reflexivity.
    + change (String a p +:+ suf) with (String a (p +:+ suf)).
      cbn [Py.endswith]. rewrite IH. apply orb_true_r.
Qed.

Lemma drop_last_snoc (p : string) (c : ascii) :
  Py.drop_last (p +:+ String c EmptyString) = p.
Proof.
  induction p as [|a p IH]; [reflexivity|].
  rewrite app_cons. cbn [Py.drop_last]. rewrite IH.
  destruct p; reflexivity.
Qed.

Lemma app_assoc_string (a b c : string) : (a +:+ b) +:+ c = a +:+ (b +:+ c).
Proof.
  induction a as [|x a IH]; [reflexivity|].
  rewrite !app_cons. f_equal. exact IH.
Qed.

Lemma length_app_string (s t : string) :
  String.length (s +:+ t) = String.length s + String.length t.
Proof.
  induction s as [|a s IH]; [reflexivity|].
  rewrite app_cons. cbn. rewrite IH. reflexivity.
Qed.

Lemma lower_app (s t : string) : Py.lower (s +:+ t) = Py.lower s +:+ Py.lower t.
Proof.
  induction s as [|a s IH]; [reflexivity|].
  rewrite app_cons. cbn [Py.lower]. rewrite IH, app_cons. reflexivity.
Qed.

Lemma snoc_inj (s t : string) (a b : ascii) :
  s +:+ String a EmptyString = t +:+ String b EmptyString -> a = b.
Proof.
  revert t. induction s as [|x s IH]; intros [|y t] H.
  - injection H as H. exact H.
  - rewrite app_empty, app_cons in H. injection H as _ H.
    destruct t; discriminate.
  - rewrite app_empty, app_cons in H. injection H as _ H.
    destruct s; discriminate.
  - rewrite !app_cons in H. injection H as _ H. exact (IH _ H).
Qed.

Lemma last_char (s : string) :
  s <> EmptyString -> exists e b, s = e +:+ String b EmptyString.
Proof.
  induction s as [|a s IH]; [contradiction|]. intros _.
  destruct s as [|c s].
  - exists EmptyString, a. reflexivity.
  - destruct IH as (e & b & ->); [discriminate|].
    exists (String a e), b. reflexivity.
Qed.

(** A string with a slash at its end is not a document: no document
    extension ends with a slash. *)
Lemma is_document_slash (q : string) : is_document (q +:+ "/") = false.
Proof.
  unfold is_document. apply not_true_is_false.
  intros (ext & Hext & Hends)%existsb_exists.
  rewrite lower_app in Hends. apply endswith_app in Hends as [r Hr].
  assert (Hne : ext <> EmptyString).
  { intros ->. cbn in Hext. repeat (destruct Hext as [Hext|Hext]; [discriminate|]).
    contradiction. }
  destruct (last_char ext Hne) as (e & b & ->).
  rewrite <- app_assoc_string in Hr. apply snoc_inj in Hr. subst b.
  assert (Hnone : existsb (fun x => Py.endswith x "/") document_extensions = false)
    by (vm_compute; reflexivity).
  apply not_true_iff_false in Hnone. apply Hnone, existsb_exists.
  exists (e +:+ "/"). split; [exact Hext|].
  apply endswith_app. exists e. reflexivity.
Qed.

(** A string that ends with a slash, and still does once its last
    character is dropped, ends with two slashes. *)
Lemma endswith_two_slashes (s : string) :
  Py.endswith s "/" = true ->
  Py.endswith (Py.drop_last s) "/" = true ->
  Py.endswith s "//" = true.
Proof.
  intros [p ->]%endswith_app. rewrite drop_last_snoc.
  intros [q ->]%endswith_app. apply endswith_app.
  exists q. rewrite app_assoc_string. reflexivity.
Qed.

Lemma strip_fragment_idem (u : string) :
  strip_fragment (strip_fragment u) = strip_fragment u.
Proof. apply before_without, has_char_before. Qed.

Lemma strip_fragment_of_stripped (u : string) :
  strip_fragment (strip_trailing_slash (strip_fragment u))
  = strip_trailing_slash (strip_fragment u).
Proof.
  unfold strip_trailing_slash, strip_fragment.
  destruct (_ && _); apply before_without.
  - apply has_char_drop_last, has_char_before.
  - apply has_char_before.
Qed.

(** ** C4: normalisation *)

Example normalize_document :
  normalize "https://example.com/files/a.PDF#page=2" = "https://example.com/files/a.PDF".
Proof. vm_compute. reflexivity. Qed.

Example normalize_slash :
  normalize "https://example.com/a/#top" = "https://example.com/a".
Proof. vm_compute. reflexivity. Qed.

(** C4, as stated, fails: a URL that ends with two slashes loses one slash
    at each pass, so the second pass changes the result of the first. *)
Lemma normalize_not_idempotent :
  normalize (normalize "https://example.com/a//") <> normalize "https://example.com/a//".
Proof. vm_compute. discriminate. Qed.

(** Such a URL is what [urljoin] returns for the link [/a//], and the
    frontier then holds a URL that normalisation would change again. *)
Example double_slash_link :
  Urllib.urljoin "https://example.com/" "/a//" = Ok "https://example.com/a//"
  /\ discover_links example_config {["https://example.com/"]} "https://example.com/"
                    ["/a//"] ∅
     = Ok {["https://example.com/a/"]}
  /\ normalize "https://example.com/a/" = "https://example.com/a".
Proof. repeat split; vm_compute; reflexivity. Qed.

(** The condition of the amended statement is the exact one: with two
    slashes at the end, the second pass always differs from the first. *)
Lemma normalize_twice_differs (u : string) :
  Py.endswith (strip_fragment u) "//" = true ->
  normalize (normalize u) <> normalize u.
Proof.
  intros [p Hp]%endswith_app. unfold normalize.
  rewrite strip_fragment_of_stripped, Hp.
  assert (Hslash : forall q, Py.endswith (q +:+ "/") "/" = true)
    by (intros q; apply endswith_app; exists q; reflexivity).
  replace (p +:+ "//") with ((p +:+ "/") +:+ "/")
    by (rewrite app_assoc_string; reflexivity).
  assert (Hone : forall q, strip_trailing_slash (q +:+ "/") = q).
  { intros q. unfold strip_trailing_slash.
    rewrite is_document_slash, Hslash. cbn [negb andb]. apply drop_last_snoc. }
  rewrite !Hone. intros H.
  apply (f_equal String.length) in H. rewrite length_app_string in H. cbn in H. lia.
Qed.

(** C4, amended: for every URL string whose text before the fragment does
    not end with two slashes, normalising twice gives the same as
    normalising once. *)
Theorem normalize_idempotent (u : string) :
  Py.endswith (strip_fragment u) "//" = false ->
  normalize (normalize u) = normalize u.
Proof.
  intros Hno. unfold normalize. rewrite strip_fragment_of_stripped.
  set (v := strip_fragment u) in *.
  assert (Hv : strip_trailing_slash v
               = if negb (is_document v) && Py.endswith v "/"
                 then Py.drop_last v else v) by reflexivity.
  destruct (negb (is_document v) && Py.endswith v "/") eqn:E1; rewrite Hv.
  - unfold strip_trailing_slash.
    destruct (negb (is_document (Py.drop_last v))
              && Py.endswith (Py.drop_last v) "/") eqn:E2; [|reflexivity].
    apply andb_true_iff in E1 as [_ H1]. apply andb_true_iff in E2 as [_ H2].
    rewrite (endswith_two_slashes v H1 H2) in Hno. discriminate.
  - exact Hv.
Qed.

Lemma normalize_idempotent_witness :
  Py.endswith (strip_fragment "https://example.com/a/#top") "//" = false
  /\ normalize (normalize "https://example.com/a/#top")
     = normalize "https://example.com/a/#top".
Proof.
  split; [vm_compute; reflexivity|].
  apply (normalize_idempotent "https://example.com/a/#top").
  vm_compute; reflexivity.
Defined.

(** ** C1: the frontier *)

Section Frontier.

Variable parse : string -> Bs4.node.
Variable guess_extension : string -> option string.
Variable abspath : string -> string.
Variable c : config.

(** What one pass of the loop of [extract_urls] does to [found_urls]:
    nothing, or it adds the normalised form of the resolved link, which is
    valid and not in [visited_urls]. *)
Lemma discover_link_adds (visited found found' : gset string) (url href : string) :
  discover_link c visited url href found = Ok found' ->
  found' = found
  \/ exists full_url,
       Urllib.urljoin url href = Ok full_url
       /\ (normalize full_url ∉ visited)
       /\ is_valid_url c (normalize full_url) = Ok true
       /\ found' = {[normalize full_url]} ∪ found.
Proof.
  unfold discover_link.
  destruct (negb (Urllib.nonempty href) || Py.startswith href "javascript:").
  { intros [= <-]. left. reflexivity. }
  destruct (Urllib.urljoin url href) as [full_url|e]; [|discriminate].
  change (Ok full_url ≫= ?k) with (k full_url). cbv beta zeta.
  destruct (negb (Urllib.nonempty (strip_fragment full_url))).
  { intros [= <-]. left. reflexivity. }
  fold (normalize full_url).
  destruct (is_valid_url c (normalize full_url)) as [valid|e] eqn:Ev; [|discriminate].
  change (Ok valid ≫= ?k) with (k valid). cbv beta.
  destruct valid; cbn [andb].
  - case_bool_decide as Hin.
    + intros [= <-]. right. exists full_url. auto.
    + intros [= <-]. left. reflexivity.
  - intros [= <-]. left. reflexivity.
Qed.

Lemma download_keeps_frontier (url : string) (resp : option Response) (st : state) :
  let st' := fst (download_document guess_extension abspath c url resp st) in
  visited_urls st' = visited_urls st /\ found_urls st' = found_urls st.
Proof.
  unfold download_document.
  destruct resp as [r|]; [|split; reflexivity].
  destruct (negb (status r =? 200)); [split; reflexivity|].
  destruct (resolve_filename _ _ _ _) as [filename|e]; [|split; reflexivity].
  destruct (unique_path _ _ _); split; reflexivity.
Qed.

Lemma save_keeps_frontier (p : Page) (st st' : state) :
  save_structured_content abspath c p st = Ok st' ->
  visited_urls st' = visited_urls st /\ found_urls st' = found_urls st.
Proof.
  unfold save_structured_content.
  destruct (artifact_path c (page_url p)) as [file_path|e]; [|discriminate].
  intros [= <-]. split; reflexivity.
Qed.

Lemma frontier_inv_initial (disk : gmap string file) :
  frontier_inv (LoopHead, initial_state c disk).
Proof. split; [cbn; set_solver|exact I]. Qed.

Lemma frontier_inv_step (s s' : pc * state) :
  frontier_inv s -> step parse guess_extension abspath c s s' -> frontier_inv s'.
Proof.
  intros [Hdis Hpc] Hstep.
  destruct Hstep as
    [st He | st url Hin | st url Hin | st url Hnin | st url resp Hdoc | st url Hdoc | st url html Hdoc Hne | st url html href rest found Hd | st url html href rest e Hd | st url html p st' Hx Hs | st url html Hx | st url html e Hx | st url html p e Hx Hs];
    cbn in *; unfold frontier_inv; cbn.
  - split; [assumption|exact I].
  - split; set_solver.
  - split; [assumption|exact I].
  - split; [set_solver|exact I].
  - destruct (download_keeps_frontier url resp st) as [-> ->].
    split; [assumption|exact I].
  - split; [assumption|exact I].
  - split; [assumption|exact I].
  - split; [|exact I].
    destruct (discover_link_adds _ _ _ _ _ Hd) as [->|(full & _ & Hnew & _ & ->)];
      set_solver.
  - split; [assumption|exact I].
  - destruct (save_keeps_frontier _ _ _ Hs) as [-> ->].
    split; [assumption|exact I].
  - split; [assumption|exact I].
  - split; [assumption|exact I].
  - split; [assumption|exact I].
Qed.

Lemma frontier_inv_reachable (disk : gmap string file) (s : pc * state) :
  rtc (step parse guess_extension abspath c) (LoopHead, initial_state c disk) s -> frontier_inv s.
Proof.
  revert s. apply rtc_ind_r.
  - apply frontier_inv_initial.
  - intros y z _ Hyz IH. exact (frontier_inv_step y z IH Hyz).
Qed.

Lemma step_visited_grows (s s' : pc * state) :
  step parse guess_extension abspath c s s' -> visited_urls s.2 ⊆ visited_urls s'.2.
Proof.
  intros Hstep.
  destruct Hstep as
    [st He | st url Hin | st url Hin | st url Hnin | st url resp Hdoc | st url Hdoc | st url html Hdoc Hne | st url html href rest found Hd | st url html href rest e Hd | st url html p st' Hx Hs | st url html Hx | st url html e Hx | st url html p e Hx Hs];
    cbn; try set_solver.
  - destruct (download_keeps_frontier url resp st) as [-> _]. set_solver.
  - destruct (save_keeps_frontier _ _ _ Hs) as [-> _]. set_solver.
Qed.

Lemma step_new_pending_unvisited (s s' : pc * state) (u : string) :
  step parse guess_extension abspath c s s' ->
  u ∈ found_urls s'.2 -> u ∉ found_urls s.2 -> u ∉ visited_urls s'.2.
Proof.
  intros Hstep.
  destruct Hstep as
    [st He | st url Hin | st url Hin | st url Hnin | st url resp Hdoc | st url Hdoc | st url html Hdoc Hne | st url html href rest found Hd | st url html href rest e Hd | st url html p st' Hx Hs | st url html Hx | st url html e Hx | st url html p e Hx Hs];
    cbn; try set_solver.
  - destruct (download_keeps_frontier url resp st) as [_ ->]. set_solver.
  - destruct (discover_link_adds _ _ _ _ _ Hd) as [->|(full & _ & Hnew & _ & ->)];
      set_solver.
  - destruct (save_keeps_frontier _ _ _ Hs) as [_ ->]. set_solver.
Qed.

(** Two links with one normalised form add at most that one URL. *)
Lemma same_link_twice (visited found found' : gset string)
    (url h1 h2 f1 f2 : string) :
  Urllib.urljoin url h1 = Ok f1 ->
  Urllib.urljoin url h2 = Ok f2 ->
  normalize f1 = normalize f2 ->
  discover_links c visited url [h1; h2] found = Ok found' ->
  found' = found \/ found' = {[normalize f1]} ∪ found.
Proof.
  intros H1 H2 Hn. cbn [discover_links].
  destruct (discover_link c visited url h1 found) as [fa|e] eqn:Ea; [|discriminate].
  change (Ok fa ≫= ?k) with (k fa). cbv beta.
  destruct (discover_link c visited url h2 fa) as [fb|e] eqn:Eb; [|discriminate].
  change (Ok fb ≫= ?k) with (k fb). cbv beta. intros [= <-].
  destruct (discover_link_adds _ _ _ _ _ Ea) as [->|(g1 & J1 & _ & _ & ->)];
    destruct (discover_link_adds _ _ _ _ _ Eb) as [->|(g2 & J2 & _ & _ & ->)].
  - left. reflexivity.
  - right. rewrite H2 in J2. injection J2 as <-. rewrite Hn. reflexivity.
  - right. rewrite H1 in J1. injection J1 as <-. reflexivity.
  - right. rewrite H1 in J1. injection J1 as <-.
    rewrite H2 in J2. injection J2 as <-. rewrite <- Hn. set_solver.
Qed.

Lemma run_visited_grows (s s' : pc * state) :
  rtc (step parse guess_extension abspath c) s s' ->
  visited_urls s.2 ⊆ visited_urls s'.2.
Proof.
  induction 1 as [|x y z Hxy _ IH]; [reflexivity|].
  etransitivity; [exact (step_visited_grows x y Hxy)|exact IH].
Qed.

(** C1: in every state that a run of the crawl loop reaches from the
    initial one, whatever the network answers and whichever URL [pop]
    picks: [visited_urls] and [found_urls] are disjoint; [visited_urls]
    never loses a member in the rest of the run; a URL that a step adds to
    [found_urls] is not in [visited_urls]; a link changes [found_urls] only
    by adding its normalised form, and only when that form is not in
    [visited_urls]; and two links with one normalised form add at most
    that one member. *)
Theorem frontier_sound (disk : gmap string file) (s : pc * state) :
  rtc (step parse guess_extension abspath c) (LoopHead, initial_state c disk) s ->
  visited_urls s.2 ## found_urls s.2
  /\ (forall s', rtc (step parse guess_extension abspath c) s s' ->
                 visited_urls s.2 ⊆ visited_urls s'.2)
  /\ (forall s' u, step parse guess_extension abspath c s s' ->
                   u ∈ found_urls s'.2 -> u ∉ found_urls s.2 ->
                   u ∉ visited_urls s'.2)
  /\ (forall url href found',
        discover_link c (visited_urls s.2) url href (found_urls s.2) = Ok found' ->
        found' = found_urls s.2
        \/ exists full_url,
             Urllib.urljoin url href = Ok full_url
             /\ (normalize full_url ∉ visited_urls s.2)
             /\ found' = {[normalize full_url]} ∪ found_urls s.2)
  /\ (forall url h1 h2 f1 f2 found',
        Urllib.urljoin url h1 = Ok f1 ->
        Urllib.urljoin url h2 = Ok f2 ->
        normalize f1 = normalize f2 ->
        discover_links c (visited_urls s.2) url [h1; h2] (found_urls s.2) = Ok found' ->
        found' = found_urls s.2 \/ found' = {[normalize f1]} ∪ found_urls s.2).
Proof.
  intros Hreach. split; [|split; [|split; [|split]]].
  - exact (proj1 (frontier_inv_reachable disk s Hreach)).
  - intros s' Hrun. exact (run_visited_grows s s' Hrun).
  - intros s' u Hstep. exact (step_new_pending_unvisited s s' u Hstep).
  - intros url href found' Hd.
    destruct (discover_link_adds _ _ _ _ _ Hd) as [->|(full & Hj & Hnew & _ & ->)];
      [left; reflexivity|right; exists full; auto].
  - intros url h1 h2 f1 f2 found'. apply same_link_twice.
Qed.

End Frontier.

Example init_example :
  init "https://example.com/" "scraped_data" "downloaded_docs" = Ok example_config.
Proof. vm_compute. reflexivity. Qed.

(** ** The iteration as a run of the small steps *)

Section Refinement.

Variable parse : string -> Bs4.node.
Variable guess_extension : string -> option string.
Variable abspath : string -> string.
Variable c : config.

Lemma links_run (url html : string) (hrefs : list string) (st : state)
    (found : gset string) :
  discover_links c (visited_urls st) url hrefs (found_urls st) = Ok found ->
  rtc (step parse guess_extension abspath c)
      (Extracting url html hrefs, st)
      (Extracting url html [], set_found st found).
Proof.
  revert st. induction hrefs as [|href rest IH]; intros st; cbn [discover_links].
  - intros [= <-]. destruct st; apply rtc_refl.
  - destruct (discover_link c (visited_urls st) url href (found_urls st))
      as [found1|e] eqn:E; [|discriminate].
    change (Ok found1 ≫= ?k) with (k found1). cbv beta. intros Hrest.
    eapply rtc_l; [exact (step_link _ _ _ _ _ _ _ _ _ _ E)|].
    exact (IH (set_found st found1) Hrest).
Qed.

(** Whenever [iteration] returns a state, the small steps lead from the
    loop head in the old state to the loop head in that state. *)
Lemma iteration_run (url : string) (a : answer) (st st' : state) :
  url ∈ found_urls st ->
  iteration parse guess_extension abspath c url a st = Ok st' ->
  rtc (step parse guess_extension abspath c) (LoopHead, st) (LoopHead, st').
Proof.
  intros Hin Hit.
  eapply rtc_l; [exact (step_pop _ _ _ _ _ _ Hin)|].
  revert Hit. unfold iteration. cbv zeta.
  set (st1 := set_found st (found_urls st ∖ {[url]})) in *.
  case_bool_decide as Hseen.
  - intros [= <-]. apply rtc_once, step_seen. exact Hseen.
  - intros Hit. eapply rtc_l; [exact (step_mark _ _ _ _ _ _ Hseen)|].
    revert Hit.
    set (st2 := set_visited st1 ({[url]} ∪ visited_urls st1)) in *.
    destruct (is_document url) eqn:Hdoc.
    + intros [= <-]. apply rtc_once, step_document. exact Hdoc.
    + destruct (page_html a) as [html|];
        [|intros [= <-]; apply rtc_once, step_no_content; exact Hdoc].
      destruct (Urllib.nonempty html) eqn:Hne;
        [|intros [= <-]; apply rtc_once, step_no_content; exact Hdoc].
      unfold process_page, extract_urls. rewrite Hne. cbn [negb].
      destruct (discover_links c (visited_urls st2) url (hrefs_of (parse html))
                               (found_urls st2)) as [found|e] eqn:Elinks;
        [|discriminate].
      change (Ok found ≫= ?k) with (k found). cbv beta zeta.
      destruct (extract_structured_content parse url html) as [[p|]|e] eqn:Ex;
        [| |discriminate].
      * change (Ok (Some p) ≫= ?k) with (k (Some p)). cbv beta iota. intros Hsave.
        eapply rtc_l; [exact (step_content _ _ _ _ _ _ _ Hdoc Hne)|].
        eapply rtc_r; [exact (links_run url html _ st2 found Elinks)|].
        exact (step_saved _ _ _ _ _ _ _ _ _ Ex Hsave).
      * change (Ok None ≫= ?k) with (k None). cbv beta iota. intros [= <-].
        eapply rtc_l; [exact (step_content _ _ _ _ _ _ _ Hdoc Hne)|].
        eapply rtc_r; [exact (links_run url html _ st2 found Elinks)|].
        exact (step_nothing _ _ _ _ _ _ _ Ex).
Qed.

End Refinement.

(** A run of the loop over the home page: the start URL is visited, its
    first link is pending, its second link leaves the site. *)
Lemma home_run :
  exists st',
    rtc (step (fun _ => home_tree) pdf_only id example_config)
        (LoopHead, initial_state example_config ∅) (LoopHead, st')
    /\ visited_urls st' = {["https://example.com/"]}
    /\ found_urls st' = {["https://example.com/about"]}
    /\ page_urls st' = ["https://example.com/"].
Proof.
  assert (H : exists st',
             iteration (fun _ => home_tree) pdf_only id example_config
                       "https://example.com/" (mkAnswer (Some home_html) None)
                       (initial_state example_config ∅) = Ok st'
             /\ visited_urls st' = {["https://example.com/"]}
             /\ found_urls st' = {["https://example.com/about"]}
             /\ page_urls st' = ["https://example.com/"]).
  { eexists. split; [vm_compute; reflexivity|].
    split; [vm_compute; reflexivity|]. split; vm_compute; reflexivity. }
  destruct H as (st' & Hit & Hrest). exists st'. split; [|exact Hrest].
  apply (iteration_run _ _ _ _ _ _ _ _ (elem_of_singleton_2 _ _ eq_refl) Hit).
Qed.

Lemma frontier_sound_witness :
  exists st',
    rtc (step (fun _ => home_tree) pdf_only id example_config)
        (LoopHead, initial_state example_config ∅) (LoopHead, st')
    /\ visited_urls st' = {["https://example.com/"]}
    /\ found_urls st' = {["https://example.com/about"]}
    /\ visited_urls st' ## found_urls st'
    /\ (forall s', rtc (step (fun _ => home_tree) pdf_only id example_config)
                       (LoopHead, st') s' ->
                   visited_urls st' ⊆ visited_urls s'.2)
    /\ (forall s' u, step (fun _ => home_tree) pdf_only id example_config
                          (LoopHead, st') s' ->
                     u ∈ found_urls s'.2 -> u ∉ found_urls st' ->
                     u ∉ visited_urls s'.2)
    /\ (forall found',
          discover_link example_config (visited_urls st') "https://example.com/"
                        "/contact" (found_urls st') = Ok found' ->
          found' = found_urls st'
          \/ exists full_url,
               Urllib.urljoin "https://example.com/" "/contact" = Ok full_url
               /\ (normalize full_url ∉ visited_urls st')
               /\ found' = {[normalize full_url]} ∪ found_urls st')
    /\ (forall found',
          discover_links example_config (visited_urls st') "https://example.com/"
                         ["/contact"; "/contact/"] (found_urls st') = Ok found' ->
          found' = found_urls st'
          \/ found' = {["https://example.com/contact"]} ∪ found_urls st').
Proof.
  destruct home_run as (st' & Hrun & Hvisited & Hfound & _).
  exists st'. split; [exact Hrun|]. split; [exact Hvisited|]. split; [exact Hfound|].
  destruct (frontier_sound (fun _ => home_tree) pdf_only id example_config ∅
              (LoopHead, st') Hrun) as (Hdisjoint & Hgrow & Hnew & Hlink & Htwice).
  split; [exact Hdisjoint|]. split; [exact Hgrow|]. split; [exact Hnew|].
  split; [exact (Hlink "https://example.com/" "/contact")|].
  intros found'.
  exact (Htwice "https://example.com/" "/contact" "/contact/"
           "https://example.com/contact" "https://example.com/contact/" found'
           eq_refl eq_refl eq_refl).
Defined.

(** ** C9: one iteration from the start URL *)

Example example_about_valid :
  is_valid_url example_config "https://example.com/about" = Ok true.
Proof. vm_compute. reflexivity. Qed.

Example example_other_invalid :
  is_valid_url example_config "https://other.com/x" = Ok false.
Proof. vm_compute. reflexivity. Qed.

Example example_resolved :
  Urllib.urljoin "https://example.com/" "/about" = Ok "https://example.com/about".
Proof. vm_compute. reflexivity. Qed.

Lemma example_links_found :
  discover_links example_config {["https://example.com/"]} "https://example.com/"
                 ["/about"; "https://other.com/x"] ∅
  = Ok {["https://example.com/about"]}.
Proof. vm_compute. reflexivity. Qed.

Lemma extracted_url (parse : string -> Bs4.node) (url html : string) (p : Page) :
  extract_structured_content parse url html = Ok (Some p) ->
  page_url p = url /\ Urllib.nonempty html = true.
Proof.
  unfold extract_structured_content.
  destruct (Urllib.nonempty html); cbn [negb]; [|discriminate].
  destruct (extract_title (parse html)) as [t|e]; [|discriminate].
  change (Ok t ≫= ?k) with (k t). cbv beta zeta.
  destruct (main_content (cleaned (parse html))) as [main|].
  - destruct (extract_images url main) as [imgs|e]; [|discriminate].
    change (Ok imgs ≫= ?k) with (k imgs). cbv beta.
    destruct (extract_links url main) as [lnks|e]; [|discriminate].
    intros [= <-]. split; reflexivity.
  - intros [= <-]. split; reflexivity.
Qed.

(** C9: the crawl starts at [https://example.com/] and the first page
    holds the two links [/about] and [https://other.com/x]. The loop then
    reaches the end of [extract_urls] with the start URL visited and
    [found_urls] exactly the set of [https://example.com/about]: the
    relative link resolves against the page URL and is valid, the other
    one is on another network location. When the content of the page
    extracts, the iteration completes and the two sets are the same at
    the next loop head. *)
Theorem first_iteration_pending
    (parse : string -> Bs4.node) (guess_extension : string -> option string)
    (abspath : string -> string) (disk : gmap string file)
    (html : string) (resp : option Response) :
  hrefs_of (parse html) = ["/about"; "https://other.com/x"] ->
  Urllib.nonempty html = true ->
  (exists st,
     rtc (step parse guess_extension abspath example_config)
         (LoopHead, initial_state example_config disk)
         (Extracting "https://example.com/" html [], st)
     /\ found_urls st = {["https://example.com/about"]}
     /\ visited_urls st = {["https://example.com/"]})
  /\ (forall p,
        extract_structured_content parse "https://example.com/" html = Ok (Some p) ->
        exists st',
          iteration parse guess_extension abspath example_config
                    "https://example.com/" (mkAnswer (Some html) resp)
                    (initial_state example_config disk)
          = Ok st'
          /\ rtc (step parse guess_extension abspath example_config)
                 (LoopHead, initial_state example_config disk) (LoopHead, st')
          /\ found_urls st' = {["https://example.com/about"]}
          /\ visited_urls st' = {["https://example.com/"]})
  /\ Urllib.urljoin "https://example.com/" "/about" = Ok "https://example.com/about"
  /\ is_valid_url example_config "https://example.com/about" = Ok true
  /\ is_valid_url example_config "https://other.com/x" = Ok false.
Proof.
  intros Hlinks Hne.
  set (st0 := initial_state example_config disk).
  set (st1 := set_found st0 (found_urls st0 ∖ {["https://example.com/"]})).
  set (st2 := set_visited st1 ({["https://example.com/"]} ∪ visited_urls st1)).
  assert (Hfound : discover_links example_config (visited_urls st2)
                     "https://example.com/" (hrefs_of (parse html)) (found_urls st2)
                   = Ok {["https://example.com/about"]}).
  { cbn. rewrite Hlinks, difference_diag_L, union_empty_r_L.
    exact example_links_found. }
  split; [|split].
  - exists (set_found st2 {["https://example.com/about"]}).
    split; [|split; [reflexivity|cbn; apply union_empty_r_L]].
    eapply rtc_l; [apply step_pop with (url := "https://example.com/"); cbn; set_solver|].
    eapply rtc_l; [apply step_mark; cbn; set_solver|].
    eapply rtc_l; [apply step_content; [reflexivity|exact Hne]|].
    exact (links_run parse guess_extension abspath example_config _ html _ st2 _ Hfound).
  - intros p Hpage.
    destruct (extracted_url _ _ _ _ Hpage) as [Hurl _].
    assert (Hit : exists st',
               iteration parse guess_extension abspath example_config
                         "https://example.com/" (mkAnswer (Some html) resp) st0
               = Ok st'
               /\ found_urls st' = {["https://example.com/about"]}
               /\ visited_urls st' = {["https://example.com/"]}).
    { unfold iteration. fold st1. cbv zeta.
      rewrite bool_decide_eq_false_2 by (cbn; set_solver). fold st2.
      change (is_document "https://example.com/") with false. cbv iota.
      cbn [page_html]. rewrite Hne. unfold process_page, extract_urls.
      rewrite Hne. cbn [negb]. rewrite Hfound.
      change (Ok ?a ≫= ?k) with (k a). cbv beta zeta.
      rewrite Hpage. change (Ok ?a ≫= ?k) with (k a). cbv beta iota.
      unfold save_structured_content, artifact_path. rewrite Hurl.
      change (get_clean_filename "https://example.com/") with (Ok "homepage").
      change (Ok ?a ≫= ?k) with (k a). cbv beta.
      change (Ok ?a ≫= ?k) with (k a). cbv beta.
      eexists. split; [reflexivity|]. cbn.
      split; [reflexivity|apply union_empty_r_L]. }
    destruct Hit as (st' & Hit & Hf & Hv). exists st'.
    split; [exact Hit|]. split; [|split; [exact Hf|exact Hv]].
    apply (iteration_run _ _ _ _ _ _ _ _ (elem_of_singleton_2 _ _ eq_refl) Hit).
  - split; [exact example_resolved|].
    split; [exact example_about_valid|exact example_other_invalid].
Qed.

Lemma first_iteration_pending_witness :
  let parse := fun _ : string => home_tree in
  let guess := fun _ : string => @None string in
  hrefs_of (parse home_html) = ["/about"; "https://other.com/x"]
  /\ Urllib.nonempty home_html = true
  /\ extract_structured_content parse "https://example.com/" home_html
     = Ok (Some home_page)
  /\ exists st',
       iteration parse guess id example_config "https://example.com/"
                 (mkAnswer (Some home_html) None) (initial_state example_config ∅)
       = Ok st'
       /\ found_urls st' = {["https://example.com/about"]}.
Proof.
  intros parse guess.
  assert (H1 : hrefs_of (parse home_html) = ["/about"; "https://other.com/x"])
    by (vm_compute; reflexivity).
  assert (H2 : Urllib.nonempty home_html = true) by reflexivity.
  assert (H3 : extract_structured_content parse "https://example.com/" home_html
               = Ok (Some home_page)) by (vm_compute; reflexivity).
  split; [exact H1|]. split; [exact H2|]. split; [exact H3|].
  destruct (proj1 (proj2 (first_iteration_pending parse guess id ∅ home_html None
                            H1 H2)) home_page H3)
    as (st' & Hit & _ & Hfound & _).
  exists st'. split; [exact Hit|exact Hfound].
Defined.

(** ** C2: the title *)

Lemma missing_title_fallback (soup : Bs4.node) :
  Bs4.find "title" soup = None -> extract_title soup = Ok "No Title".
Proof. unfold extract_title. intros ->. reflexivity. Qed.

Lemma body_fallback (soup : Bs4.node) :
  select_main content_selectors soup = None ->
  Bs4.find_all ["div"] soup = [] ->
  main_content soup = Bs4.find "body" soup.
Proof. unfold main_content. intros -> ->. reflexivity. Qed.

Lemma collect_returns {A B : Type} (f : A -> result (list B)) (l : list A) :
  Forall (fun a => exists r, f a = Ok r) l -> exists rs, collect f l = Ok rs.
Proof.
  induction 1 as [|a l [r Hr] _ [rs IH]]; [exists []; reflexivity|].
  exists (r ++ rs). cbn [collect]. rewrite Hr, IH. reflexivity.
Qed.

(** Where extraction does return: the title is absent, or has a single
    string below it, and every [src] and [href] below the main content
    node resolves. The title and the body then fall back as described. *)
Lemma extraction_returns (parse : string -> Bs4.node) (url html : string) :
  Urllib.nonempty html = true ->
  (forall t, Bs4.find "title" (parse html) = Some t -> Bs4.string_of t <> None) ->
  (forall main n k,
     main_content (cleaned (parse html)) = Some main ->
     In n (Bs4.descendants main) -> In k ["src"; "href"] ->
     exists full, Urllib.urljoin url (attr_or_empty k n) = Ok full) ->
  exists p,
    extract_structured_content parse url html = Ok (Some p)
    /\ (Bs4.find "title" (parse html) = None -> title p = "No Title").
Proof.
  intros Hne Htitle Hjoin. unfold extract_structured_content.
  rewrite Hne. cbn [negb].
  assert (Ht : exists t, extract_title (parse html) = Ok t
                         /\ (Bs4.find "title" (parse html) = None -> t = "No Title")).
  { unfold extract_title.
    destruct (Bs4.find "title" (parse html)) as [t|] eqn:Ef.
    - specialize (Htitle t eq_refl).
      destruct (Bs4.string_of t) as [str|]; [|contradiction].
      eexists. split; [reflexivity|discriminate].
    - eexists. split; reflexivity. }
  destruct Ht as (t & -> & Hno).
  change (Ok t ≫= ?k) with (k t). cbv beta zeta.
  destruct (main_content (cleaned (parse html))) as [main|] eqn:Em.
  - assert (Hi : exists imgs, extract_images url main = Ok imgs).
    { apply collect_returns, Forall_forall. intros n Hn.
      apply list_elem_of_In, filter_In in Hn as [Hn _].
      destruct (Hjoin main n "src" eq_refl Hn) as [full ->]; [cbn; auto|].
      eexists. reflexivity. }
    assert (Hl : exists lnks, extract_links url main = Ok lnks).
    { apply collect_returns, Forall_forall. intros n Hn.
      apply list_elem_of_In, filter_In in Hn as [Hn _].
      destruct (Hjoin main n "href" eq_refl Hn) as [full ->]; [cbn; auto|].
      eexists. reflexivity. }
    destruct Hi as [imgs ->]. destruct Hl as [lnks ->].
    eexists. split; [reflexivity|exact Hno].
  - eexists. split; [reflexivity|exact Hno].
Qed.

(** C2 fails on the code: for a page whose title element is empty,
    [soup.title] is a tag, its [.string] is [None], and [.strip()] on it
    raises [AttributeError] out of [extract_structured_content]. The loop
    of [scrape] has no handler, so the iteration, and with it the crawl,
    ends with that exception. *)
Theorem empty_title_raises :
  let parse := fun _ : string => untitled_tree in
  let guess := fun _ : string => @None string in
  extract_structured_content parse "https://example.com/" untitled_html
  = Raise AttributeError
  /\ iteration parse guess id example_config "https://example.com/"
               (mkAnswer (Some untitled_html) None) (initial_state example_config ∅)
     = Raise AttributeError
  /\ rtc (step parse guess id example_config)
         (LoopHead, initial_state example_config ∅)
         (Crashed AttributeError,
          mkState {["https://example.com/"]} ∅ [] [] ∅).
Proof.
  intros parse guess.
  split; [vm_compute; reflexivity|]. split; [vm_compute; reflexivity|].
  eapply rtc_l; [apply step_pop with (url := "https://example.com/"); cbn; set_solver|].
  eapply rtc_l; [apply step_mark; cbn; set_solver|].
  eapply rtc_l;
    [apply step_content with (html := untitled_html); vm_compute; reflexivity|].
  apply rtc_once.
  replace (mkState {["https://example.com/"]} ∅ [] [] ∅)
    with (set_visited
            (set_found (initial_state example_config ∅)
               (found_urls (initial_state example_config ∅) ∖ {["https://example.com/"]}))
            ({["https://example.com/"]}
             ∪ visited_urls
                 (set_found (initial_state example_config ∅)
                    (found_urls (initial_state example_config ∅)
                     ∖ {["https://example.com/"]}))))
    by (vm_compute; reflexivity).
  change (hrefs_of (parse untitled_html)) with (@nil string).
  apply step_extract_raise. vm_compute. reflexivity.
Qed.

(** ** Facts about the loops that build lists *)

Lemma flat_map_filter {A B : Type} (q : A -> bool) (f : A -> list B) (l : list A) :
  flat_map f (List.filter q l) = flat_map (fun x => if q x then f x else []) l.
Proof.
  induction l as [|x l IH]; [reflexivity|].
  cbn. destruct (q x); cbn; rewrite IH; reflexivity.
Qed.

Lemma filter_flat_map {A B : Type} (q : B -> bool) (g : A -> list B) (l : list A) :
  List.filter q (flat_map g l) = flat_map (fun x => List.filter q (g x)) l.
Proof.
  induction l as [|x l IH]; [reflexivity|].
  cbn. rewrite List.filter_app, IH. reflexivity.
Qed.

Lemma flat_map_singletons {A B : Type} (q : A -> bool) (f : A -> B) (l : list A) :
  flat_map (fun x => if q x then [f x] else []) l = map f (List.filter q l).
Proof.
  induction l as [|x l IH]; [reflexivity|].
  cbn. destruct (q x); cbn; rewrite IH; reflexivity.
Qed.

(** The fields of the page in terms of the main content node. *)
Lemma extracted_fields (parse : string -> Bs4.node) (url html : string) (p : Page) :
  extract_structured_content parse url html = Ok (Some p) ->
  match main_content (cleaned (parse html)) with
  | Some main =>
      headings p = extract_headings main
      /\ content_blocks p = extract_blocks main
      /\ extract_images url main = Ok (images p)
      /\ extract_links url main = Ok (links p)
  | None =>
      headings p = [] /\ content_blocks p = [] /\ images p = [] /\ links p = []
  end
  /\ extract_title (parse html) = Ok (title p)
  /\ meta_description p = extract_meta_description (parse html)
  /\ plain_text p
     = build_plain_text (title p) (meta_description p) (headings p) (content_blocks p).
Proof.
  unfold extract_structured_content.
  destruct (Urllib.nonempty html); cbn [negb]; [|discriminate].
  destruct (extract_title (parse html)) as [t|e]; [|discriminate].
  change (Ok t ≫= ?k) with (k t). cbv beta zeta.
  destruct (main_content (cleaned (parse html))) as [main|].
  - destruct (extract_images url main) as [imgs|e]; [|discriminate].
    change (Ok imgs ≫= ?k) with (k imgs). cbv beta.
    destruct (extract_links url main) as [lnks|e]; [|discriminate].
    intros [= <-]. cbn. auto 10.
  - intros [= <-]. cbn. auto 10.
Qed.

(** ** C6: the length threshold of a content block *)

Lemma keeps_block_length (text : string) :
  keeps_block text = (10 <? String.length text).
Proof. destruct text; reflexivity. Qed.

(** C6, as stated, fails: a paragraph whose stripped text has exactly ten
    characters is inside the main content node and is dropped. *)
Lemma ten_character_block_dropped :
  let parse := fun _ : string => short_tree in
  main_content (cleaned (parse short_html)) = Some short_body
  /\ In short_paragraph (Bs4.find_all block_tags short_body)
  /\ String.length (Bs4.get_text short_paragraph) = 10
  /\ exists p,
       extract_structured_content parse "https://example.com/" short_html = Ok (Some p)
       /\ content_blocks p = [].
Proof.
  intros parse. split; [vm_compute; reflexivity|].
  split; [vm_compute; auto|]. split; [vm_compute; reflexivity|].
  eexists. split; [vm_compute; reflexivity|reflexivity].
Qed.

(** C6, amended: the content blocks of the page are, in document order,
    the [p], [li], [blockquote] and [pre] elements below the main content
    node whose stripped text is longer than ten characters, each with its
    tag name and that text; so such an element is kept exactly when its
    text has more than ten characters, that is eleven or more. *)
Theorem blocks_longer_than_ten
    (parse : string -> Bs4.node) (url html : string) (p : Page) (main : Bs4.node) :
  extract_structured_content parse url html = Ok (Some p) ->
  main_content (cleaned (parse html)) = Some main ->
  content_blocks p
  = map (fun e => (Bs4.name_of e, Bs4.get_text e))
        (List.filter (fun e => 10 <? String.length (Bs4.get_text e))
                     (Bs4.find_all block_tags main))
  /\ forall e, In e (Bs4.find_all block_tags main) ->
       (In (Bs4.name_of e, Bs4.get_text e) (content_blocks p)
        <-> 11 <= String.length (Bs4.get_text e)).
Proof.
  intros Hp Hmain. apply extracted_fields in Hp as [Hp _].
  rewrite Hmain in Hp. destruct Hp as (_ & Hblocks & _).
  assert (Heq : content_blocks p
                = map (fun e => (Bs4.name_of e, Bs4.get_text e))
                      (List.filter (fun e => 10 <? String.length (Bs4.get_text e))
                                   (Bs4.find_all block_tags main))).
  { rewrite Hblocks. unfold extract_blocks.
    rewrite <- flat_map_singletons. apply flat_map_ext.
    intros e. rewrite keeps_block_length. reflexivity. }
  split; [exact Heq|].
  intros e He. rewrite Heq, in_map_iff. split.
  - intros (e' & [= _ Htext] & [_ Hlen%Nat.ltb_lt]%filter_In).
    rewrite <- Htext. lia.
  - intros Hlen. exists e. split; [reflexivity|].
    apply filter_In. split; [exact He|]. apply Nat.ltb_lt. lia.
Qed.

(** ** C5: the order of the headings *)

Lemma article_extracted :
  extract_structured_content (fun _ => article_tree) "https://example.com/post"
                             article_html
  = Ok (Some article_page).
Proof. vm_compute. reflexivity. Qed.

Lemma article_main :
  main_content (cleaned article_tree) = Some article_node.
Proof. vm_compute. reflexivity. Qed.

(** C5, as stated, fails: an [h2] that comes before an [h1] in the
    document comes after it in the headings field. *)
Lemma headings_not_in_document_order :
  extract_structured_content (fun _ => article_tree) "https://example.com/post"
                             article_html
  = Ok (Some article_page)
  /\ main_content (cleaned article_tree) = Some article_node
  /\ headings_in_document_order article_node = [(2, "Intro"); (1, "Title")]
  /\ headings article_page = [(1, "Title"); (2, "Intro")]
  /\ headings article_page <> headings_in_document_order article_node.
Proof.
  split; [exact article_extracted|]. split; [exact article_main|].
  split; [vm_compute; reflexivity|]. split; [reflexivity|].
  vm_compute. discriminate.
Qed.

(** The headings that the loop finds for one level are the headings of
    that level, with text, in document order. *)
Lemma headings_at_level (main : Bs4.node) (level : nat) :
  1 <= level <= 6 ->
  headings_at main level
  = List.filter (at_level level)
                (List.filter has_text (headings_in_document_order main)).
Proof.
  intros Hlevel. unfold headings_at, headings_in_document_order, Bs4.find_all.
  rewrite flat_map_filter, !filter_flat_map.
  apply flat_map_ext. intros d.
  destruct d as [nm ats cs| |]; [|destruct level; reflexivity..].
  destruct level as [|[|[|[|[|[|[|]]]]]]]; try lia;
    match goal with
    | |- context [String.append "h" (Py.str_of_nat ?n)] =>
        let v := eval vm_compute in (String.append "h" (Py.str_of_nat n)) in
        change (String.append "h" (Py.str_of_nat n)) with v
    end;
    cbn [Bs4.tag_named Urllib.mem existsb heading_level];
    repeat match goal with
           | |- context [String.eqb nm ?s] =>
               destruct (String.eqb_spec nm s) as [->|?]
           end;
    cbn; unfold has_text; cbn;
    try (destruct (Urllib.nonempty _); reflexivity);
    congruence.
Qed.

(** C5, amended: the headings field lists the [h1] to [h6] elements below
    the main content node that have text, each with its level and text,
    grouped by level: first those of level 1, then those of level 2, and
    so on to level 6, and in document order within one level. *)
Theorem headings_grouped_by_level
    (parse : string -> Bs4.node) (url html : string) (p : Page) (main : Bs4.node) :
  extract_structured_content parse url html = Ok (Some p) ->
  main_content (cleaned (parse html)) = Some main ->
  headings p
  = flat_map
      (fun level =>
         List.filter (at_level level)
                     (List.filter has_text (headings_in_document_order main)))
      [1; 2; 3; 4; 5; 6].
Proof.
  intros Hp Hmain. apply extracted_fields in Hp as [Hp _].
  rewrite Hmain in Hp. destruct Hp as (-> & _).
  unfold extract_headings. change (seq 1 6) with [1; 2; 3; 4; 5; 6].
  cbn [flat_map]. rewrite !headings_at_level by lia. reflexivity.
Qed.

Lemma headings_grouped_by_level_witness :
  let parse := fun _ : string => article_tree in
  extract_structured_content parse "https://example.com/post" article_html
  = Ok (Some article_page)
  /\ main_content (cleaned (parse article_html)) = Some article_node
  /\ headings article_page
     = flat_map
         (fun level =>
            List.filter (at_level level)
                        (List.filter has_text (headings_in_document_order article_node)))
         [1; 2; 3; 4; 5; 6].
Proof.
  intros parse. split; [exact article_extracted|]. split; [exact article_main|].
  exact (headings_grouped_by_level parse "https://example.com/post" article_html
           article_page article_node article_extracted article_main).
Defined.

Lemma blocks_longer_than_ten_witness :
  let parse := fun _ : string => article_tree in
  extract_structured_content parse "https://example.com/post" article_html
  = Ok (Some article_page)
  /\ main_content (cleaned (parse article_html)) = Some article_node
  /\ content_blocks article_page
     = map (fun e => (Bs4.name_of e, Bs4.get_text e))
           (List.filter (fun e => 10 <? String.length (Bs4.get_text e))
                        (Bs4.find_all block_tags article_node)).
Proof.
  intros parse. split; [exact article_extracted|]. split; [exact article_main|].
  exact (proj1 (blocks_longer_than_ten parse "https://example.com/post" article_html
                  article_page article_node article_extracted article_main)).
Defined.

(** ** C10: two runs of the extractor on one page *)

(** [max] with a key returns the first of the elements whose key is
    greatest: everything before it is strictly smaller, nothing after it
    is greater. *)
Lemma max_by_first {A : Type} (key : A -> nat) (l : list A) (x : A) :
  exists l1 l2,
    x :: l = l1 ++ Py.max_by key x l :: l2
    /\ Forall (fun y => key y < key (Py.max_by key x l)) l1
    /\ Forall (fun y => key y <= key (Py.max_by key x l)) l2.
Proof.
  unfold Py.max_by. revert x.
  induction l as [|y l IH]; intros x.
  - exists [], []. cbn. auto.
  - cbn [fold_left]. destruct (key x <? key y) eqn:E.
    + apply Nat.ltb_lt in E.
      destruct (IH y) as (l1 & l2 & Heq & H1 & H2).
      remember (fold_left (fun best z => if key best <? key z then z else best) l y)
        as m eqn:Em. clear Em.
      assert (Hy : key y <= key m).
      { destruct l1 as [|z l1]; cbn in Heq.
        - injection Heq as Hm _. rewrite Hm. lia.
        - injection Heq as Hz _. apply Forall_cons_1 in H1 as [H1 _].
          rewrite Hz. lia. }
      exists (x :: l1), l2. split; [cbn; rewrite Heq; reflexivity|].
      split; [constructor; [lia|exact H1]|exact H2].
    + apply Nat.ltb_ge in E.
      destruct (IH x) as (l1 & l2 & Heq & H1 & H2).
      remember (fold_left (fun best z => if key best <? key z then z else best) l x)
        as m eqn:Em. clear Em.
      destruct l1 as [|z l1]; cbn in Heq.
      * injection Heq as Hm Hl. exists [], (y :: l2).
        split; [cbn; rewrite <- Hm, Hl; reflexivity|].
        split; [constructor|]. constructor; [rewrite <- Hm; exact E|exact H2].
      * injection Heq as Hz Hl. exists (x :: y :: l1), l2.
        split; [cbn; rewrite Hl; reflexivity|].
        apply Forall_cons_1 in H1 as [Hx H1]. rewrite <- Hz in Hx.
        split; [|exact H2]. constructor; [exact Hx|].
        constructor; [lia|exact H1].
Qed.











(** ** C3: the artifact of a page *)

(** C3 fails on the code: [https://example.com/a/b] and
    [https://example.com/a_b] are distinct, normalised and valid, and the
    frontier admits both from one page; [get_clean_filename] maps both to
    [a_b], so both pages go to [scraped_data/a_b.json], and the second
    write replaces the first: one file on disk for two pages. *)
Theorem distinct_urls_one_artifact :
  let u1 := "https://example.com/a/b" in
  let u2 := "https://example.com/a_b" in
  let st0 := initial_state example_config ∅ in
  u1 <> u2
  /\ normalize u1 = u1 /\ normalize u2 = u2
  /\ is_valid_url example_config u1 = Ok true
  /\ is_valid_url example_config u2 = Ok true
  /\ discover_links example_config {["https://example.com/"]} "https://example.com/"
                    ["/a/b"; "/a_b"] ∅
     = Ok ({[u1]} ∪ {[u2]})
  /\ get_clean_filename u1 = Ok "a_b"
  /\ get_clean_filename u2 = Ok "a_b"
  /\ get_clean_filename "https://example.com/page?id=1" = Ok "page"
  /\ get_clean_filename "https://example.com/page?id=2" = Ok "page"
  /\ artifact_path example_config u1 = Ok "scraped_data/a_b.json"
  /\ artifact_path example_config u2 = Ok "scraped_data/a_b.json"
  /\ exists st1 st2,
       save_structured_content id example_config nested_page st0 = Ok st1
       /\ save_structured_content id example_config flat_page st1 = Ok st2
       /\ fs st1 !! "scraped_data/a_b.json"
          = Some (Json (mkSavedPage nested_page 1 6 "scraped_data/a_b.json"))
       /\ fs st2 !! "scraped_data/a_b.json"
          = Some (Json (mkSavedPage flat_page 1 4 "scraped_data/a_b.json"))
       /\ size (fs st2) = 1
       /\ length (index_pages st2) = 2.
Proof.
  intros u1 u2 st0.
  split; [discriminate|].
  repeat (split; [vm_compute; reflexivity|]).
  eexists _, _. split; [vm_compute; reflexivity|].
  split; [vm_compute; reflexivity|].
  repeat (split; [vm_compute; reflexivity|]). vm_compute. reflexivity.
Qed.

(** ** C7: the file name of a download *)

Lemma lacks_extension_dot (filename : string) :
  lacks_extension filename = negb (Py.has_char "." filename).
Proof. destruct filename; reflexivity. Qed.

Lemma from_header_filename (filename : string) (r : Response) :
  from_header filename r
  = match header_filename r with
    | Some fname => fname
    | None => filename
    end.
Proof.
  unfold from_header, header_filename.
  destruct (content_disposition r) as [cd|]; [|reflexivity].
  destruct cd; reflexivity.
Qed.

(** C7, as stated, fails: a name from the header that has no dot is not
    used; the generated name is. *)
Lemma dotless_header_name_not_used :
  resolve_filename pdf_only 0 "https://example.com/file" dotless_response
  = Ok "document_1.pdf"
  /\ Urllib.urlparse "https://example.com/file"
     = Ok (Urllib.mkParseResult "https" "example.com" "/file" "" "" "")
  /\ resolution_as_specified pdf_only 0 (OsPath.basename "/file") dotless_response
     = "report"
  /\ resolve_filename pdf_only 0 "https://example.com/file" dotless_response
     <> Ok (resolution_as_specified pdf_only 0 (OsPath.basename "/file") dotless_response).
Proof.
  repeat (split; [vm_compute; reflexivity|]). vm_compute. discriminate.
Qed.

(** C7, amended: the file name is (a) the base name of the URL path if it
    contains a dot; else (b) the name parsed from the Content-Disposition
    header if there is one and it contains a dot; else (c) [document_<n>],
    [n] being the number of documents downloaded so far plus one, followed
    by the extension guessed from the declared content type, or by [.bin]
    when no extension is guessed. So a header naming [report.pdf] on the
    URL [https://example.com/file] gives [report.pdf], which the clean-up
    leaves as it is; and, with no name in the URL or the headers,
    [application/pdf] gives a name that ends with [.pdf] when the table
    maps it so. *)
Theorem filename_resolution_order
    (guess_extension : string -> option string) (count : nat) (url : string)
    (r : Response) (parsed : Urllib.ParseResult) :
  Urllib.urlparse url = Ok parsed ->
  resolve_filename guess_extension count url r
  = Ok (resolution_order guess_extension count
                         (OsPath.basename (Urllib.path parsed)) r)
  /\ (forall extension,
        guess_extension (declared_type r) = Some extension ->
        Urllib.nonempty extension = true ->
        generated_name guess_extension count r
        = "document_" +:+ Py.str_of_nat (count + 1) +:+ extension)
  /\ (guess_extension (declared_type r) = None ->
      generated_name guess_extension count r
      = "document_" +:+ Py.str_of_nat (count + 1) +:+ ".bin")
  /\ resolve_filename guess_extension count "https://example.com/file" report_response
     = Ok "report.pdf"
  /\ sanitize_filename "report.pdf" = "report.pdf"
  /\ (guess_extension "application/pdf" = Some ".pdf" ->
      resolve_filename guess_extension 0 "https://example.com/file"
                       (bare_response "application/pdf")
      = Ok "document_1.pdf").
Proof.
  intros Hparse. split; [|split; [|split; [|split; [|split]]]].
  - unfold resolve_filename, resolution_order. rewrite Hparse.
    change (Ok parsed ≫= ?k) with (k parsed). cbv beta zeta.
    rewrite !lacks_extension_dot, from_header_filename.
    destruct (Py.has_char "." (OsPath.basename (Urllib.path parsed))) eqn:Ea;
      cbn [negb]; [reflexivity|].
    destruct (header_filename r) as [fname|].
    + destruct (Py.has_char "." fname); reflexivity.
    + rewrite Ea. reflexivity.
  - intros extension Hg Hne. unfold generated_name. rewrite Hg, Hne. reflexivity.
  - intros Hg. unfold generated_name. rewrite Hg. reflexivity.
  - vm_compute. reflexivity.
  - vm_compute. reflexivity.
  - intros Hpdf. unfold resolve_filename.
    change (Urllib.urlparse "https://example.com/file")
      with (Ok (Urllib.mkParseResult "https" "example.com" "/file" "" "" "")).
    change (Ok ?a ≫= ?k) with (k a). cbv beta zeta.
    change (lacks_extension (OsPath.basename _)) with true. cbv iota.
    change (from_header _ _) with "file".
    change (lacks_extension "file") with true. cbv iota.
    unfold generated_name.
    change (declared_type (bare_response "application/pdf")) with "application/pdf".
    rewrite Hpdf. vm_compute. reflexivity.
Qed.

Lemma filename_resolution_order_witness :
  Urllib.urlparse "https://example.com/files/annual.report.pdf?download=1"
  = Ok (Urllib.mkParseResult "https" "example.com" "/files/annual.report.pdf"
                             "" "download=1" "")
  /\ resolve_filename pdf_only 3
                      "https://example.com/files/annual.report.pdf?download=1"
                      dotless_response
     = Ok (resolution_order pdf_only 3 "annual.report.pdf" dotless_response).
Proof.
  assert (H : Urllib.urlparse "https://example.com/files/annual.report.pdf?download=1"
              = Ok (Urllib.mkParseResult "https" "example.com"
                                         "/files/annual.report.pdf" "" "download=1" ""))
    by (vm_compute; reflexivity).
  split; [exact H|].
  exact (proj1 (filename_resolution_order pdf_only 3 _ dotless_response _ H)).
Defined.

(** ** C8: a download never replaces a file *)

Lemma str_of_nat_inj (n m : nat) : Py.str_of_nat n = Py.str_of_nat m -> n = m.
Proof.
  unfold Py.str_of_nat. intros H.
  apply (f_equal NilEmpty.uint_of_string) in H.
  rewrite !NilEmpty.usu in H. injection H as H.
  apply (f_equal Nat.of_uint) in H.
  rewrite !DecimalNat.Unsigned.of_to in H. exact H.
Qed.

Lemma app_inv_tail_string (s1 s2 t : string) : s1 +:+ t = s2 +:+ t -> s1 = s2.
Proof.
  revert s2. induction s1 as [|a s1 IH]; intros [|b s2] H.
  - reflexivity.
  - apply (f_equal String.length) in H.
    rewrite app_empty, app_cons in H. cbn in H. rewrite length_app_string in H. lia.
  - apply (f_equal String.length) in H.
    rewrite app_empty, app_cons in H. cbn in H. rewrite length_app_string in H. lia.
  - rewrite !app_cons in H. injection H as -> H. f_equal. exact (IH _ H).
Qed.

Lemma startswith_slash (ch : ascii) (s : string) :
  String.prefix "/" (String ch s) = Ascii.eqb ch "/".
Proof.
  change (String.prefix "/" (String ch s))
    with (if ascii_dec "/" ch then String.prefix EmptyString s else false).
  destruct (ascii_dec "/" ch) as [<-|N].
  - destruct s; reflexivity.
  - symmetry. apply Ascii.eqb_neq. congruence.
Qed.

(** In one folder and for one file name, the candidates differ only by
    their counter. *)
Lemma join_underscore (folder base : string) :
  exists prefix, forall rest,
    OsPath.join folder (base +:+ String "_" rest)
    = prefix +:+ base +:+ String "_" rest.
Proof.
  unfold OsPath.join, Py.startswith.
  destruct base as [|ch base].
  - destruct (negb (Urllib.nonempty folder) || Py.endswith folder "/").
    + exists folder. intros rest. reflexivity.
    + exists (folder +:+ "/"). intros rest. rewrite app_assoc_string. reflexivity.
  - destruct (Ascii.eqb ch "/") eqn:Ech.
    + exists EmptyString. intros rest.
      rewrite app_cons, startswith_slash, Ech. reflexivity.
    + destruct (negb (Urllib.nonempty folder) || Py.endswith folder "/").
      * exists folder. intros rest.
        rewrite (app_cons ch base), startswith_slash, Ech. reflexivity.
      * exists (folder +:+ "/"). intros rest.
        rewrite (app_cons ch base), startswith_slash, Ech, app_assoc_string.
        reflexivity.
Qed.

Lemma candidate_inj (folder base ext : string) (j k : nat) :
  candidate folder base ext j = candidate folder base ext k -> j = k.
Proof.
  unfold candidate. destruct (join_underscore folder base) as [prefix Hjoin].
  change (base +:+ "_" +:+ ?rest) with (base +:+ String "_" rest).
  rewrite !Hjoin. intros H.
  apply String.app_inj in H. apply String.app_inj in H.
  injection H as H. apply app_inv_tail_string in H.
  exact (str_of_nat_inj _ _ H).
Qed.

Section FreePath.

Variable disk : gmap string file.
Variables folder base ext : string.

Lemma next_free_is_free (fuel counter : nat) (file_path p : string) :
  next_free disk folder base ext fuel counter file_path = Some p ->
  disk !! p = None.
Proof.
  revert counter file_path.
  induction fuel as [|fuel IH]; intros counter file_path; cbn [next_free];
    destruct (disk !! file_path) eqn:E; try discriminate;
    try (intros [= <-]; exact E).
  apply IH.
Qed.

(** When the fuel runs out, every path that was tried exists. *)
Lemma next_free_exhausted (fuel counter : nat) (file_path : string) :
  next_free disk folder base ext fuel counter file_path = None ->
  is_Some (disk !! file_path)
  /\ forall k, counter <= k < counter + fuel ->
               is_Some (disk !! candidate folder base ext k).
Proof.
  revert counter file_path.
  induction fuel as [|fuel IH]; intros counter file_path; cbn [next_free];
    destruct (disk !! file_path) eqn:E; try discriminate; intros H.
  - split; [eauto|]. intros k Hk. lia.
  - destruct (IH _ _ H) as [Hc Hrest].
    split; [eauto|]. intros k Hk.
    destruct (decide (k = counter)) as [->|Hne]; [exact Hc|].
    apply Hrest. lia.
Qed.

(** The path found is the first free one among the path itself and the
    candidates in the order of their counters. *)
Lemma next_free_first (fuel counter : nat) (file_path p : string) :
  next_free disk folder base ext fuel counter file_path = Some p ->
  p = file_path
  \/ (is_Some (disk !! file_path)
      /\ exists k, counter <= k /\ p = candidate folder base ext k
                   /\ forall j, counter <= j < k ->
                                is_Some (disk !! candidate folder base ext j)).
Proof.
  revert counter file_path.
  induction fuel as [|fuel IH]; intros counter file_path; cbn [next_free];
    destruct (disk !! file_path) eqn:E; try discriminate;
    try (intros [= <-]; left; reflexivity).
  intros H. right. split; [eauto|].
  destruct (IH _ _ H) as [->|(Hc & k & Hk & -> & Hbelow)].
  - exists counter. split; [lia|]. split; [reflexivity|]. intros j Hj. lia.
  - exists k. split; [lia|]. split; [reflexivity|]. intros j Hj.
    destruct (decide (j = counter)) as [->|Hne]; [exact Hc|].
    apply Hbelow. lia.
Qed.

(** No more candidates can exist than there are files. *)
Lemma candidates_bounded (fuel : nat) :
  (forall k, 1 <= k < 1 + fuel -> is_Some (disk !! candidate folder base ext k)) ->
  fuel <= size disk.
Proof.
  intros Hall.
  set (l := candidate folder base ext <$> seq 1 fuel).
  assert (Hnodup : NoDup l).
  { apply NoDup_fmap_2; [|apply NoDup_seq].
    intros j k. apply candidate_inj. }
  assert (Hsub : (list_to_set l : gset string) ⊆ dom disk).
  { intros x Hx. apply elem_of_list_to_set in Hx.
    apply list_elem_of_fmap in Hx as (k & -> & Hk).
    apply elem_of_seq in Hk. apply elem_of_dom, Hall. lia. }
  apply subseteq_size in Hsub.
  rewrite size_list_to_set, size_dom in Hsub by exact Hnodup.
  unfold l in Hsub. rewrite length_fmap, length_seq in Hsub. exact Hsub.
Qed.

End FreePath.

(** The loop of [download_document] always ends, on a path that does not
    exist. *)
Lemma unique_path_free (disk : gmap string file) (folder filename : string) :
  exists p, unique_path disk folder filename = Some p /\ disk !! p = None.
Proof.
  unfold unique_path. destruct (OsPath.splitext filename) as [base ext].
  destruct (next_free disk folder base ext (S (size disk)) 1
                      (OsPath.join folder filename)) as [p|] eqn:E.
  - exists p. split; [reflexivity|]. exact (next_free_is_free _ _ _ _ _ _ _ _ E).
  - apply next_free_exhausted in E as [_ Hall].
    apply candidates_bounded in Hall. lia.
Qed.

Section Downloads.

Variable guess_extension : string -> option string.
Variable abspath : string -> string.
Variable c : config.

(** What [download_document] does to the disk: when it returns a path it
    has created one file that was not there; when it returns [None] the
    state is as before. *)
Lemma download_creates (url : string) (resp : option Response) (st : state) :
  let out := download_document guess_extension abspath c url resp st in
  match out.2 with
  | Some _ =>
      exists file_path data,
        fs st !! file_path = None
        /\ fs out.1 = <[file_path := Bytes data]> (fs st)
  | None => out.1 = st
  end.
Proof.
  unfold download_document.
  destruct resp as [r|]; [|reflexivity].
  destruct (negb (status r =? 200)); [reflexivity|].
  destruct (resolve_filename _ _ _ _) as [filename|e]; [|reflexivity].
  destruct (unique_path_free (fs st) (docs_folder c) (sanitize_filename filename))
    as (p & -> & Hfree).
  cbn. exists p, (body r). split; [exact Hfree|reflexivity].
Qed.

Lemma download_succeeds (url : string) (resp : option Response) (st : state) :
  answered (url, resp) ->
  succeeded (download_document guess_extension abspath c url resp st).2 = true.
Proof.
  intros (r & parsed & Hr & Hstatus & Hparse). cbn in Hr, Hparse. subst resp.
  unfold download_document. rewrite Hstatus. cbn [Nat.eqb negb].
  change (negb (200 =? 200)) with false. cbv iota.
  assert (Hname : exists filename,
             resolve_filename guess_extension (length (downloaded_docs st)) url r
             = Ok filename).
  { unfold resolve_filename. rewrite Hparse.
    change (Ok parsed ≫= ?k) with (k parsed). cbv beta zeta.
    destruct (lacks_extension (OsPath.basename (Urllib.path parsed))); [|eauto].
    destruct (lacks_extension _); eauto. }
  destruct Hname as [filename ->].
  destruct (unique_path_free (fs st) (docs_folder c) (sanitize_filename filename))
    as (p & -> & _).
  cbn. eauto.
Qed.

Lemma download_all_disk (requests : list (string * option Response))
    (st st' : state) (results : list (option string)) :
  download_all guess_extension abspath c requests st = (st', results) ->
  (forall path f, fs st !! path = Some f -> fs st' !! path = Some f)
  /\ size (fs st') = size (fs st) + length (List.filter succeeded results)
  /\ length results = length requests
  /\ (Forall answered requests -> Forall (fun x => succeeded x = true) results).
Proof.
  revert st st' results.
  induction requests as [|[url resp] rest IH]; intros st st' results; cbn [download_all].
  - intros [= <- <-]. cbn. repeat split; [auto|lia|constructor].
  - pose proof (download_creates url resp st) as Hone.
    pose proof (download_succeeds url resp st) as Hok.
    destruct (download_document guess_extension abspath c url resp st)
      as [st1 returned].
    destruct (download_all guess_extension abspath c rest st1) as [st2 others] eqn:E.
    intros [= <- <-]. destruct (IH _ _ _ E) as (Hkeep & Hsize & Hlen & Hall).
    cbn in Hone, Hok.
    assert (Hfirst : (forall path f, fs st !! path = Some f -> fs st1 !! path = Some f)
                     /\ size (fs st1)
                        = size (fs st) + (if succeeded returned then 1 else 0)).
    { destruct returned as [ap|].
      - destruct Hone as (file_path & data & Hfree & ->). split.
        + intros path f Hpath. rewrite lookup_insert_ne; [exact Hpath|congruence].
        + rewrite map_size_insert_None by exact Hfree. cbn. lia.
      - rewrite Hone. split; [auto|cbn; lia]. }
    destruct Hfirst as [Hkeep1 Hsize1].
    split; [intros path f Hpath; apply Hkeep, Hkeep1, Hpath|].
    split.
    { cbn [List.filter]. rewrite Hsize, Hsize1.
      destruct (succeeded returned); cbn [length]; lia. }
    split; [cbn; lia|].
    intros Hans. apply Forall_cons_1 in Hans as [Ha Hans].
    constructor; [exact (Hok Ha)|exact (Hall Hans)].
Qed.

End Downloads.

Lemma all_succeeded (results : list (option string)) :
  Forall (fun x => succeeded x = true) results ->
  List.filter succeeded results = results.
Proof.
  induction 1 as [|x l Hx _ IH]; [reflexivity|].
  cbn. rewrite Hx, IH. reflexivity.
Qed.

(** C8: in a crawl session, whatever the downloads and whatever is on the
    disk, every file that exists before a run of downloads is still
    there, with its content, after it: a download writes to a path that
    did not exist. That path is the target path if it is free, else the
    first free one among the names with [_1], [_2], ... before the
    extension, and the search always ends. So the disk has one more file
    for each download that succeeds, and [N] downloads that are answered,
    be they all for one file name, leave [N] more files. *)
Theorem downloads_never_overwrite
    (guess_extension : string -> option string) (abspath : string -> string)
    (c : config) (requests : list (string * option Response))
    (st st' : state) (results : list (option string)) :
  download_all guess_extension abspath c requests st = (st', results) ->
  (forall path f, fs st !! path = Some f -> fs st' !! path = Some f)
  /\ size (fs st') = size (fs st) + length (List.filter succeeded results)
  /\ (Forall answered requests ->
      Forall (fun x => succeeded x = true) results
      /\ size (fs st') = size (fs st) + length requests)
  /\ (forall disk folder filename,
        exists p,
          unique_path disk folder filename = Some p
          /\ disk !! p = None
          /\ (p = OsPath.join folder filename
              \/ (is_Some (disk !! OsPath.join folder filename)
                  /\ exists k,
                       1 <= k
                       /\ p = candidate folder (OsPath.splitext filename).1
                                        (OsPath.splitext filename).2 k
                       /\ forall j, 1 <= j < k ->
                            is_Some (disk !! candidate folder
                                                       (OsPath.splitext filename).1
                                                       (OsPath.splitext filename).2 j)))).
Proof.
  intros Hrun.
  destruct (download_all_disk _ _ _ _ _ _ _ Hrun) as (Hkeep & Hsize & Hlen & Hall).
  split; [exact Hkeep|]. split; [exact Hsize|]. split.
  - intros Hans. specialize (Hall Hans). split; [exact Hall|].
    rewrite Hsize, (all_succeeded _ Hall), Hlen. reflexivity.
  - intros disk folder filename.
    destruct (unique_path_free disk folder filename) as (p & Hp & Hfree).
    exists p. split; [exact Hp|]. split; [exact Hfree|].
    unfold unique_path in Hp.
    destruct (OsPath.splitext filename) as [base ext]. cbn [fst snd].
    exact (next_free_first _ _ _ _ _ _ _ _ Hp).
Qed.

Lemma downloads_never_overwrite_witness :
  let out := download_all pdf_only id example_config
                          [report_request; report_request; report_request]
                          (initial_state example_config ∅) in
  dom (fs out.1)
  = {["downloaded_docs/report.pdf"]} ∪ {["downloaded_docs/report_1.pdf"]}
    ∪ {["downloaded_docs/report_2.pdf"]}
  /\ size (fs out.1)
     = size (fs (initial_state example_config ∅)) + length (List.filter succeeded out.2).
Proof.
  intros out. split; [vm_compute; reflexivity|].
  exact (proj1 (proj2 (downloads_never_overwrite pdf_only id example_config _ _
                         out.1 out.2 (surjective_pairing out)))).
Defined.

(** * Further properties *)

(** ** File names *)

Lemma sub_outside_kept (keep : ascii -> bool) (s : string) :
  keep "_"%char = true -> Urllib.all_chars keep (Re.sub_outside keep s) = true.
Proof.
  intros Hu. induction s as [|a s IH]; [reflexivity|].
  cbn. destruct (keep a) eqn:E; [rewrite E|rewrite Hu]; exact IH.
Qed.

Lemma sub_outside_fixed (keep : ascii -> bool) (s : string) :
  Urllib.all_chars keep s = true -> Re.sub_outside keep s = s.
Proof.
  induction s as [|a s IH]; [reflexivity|].
  cbn. intros [Ha Hs]%andb_true_iff. rewrite Ha, (IH Hs). reflexivity.
Qed.

Lemma length_sub_outside (keep : ascii -> bool) (s : string) :
  String.length (Re.sub_outside keep s) = String.length s.
Proof. induction s as [|a s IH]; [reflexivity|]. cbn. rewrite IH. reflexivity. Qed.

Lemma all_chars_without (p : ascii -> bool) (c : ascii) (s : string) :
  Urllib.all_chars p s = true -> p c = false -> Py.has_char c s = false.
Proof.
  intros Hs Hc. induction s as [|a s IH]; [reflexivity|].
  cbn in Hs |- *. apply andb_true_iff in Hs as [Ha Hs].
  rewrite (IH Hs), orb_false_r. apply Ascii.eqb_neq. intros ->. congruence.
Qed.

Lemma length_before (c : ascii) (s : string) :
  String.length (Py.before c s) <= String.length s.
Proof.
  induction s as [|a s IH]; [reflexivity|].
  cbn. destruct (Ascii.eqb a c); cbn; lia.
Qed.

Lemma has_char_app (c : ascii) (s t : string) :
  Py.has_char c (s +:+ t) = Py.has_char c s || Py.has_char c t.
Proof.
  induction s as [|a s IH]; [reflexivity|].
  rewrite app_cons. cbn. rewrite IH, orb_assoc. reflexivity.
Qed.

Lemma all_chars_app (p : ascii -> bool) (s t : string) :
  Urllib.all_chars p (s +:+ t) = Urllib.all_chars p s && Urllib.all_chars p t.
Proof.
  induction s as [|a s IH]; [reflexivity|].
  rewrite app_cons. cbn. rewrite IH, andb_assoc. reflexivity.
Qed.

(** X1: the clean-up of a document file name. Whatever the name resolved
    from the URL or the headers, the cleaned name holds only word
    characters, hyphens, underscores, dots and spaces: no slash, no
    question mark. Cleaning is idempotent and never makes the name
    longer. *)
Theorem sanitize_filename_safe (filename : string) :
  Urllib.all_chars filename_char (sanitize_filename filename) = true
  /\ Py.has_char "/" (sanitize_filename filename) = false
  /\ Py.has_char "?" (sanitize_filename filename) = false
  /\ sanitize_filename (sanitize_filename filename) = sanitize_filename filename
  /\ String.length (sanitize_filename filename) <= String.length filename.
Proof.
  assert (Hall : Urllib.all_chars filename_char (sanitize_filename filename) = true)
    by (apply sub_outside_kept; reflexivity).
  assert (Hq : Py.has_char "?" (sanitize_filename filename) = false)
    by (apply (all_chars_without _ _ _ Hall); reflexivity).
  split; [exact Hall|]. split; [apply (all_chars_without _ _ _ Hall); reflexivity|].
  split; [exact Hq|]. split.
  - unfold sanitize_filename at 1.
    rewrite (before_without _ _ Hq). apply sub_outside_fixed. exact Hall.
  - unfold sanitize_filename. rewrite length_sub_outside. apply length_before.
Qed.

Lemma replace_char_nonempty (a b : ascii) (s : string) :
  s <> EmptyString -> Py.replace_char a b s <> EmptyString.
Proof. destruct s; [contradiction|discriminate]. Qed.

(** X2: the file name of a page artifact. Whenever [get_clean_filename]
    returns, the name is not empty and holds only word characters,
    hyphens, underscores and dots, so the artifact lands directly in the
    output folder. *)
Theorem clean_filename_safe (url name : string) :
  get_clean_filename url = Ok name ->
  name <> EmptyString
  /\ Urllib.all_chars slug_char name = true
  /\ Py.has_char "/" name = false.
Proof.
  unfold get_clean_filename.
  destruct (Urllib.urlparse url) as [parsed|e]; [|discriminate].
  change (Ok parsed ≫= ?k) with (k parsed). cbv beta zeta.
  intros [= <-].
  assert (Hall : forall s, Urllib.all_chars slug_char (Re.sub_outside slug_char s) = true)
    by (intros s; apply sub_outside_kept; reflexivity).
  split; [|split; [apply Hall|apply (all_chars_without _ _ _ (Hall _)); reflexivity]].
  intros Hempty. apply (f_equal String.length) in Hempty.
  fold slug_char in Hempty. rewrite length_sub_outside in Hempty.
  destruct (Urllib.nonempty (Py.strip_char "/" (Urllib.path parsed))) eqn:E;
    cbn [negb] in Hempty.
  - destruct (Py.strip_char "/" (Urllib.path parsed)); [discriminate|].
    cbn in Hempty. discriminate.
  - cbn in Hempty. discriminate.
Qed.

Lemma clean_filename_safe_witness :
  get_clean_filename "https://example.com/blog/my post/" = Ok "blog_my_post"
  /\ Py.has_char "/" "blog_my_post" = false.
Proof.
  assert (H : get_clean_filename "https://example.com/blog/my post/" = Ok "blog_my_post")
    by (vm_compute; reflexivity).
  split; [exact H|].
  exact (proj2 (proj2 (clean_filename_safe _ _ H))).
Defined.

(** ** Normalisation *)

Lemma length_drop_last (s : string) :
  s <> EmptyString -> S (String.length (Py.drop_last s)) = String.length s.
Proof.
  intros Hs. destruct (last_char s Hs) as (e & b & ->).
  rewrite drop_last_snoc, length_app_string. cbn. lia.
Qed.

Lemma normalize_without_fragment (u : string) :
  Py.has_char "#" (normalize u) = false.
Proof.
  unfold normalize, strip_trailing_slash, strip_fragment.
  destruct (_ && _).
  - apply has_char_drop_last, has_char_before.
  - apply has_char_before.
Qed.

(** X3: the URLs that normalisation leaves as they are: those
    that have no [#] and that either are documents or do not end with a
    slash. Every other URL is changed, and no normalised URL holds a
    [#]. *)
Theorem normalize_fixpoints (u : string) :
  (normalize u = u
   <-> Py.has_char "#" u = false
       /\ (is_document u = true \/ Py.endswith u "/" = false))
  /\ Py.has_char "#" (normalize u) = false
  /\ String.length (normalize u) <= String.length u.
Proof.
  split; [|split; [apply normalize_without_fragment|]].
  - split.
    + intros Hfix.
      assert (Hno : Py.has_char "#" u = false)
        by (rewrite <- Hfix; apply normalize_without_fragment).
      split; [exact Hno|].
      unfold normalize, strip_fragment in Hfix.
      rewrite (before_without _ _ Hno) in Hfix.
      unfold strip_trailing_slash in Hfix.
      destruct (is_document u); [left; reflexivity|].
      destruct (Py.endswith u "/") eqn:E; [|right; reflexivity].
      cbn [negb andb] in Hfix.
      apply endswith_app in E as [p ->].
      rewrite drop_last_snoc in Hfix.
      apply (f_equal String.length) in Hfix.
      rewrite length_app_string in Hfix. cbn in Hfix. lia.
    + intros [Hno Hkeep]. unfold normalize, strip_fragment.
      rewrite (before_without _ _ Hno). unfold strip_trailing_slash.
      destruct Hkeep as [-> | ->]; [reflexivity|].
      rewrite andb_false_r. reflexivity.
  - unfold normalize, strip_trailing_slash.
    pose proof (length_before "#" u) as Hb. fold (strip_fragment u) in Hb.
    destruct (_ && _) eqn:E; [|exact Hb].
    apply andb_true_iff in E as [_ E]. apply endswith_app in E as [p Hp].
    rewrite Hp, drop_last_snoc. rewrite Hp, length_app_string in Hb. lia.
Qed.

(** ** The crawl: what the frontier and the indexes hold *)

Section CrawlInvariant.

Variable parse : string -> Bs4.node.
Variable guess_extension : string -> option string.
Variable abspath : string -> string.
Variable c : config.

(** A download changes [downloaded_docs] alone, by at most one entry, for
    the URL asked. *)
Lemma download_effect (url : string) (resp : option Response) (st : state) :
  let st' := (download_document guess_extension abspath c url resp st).1 in
  visited_urls st' = visited_urls st
  /\ found_urls st' = found_urls st
  /\ index_pages st' = index_pages st
  /\ (downloaded_docs st' = downloaded_docs st
      \/ exists info, downloaded_docs st' = downloaded_docs st ++ [info]
                      /\ doc_url info = url).
Proof.
  unfold download_document.
  destruct resp as [r|]; [|cbn; auto].
  destruct (negb (status r =? 200)); [cbn; auto|].
  destruct (resolve_filename _ _ _ _) as [filename|e]; [|cbn; auto].
  destruct (unique_path _ _ _) as [file_path|]; [|cbn; auto].
  cbn. repeat split. right. eexists. split; reflexivity.
Qed.

Lemma save_effect (p : Page) (st st' : state) :
  save_structured_content abspath c p st = Ok st' ->
  visited_urls st' = visited_urls st
  /\ found_urls st' = found_urls st
  /\ downloaded_docs st' = downloaded_docs st
  /\ exists file_path,
       index_pages st' = index_pages st ++ [(page_url p, title p, file_path)].
Proof.
  unfold save_structured_content.
  destruct (artifact_path c (page_url p)) as [file_path|e]; [|discriminate].
  intros [= <-]. cbn. repeat split. eexists. reflexivity.
Qed.

Lemma crawl_inv_initial (disk : gmap string file) :
  crawl_inv c (LoopHead, initial_state c disk).
Proof.
  unfold crawl_inv, page_urls, doc_urls. cbn.
  split; [set_solver|]. split; [intros u Hu; left; set_solver|].
  split; [apply NoDup_nil_2|]. split; [apply NoDup_nil_2|].
  split; [intros u []|]. split; [intros u []|exact I].
Qed.

Lemma crawl_inv_step (s s' : pc * state) :
  crawl_inv c s -> step parse guess_extension abspath c s s' -> crawl_inv c s'.
Proof.
  intros (Hdis & Hknown & Hnp & Hnd & Hpages & Hdocs & Hpc) Hstep.
  destruct Hstep as
    [st He | st url Hin | st url Hin | st url Hnin | st url resp Hdoc | st url Hdoc
    | st url html Hdoc Hne | st url html href rest found Hd | st url html href rest e Hd
    | st url html p st' Hx Hs | st url html Hx | st url html e Hx | st url html p e Hx Hs];
    unfold crawl_inv, page_urls, doc_urls, set_found, set_visited in *;
    cbn [fst snd visited_urls found_urls index_pages downloaded_docs] in *.
  - auto 10.
  - split; [set_solver|]. split; [intros u Hu; apply Hknown; set_solver|].
    repeat (split; [assumption|]).
    split; [set_solver|]. split; [set_solver|]. apply Hknown. set_solver.
  - destruct Hpc as [Hnot _]. contradiction.
  - destruct Hpc as (Hnv & Hnf & Hk).
    split; [set_solver|]. split.
    { intros u [Hu|Hu]%elem_of_union; [|apply Hknown; set_solver].
      apply elem_of_union in Hu as [->%elem_of_singleton|Hu];
        [exact Hk|apply Hknown; set_solver]. }
    split; [assumption|]. split; [assumption|].
    split; [intros u Hu; destruct (Hpages u Hu); split; [set_solver|assumption]|].
    split; [intros u Hu; destruct (Hdocs u Hu); split; [set_solver|assumption]|].
    split; [set_solver|]. split; intros Hu.
    + destruct (Hpages url Hu). contradiction.
    + destruct (Hdocs url Hu). contradiction.
  - destruct Hpc as (Hv & Hnp' & Hnd').
    destruct (download_effect url resp st) as (-> & -> & -> & Hlist).
    split; [assumption|]. split; [assumption|]. split; [assumption|].
    destruct Hlist as [->|(info & -> & Hinfo)]; [auto|].
    rewrite map_app. cbn [map]. rewrite Hinfo.
    split; [|split; [assumption|split; [|exact I]]].
    + apply NoDup_app. split; [exact Hnd|]. split; [|apply NoDup_singleton].
      intros u Hu [->|[]]%list_elem_of_In. apply Hnd', list_elem_of_In, Hu.
    + intros u [Hu|[<-|[]]]%in_app_iff; [exact (Hdocs u Hu)|auto].
  - auto 10.
  - destruct Hpc as (Hv & Hnp' & _). auto 10.
  - destruct (discover_link_adds _ _ _ _ _ _ Hd)
      as [->|(full & _ & Hnew & Hvalid & ->)]; [auto 10|].
    split; [set_solver|]. split; [|auto 10].
    intros u [Hu|Hu]%elem_of_union; [apply Hknown; set_solver|].
    apply elem_of_union in Hu as [->%elem_of_singleton|Hu];
      [|apply Hknown; set_solver].
    right. split; [exact Hvalid|]. apply normalize_without_fragment.
  - auto 10.
  - destruct Hpc as (Hv & Hnp' & Hdoc).
    destruct (extracted_url _ _ _ _ Hx) as [Hurl _].
    destruct (save_effect _ _ _ Hs) as (-> & -> & -> & file_path & ->).
    rewrite map_app. cbn [map fst]. rewrite Hurl.
    split; [assumption|]. split; [assumption|].
    split; [|split; [assumption|split; [|split; [assumption|exact I]]]].
    + apply NoDup_app. split; [exact Hnp|]. split; [|apply NoDup_singleton].
      intros u Hu [->|[]]%list_elem_of_In. apply Hnp', list_elem_of_In, Hu.
    + intros u [Hu|[<-|[]]]%in_app_iff; [exact (Hpages u Hu)|auto].
  - auto 10.
  - auto 10.
  - auto 10.
Qed.

Lemma crawl_inv_reachable (disk : gmap string file) (s : pc * state) :
  rtc (step parse guess_extension abspath c) (LoopHead, initial_state c disk) s ->
  crawl_inv c s.
Proof.
  revert s. apply rtc_ind_r.
  - apply crawl_inv_initial.
  - intros y z _ Hyz IH. exact (crawl_inv_step y z IH Hyz).
Qed.

End CrawlInvariant.

(** What [is_valid_url] has checked when it answers [True]. *)
Lemma valid_url_facts (c : config) (u : string) :
  is_valid_url c u = Ok true ->
  u <> EmptyString
  /\ (exists parsed_url parsed_base,
        Urllib.urlparse u = Ok parsed_url
        /\ Urllib.urlparse (base_url c) = Ok parsed_base
        /\ (Urllib.netloc parsed_url = EmptyString
            \/ Urllib.netloc parsed_url = Urllib.netloc parsed_base))
  /\ existsb (Py.endswith (Py.lower u)) ignore_exts = false
  /\ existsb (fun pattern => Py.contains pattern u) ignored_patterns = false.
Proof.
  unfold is_valid_url.
  destruct (Urllib.nonempty u) eqn:Hne; cbn [negb]; [|discriminate].
  destruct (Urllib.urlparse u) as [pu|e]; [|discriminate].
  change (Ok pu ≫= ?k) with (k pu). cbv beta.
  destruct (Urllib.urlparse (base_url c)) as [pb|e]; [|discriminate].
  change (Ok pb ≫= ?k) with (k pb). cbv beta.
  destruct (Urllib.nonempty (Urllib.netloc pu)
            && negb (String.eqb (Urllib.netloc pu) (Urllib.netloc pb))) eqn:Hnet;
    [discriminate|].
  destruct (existsb (Py.endswith (Py.lower u)) ignore_exts) eqn:Hext; [discriminate|].
  destruct (existsb (fun pattern => Py.contains pattern u) ignored_patterns) eqn:Hpat;
    [discriminate|].
  intros _. split; [intros ->; discriminate|]. split; [|auto].
  exists pu, pb. split; [reflexivity|]. split; [reflexivity|].
  apply andb_false_iff in Hnet as [Hn|Hn].
  - left. unfold Urllib.nonempty in Hn. apply negb_false_iff, String.eqb_eq in Hn.
    exact Hn.
  - right. apply negb_false_iff, String.eqb_eq in Hn. exact Hn.
Qed.

(** X4: the crawl never leaves the site. In every state that
    the loop of [scrape] reaches, each URL that is visited or pending is
    the start URL, or it is not empty, has no fragment, parses, has either
    no network location or the one of the base URL, does not end with an
    ignored extension and contains none of the ignored patterns. *)
Theorem frontier_stays_on_site
    (parse : string -> Bs4.node) (guess_extension : string -> option string)
    (abspath : string -> string) (c : config) (disk : gmap string file)
    (s : pc * state) (u : string) :
  rtc (step parse guess_extension abspath c) (LoopHead, initial_state c disk) s ->
  u ∈ visited_urls s.2 ∪ found_urls s.2 ->
  u = start_url c
  \/ (u <> EmptyString
      /\ Py.has_char "#" u = false
      /\ (exists parsed_url parsed_base,
            Urllib.urlparse u = Ok parsed_url
            /\ Urllib.urlparse (base_url c) = Ok parsed_base
            /\ (Urllib.netloc parsed_url = EmptyString
                \/ Urllib.netloc parsed_url = Urllib.netloc parsed_base))
      /\ existsb (Py.endswith (Py.lower u)) ignore_exts = false
      /\ existsb (fun pattern => Py.contains pattern u) ignored_patterns = false).
Proof.
  intros Hreach Hu.
  destruct (crawl_inv_reachable _ _ _ _ _ _ Hreach) as (_ & Hknown & _).
  destruct (Hknown u Hu) as [->|[Hvalid Hfrag]]; [left; reflexivity|right].
  destruct (valid_url_facts c u Hvalid) as (Hne & Hnet & Hext & Hpat). auto 10.
Qed.

Lemma frontier_stays_on_site_witness :
  exists st',
    rtc (step (fun _ => home_tree) pdf_only id example_config)
        (LoopHead, initial_state example_config ∅) (LoopHead, st')
    /\ "https://example.com/about" ∈ visited_urls st' ∪ found_urls st'
    /\ Py.has_char "#" "https://example.com/about" = false.
Proof.
  destruct home_run as (st' & Hrun & _ & Hfound & _).
  assert (Hin : "https://example.com/about" ∈ visited_urls st' ∪ found_urls st')
    by (rewrite Hfound; set_solver).
  exists st'. split; [exact Hrun|]. split; [exact Hin|].
  destruct (frontier_stays_on_site _ _ _ _ _ (LoopHead, st')
              "https://example.com/about" Hrun Hin) as [H|(_ & H & _)];
    [discriminate H|exact H].
Defined.



Lemma nodup_bounded (l : list string) (X : gset string) :
  NoDup l -> (forall u, In u l -> u ∈ X) -> length l <= size X.
Proof.
  intros Hnd Hin.
  rewrite <- (size_list_to_set (C := gset string) l Hnd).
  apply subseteq_size. intros u Hu%elem_of_list_to_set.
  apply Hin, list_elem_of_In, Hu.
Qed.

(** X6: the indexes of a crawl. In every state that the loop
    reaches, [content_index["pages"]] lists each URL at most once and
    [downloaded_docs] lists each URL at most once; the pages listed are
    visited URLs that are not documents, the documents listed are visited
    URLs that are documents; so pages and documents together are never
    more than the URLs visited. *)
Theorem index_lists_visited_once
    (parse : string -> Bs4.node) (guess_extension : string -> option string)
    (abspath : string -> string) (c : config) (disk : gmap string file)
    (s : pc * state) :
  rtc (step parse guess_extension abspath c) (LoopHead, initial_state c disk) s ->
  NoDup (page_urls s.2)
  /\ NoDup (doc_urls s.2)
  /\ (forall u, In u (page_urls s.2) -> u ∈ visited_urls s.2 /\ is_document u = false)
  /\ (forall u, In u (doc_urls s.2) -> u ∈ visited_urls s.2 /\ is_document u = true)
  /\ length (index_pages s.2) + length (downloaded_docs s.2) <= size (visited_urls s.2).
Proof.
  intros Hreach.
  destruct (crawl_inv_reachable _ _ _ _ _ _ Hreach)
    as (_ & _ & Hnp & Hnd & Hpages & Hdocs & _).
  repeat (split; [assumption|]).
  assert (Hlen : length (page_urls s.2 ++ doc_urls s.2) <= size (visited_urls s.2)).
  { apply nodup_bounded.
    - apply NoDup_app. split; [exact Hnp|]. split; [|exact Hnd].
      intros u Hp%list_elem_of_In Hd%list_elem_of_In.
      destruct (Hpages u Hp) as [_ H1]. destruct (Hdocs u Hd) as [_ H2]. congruence.
    - intros u [Hu|Hu]%in_app_iff; [apply (Hpages u Hu)|apply (Hdocs u Hu)]. }
  unfold page_urls, doc_urls in Hlen.
  rewrite length_app, !length_map in Hlen. exact Hlen.
Qed.

Lemma index_lists_visited_once_witness :
  exists st',
    rtc (step (fun _ => home_tree) pdf_only id example_config)
        (LoopHead, initial_state example_config ∅) (LoopHead, st')
    /\ page_urls st' = ["https://example.com/"]
    /\ length (index_pages st') + length (downloaded_docs st') <= size (visited_urls st').
Proof.
  destruct home_run as (st' & Hrun & _ & _ & Hpages).
  exists st'. split; [exact Hrun|]. split; [exact Hpages|].
  exact (proj2 (proj2 (proj2 (proj2
           (index_lists_visited_once _ _ _ _ _ (LoopHead, st') Hrun))))).
Defined.

(** ** The parse tree after the clean-up *)

Lemma node_nested_ind (P : Bs4.node -> Prop) :
  (forall nm ats cs, Forall P cs -> P (Bs4.Tag nm ats cs)) ->
  (forall s, P (Bs4.NavigableString s)) ->
  (forall s, P (Bs4.Comment s)) ->
  forall n, P n.
Proof.
  intros HT HS HC. fix IH 1. intros [nm ats cs|s|s]; [|apply HS|apply HC].
  apply HT. induction cs as [|x cs IHcs]; constructor; [apply IH|exact IHcs].
Qed.

Lemma in_descendants (n d : Bs4.node) :
  In d (Bs4.descendants n) <->
  exists nm ats cs x,
    n = Bs4.Tag nm ats cs /\ In x cs /\ (d = x \/ In d (Bs4.descendants x)).
Proof.
  destruct n as [nm ats cs|s|s]; cbn [Bs4.descendants].
  - rewrite in_flat_map. split.
    + intros (x & Hx & [<-|Hd]); exists nm, ats, cs, x; auto.
    + intros (nm' & ats' & cs' & x & [= -> -> ->] & Hx & Hd).
      exists x. split; [exact Hx|]. destruct Hd as [->|Hd]; [left|right]; auto.
  - split; [intros []|]. intros (? & ? & ? & ? & H & _). discriminate.
  - split; [intros []|]. intros (? & ? & ? & ? & H & _). discriminate.
Qed.

(** Below a descendant is below. *)
Lemma descendants_trans (n m d : Bs4.node) :
  In m (Bs4.descendants n) -> In d (Bs4.descendants m) -> In d (Bs4.descendants n).
Proof.
  revert m d. induction n as [nm ats cs IH| |] using node_nested_ind;
    intros m d Hm Hd; [|destruct Hm..].
  apply in_descendants in Hm as (nm' & ats' & cs' & x & [= <- <- <-] & Hx & Hm).
  apply in_descendants. exists nm, ats, cs, x. split; [reflexivity|].
  split; [exact Hx|]. right.
  destruct Hm as [->|Hm]; [exact Hd|].
  rewrite Forall_forall in IH. apply (IH x (proj2 (list_elem_of_In _ _) Hx) m d Hm Hd).
Qed.

Lemma decompose_all_children (p : Bs4.node -> bool) (nm : string)
    (ats : gmap string string) (cs : list Bs4.node) :
  Bs4.decompose_all p (Bs4.Tag nm ats cs)
  = Bs4.Tag nm ats (map (Bs4.decompose_all p) (List.filter (fun x => negb (p x)) cs)).
Proof.
  cbn [Bs4.decompose_all]. f_equal.
  induction cs as [|x cs IH]; [reflexivity|].
  cbn [List.filter]. destruct (p x); cbn [negb map]; rewrite IH; reflexivity.
Qed.

Lemma shallow_decompose (p q : Bs4.node -> bool) (n : Bs4.node) :
  shallow q -> q (Bs4.decompose_all p n) = q n.
Proof.
  intros Hq. destruct n as [nm ats cs|s|s]; [|reflexivity..].
  rewrite decompose_all_children. apply Hq.
Qed.

(** Every node of the tree after [decompose] is what is left of a node of
    the tree before, and fails the test. *)
Lemma descendants_decompose (p : Bs4.node -> bool) (n d : Bs4.node) :
  shallow p ->
  In d (Bs4.descendants (Bs4.decompose_all p n)) ->
  p d = false
  /\ exists d0, In d0 (Bs4.descendants n) /\ d = Bs4.decompose_all p d0.
Proof.
  intros Hp. revert d.
  induction n as [nm ats cs IH| |] using node_nested_ind; intros d Hd;
    [|destruct Hd..].
  rewrite decompose_all_children in Hd.
  apply in_descendants in Hd as (nm' & ats' & cs' & x & [= <- <- <-] & Hx & Hd).
  apply in_map_iff in Hx as (x0 & <- & Hx0).
  apply filter_In in Hx0 as [Hx0 Hkeep]. apply negb_true_iff in Hkeep.
  destruct Hd as [->|Hd].
  - split; [rewrite (shallow_decompose p p x0 Hp); exact Hkeep|].
    exists x0. split; [|reflexivity].
    apply in_descendants. exists nm, ats, cs, x0. auto.
  - rewrite Forall_forall in IH.
    destruct (IH x0 (proj2 (list_elem_of_In _ _) Hx0) d Hd) as (Hpd & d0 & Hd0 & ->).
    split; [exact Hpd|]. exists d0. split; [|reflexivity].
    apply in_descendants. exists nm, ats, cs, x0. auto.
Qed.

(** A shallow test that fails everywhere in the tree still fails
    everywhere after [decompose]. *)
Lemma decompose_keeps_clean (p q : Bs4.node -> bool) (n : Bs4.node) :
  shallow p -> shallow q ->
  (forall d, In d (Bs4.descendants n) -> q d = false) ->
  forall d, In d (Bs4.descendants (Bs4.decompose_all p n)) -> q d = false.
Proof.
  intros Hp Hq Hclean d Hd.
  destruct (descendants_decompose p n d Hp Hd) as (_ & d0 & Hd0 & ->).
  rewrite (shallow_decompose p q d0 Hq). exact (Hclean d0 Hd0).
Qed.

Lemma shallow_tag_named (names : list string) : shallow (Bs4.tag_named names).
Proof. intros nm ats cs cs'. reflexivity. Qed.

Lemma shallow_matches (selector : string) : shallow (Bs4.matches selector).
Proof. intros nm ats cs cs'. reflexivity. Qed.

(** After [remove_elements], no node is selected by any of the
    selectors, and what failed before still fails. *)
Lemma remove_elements_clean (selectors : list string) (soup : Bs4.node) :
  (forall d selector,
     In d (Bs4.descendants (remove_elements soup selectors)) ->
     In selector selectors -> Bs4.matches selector d = false)
  /\ (forall q, shallow q ->
        (forall d, In d (Bs4.descendants soup) -> q d = false) ->
        forall d, In d (Bs4.descendants (remove_elements soup selectors)) ->
                  q d = false).
Proof.
  unfold remove_elements. revert soup.
  induction selectors as [|sel rest IH]; intros soup; cbn [fold_left].
  - split; [intros d selector _ []|auto].
  - destruct (IH (Bs4.decompose_all (Bs4.matches sel) soup)) as [IH1 IH2].
    split.
    + intros d selector Hd [<-|Hin]; [|exact (IH1 d selector Hd Hin)].
      apply (IH2 (Bs4.matches sel) (shallow_matches sel)); [|exact Hd].
      intros d' Hd'.
      exact (proj1 (descendants_decompose _ _ _ (shallow_matches sel) Hd')).
    + intros q Hq Hclean d Hd. apply (IH2 q Hq); [|exact Hd].
      apply decompose_keeps_clean; auto using shallow_matches.
Qed.

Lemma cleaned_has_no_removable (soup d : Bs4.node) :
  In d (Bs4.descendants (cleaned soup)) -> removable d = false.
Proof.
  unfold cleaned. intros Hd.
  set (s1 := Bs4.decompose_all _ soup) in Hd.
  set (s2 := remove_elements s1 nav_selectors) in Hd.
  destruct (remove_elements_clean footer_selectors s2) as [Hfoot Hkeep2].
  destruct (remove_elements_clean nav_selectors s1) as [Hnav Hkeep1].
  unfold removable. apply orb_false_iff. split.
  - apply (Hkeep2 _ (shallow_tag_named _)); [|exact Hd].
    apply (Hkeep1 _ (shallow_tag_named _)).
    intros d' Hd'.
    exact (proj1 (descendants_decompose _ _ _ (shallow_tag_named _) Hd')).
  - apply not_true_iff_false. intros (sel & Hsel & Hm)%existsb_exists.
    apply in_app_iff in Hsel as [Hsel|Hsel].
    + assert (Bs4.matches sel d = false); [|congruence].
      apply (Hkeep2 _ (shallow_matches sel)); [|exact Hd].
      intros d' Hd'. exact (Hnav d' sel Hd' Hsel).
    + rewrite (Hfoot d sel Hd Hsel) in Hm. discriminate.
Qed.

Lemma largest_in (elements : list Bs4.node) (m : Bs4.node) :
  largest elements = Some m -> In m elements.
Proof.
  destruct elements as [|x l]; [discriminate|]. intros [= <-].
  destruct (max_by_first text_length l x) as (l1 & l2 & -> & _).
  apply in_app_iff. right. left. reflexivity.
Qed.

Lemma select_main_in (selectors : list string) (soup m : Bs4.node) :
  select_main selectors soup = Some m ->
  exists selector, In selector selectors /\ In m (Bs4.select selector soup).
Proof.
  induction selectors as [|sel rest IH]; [discriminate|].
  cbn [select_main]. destruct (Bs4.select sel soup) as [|x l] eqn:E.
  - intros H. destruct (IH H) as (s & Hs & Hm). exists s.
    split; [right; exact Hs|exact Hm].
  - intros H. exists sel. split; [left; reflexivity|].
    rewrite E. apply largest_in. exact H.
Qed.

(** The main content node is a node of the tree it is looked for in. *)
Lemma main_content_in (soup m : Bs4.node) :
  main_content soup = Some m -> In m (Bs4.descendants soup).
Proof.
  unfold main_content.
  destruct (select_main content_selectors soup) as [m'|] eqn:E.
  - intros [= <-]. destruct (select_main_in _ _ _ E) as (sel & _ & Hm).
    apply filter_In in Hm as [Hm _]. exact Hm.
  - destruct (largest (Bs4.find_all ["div"] soup)) as [m'|] eqn:El.
    + intros [= <-]. apply largest_in in El.
      apply filter_In in El as [Hm _]. exact Hm.
    + unfold Bs4.find. intros Hm.
      destruct (Bs4.find_all ["body"] soup) as [|x l] eqn:Ef; [discriminate|].
      injection Hm as <-.
      assert (Hx : In x (Bs4.find_all ["body"] soup)) by (rewrite Ef; left; reflexivity).
      apply filter_In in Hx as [Hx _]. exact Hx.
Qed.

Lemma collect_in {A B : Type} (f : A -> result (list B)) (l : list A)
    (rs : list B) (x : B) :
  collect f l = Ok rs -> In x rs ->
  exists a r, In a l /\ f a = Ok r /\ In x r.
Proof.
  revert rs. induction l as [|a l IH]; intros rs; cbn [collect].
  - intros [= <-] [].
  - destruct (f a) as [r|e] eqn:Ef; [|discriminate].
    change (Ok r ≫= ?k) with (k r). cbv beta.
    destruct (collect f l) as [rest|e]; [|discriminate].
    intros [= <-] [Hx|Hx]%in_app_iff.
    + exists a, r. split; [left; reflexivity|]. split; [exact Ef|exact Hx].
    + destruct (IH rest eq_refl Hx) as (a' & r' & Ha & Hf & Hr).
      exists a', r'. split; [right; exact Ha|]. split; [exact Hf|exact Hr].
Qed.

(** X7: nothing of the navigation, the footer or the non-content
    elements reaches the page. After the clean-up no node of the tree is
    a [script], [style], [meta], [noscript], [svg] or [iframe] element or
    is selected by a navigation or footer selector; the main content node
    is a node of that tree; and every heading and content block of the
    page is the text of an element of that tree, below which there is no
    such node either. *)
Theorem page_comes_from_content
    (parse : string -> Bs4.node) (url html : string) (p : Page) (main : Bs4.node) :
  extract_structured_content parse url html = Ok (Some p) ->
  main_content (cleaned (parse html)) = Some main ->
  (forall d, In d (Bs4.descendants (cleaned (parse html))) -> removable d = false)
  /\ In main (Bs4.descendants (cleaned (parse html)))
  /\ (forall level text, In (level, text) (headings p) ->
        exists e, In e (Bs4.descendants main)
                  /\ Bs4.get_text e = text
                  /\ forall d, In d (e :: Bs4.descendants e) -> removable d = false)
  /\ (forall kind text, In (kind, text) (content_blocks p) ->
        exists e, In e (Bs4.descendants main)
                  /\ Bs4.name_of e = kind /\ Bs4.get_text e = text
                  /\ forall d, In d (e :: Bs4.descendants e) -> removable d = false).
Proof.
  intros Hp Hmain.
  pose proof (main_content_in _ _ Hmain) as Hin.
  assert (Hbelow : forall e, In e (Bs4.descendants main) ->
            forall d, In d (e :: Bs4.descendants e) -> removable d = false).
  { intros e He d [<-|Hd]; apply cleaned_has_no_removable with (soup := parse html).
    - exact (descendants_trans _ _ _ Hin He).
    - exact (descendants_trans _ _ _ Hin (descendants_trans _ _ _ He Hd)). }
  apply extracted_fields in Hp as [Hp _]. rewrite Hmain in Hp.
  destruct Hp as (Hh & Hb & _).
  split; [intros d; apply cleaned_has_no_removable|]. split; [exact Hin|]. split.
  - intros level text Ht. rewrite Hh in Ht. unfold extract_headings in Ht.
    apply in_flat_map in Ht as (l & _ & Ht). unfold headings_at in Ht.
    apply in_flat_map in Ht as (e & He & Ht).
    apply filter_In in He as [He _].
    destruct (Urllib.nonempty (Bs4.get_text e)); [|destruct Ht].
    destruct Ht as [[= _ <-]|[]]. exists e.
    split; [exact He|]. split; [reflexivity|]. exact (Hbelow e He).
  - intros kind text Ht. rewrite Hb in Ht. unfold extract_blocks in Ht.
    apply in_flat_map in Ht as (e & He & Ht).
    apply filter_In in He as [He _].
    destruct (keeps_block (Bs4.get_text e)); [|destruct Ht].
    destruct Ht as [[= <- <-]|[]]. exists e.
    split; [exact He|]. split; [reflexivity|]. split; [reflexivity|].
    exact (Hbelow e He).
Qed.

Lemma page_comes_from_content_witness :
  extract_structured_content (fun _ => article_tree) "https://example.com/post"
                             article_html = Ok (Some article_page)
  /\ main_content (cleaned article_tree) = Some article_node
  /\ In article_node (Bs4.descendants (cleaned article_tree)).
Proof.
  split; [exact article_extracted|]. split; [exact article_main|].
  exact (proj1 (proj2 (page_comes_from_content (fun _ => article_tree) _ _ _ _
                         article_extracted article_main))).
Defined.

(** X8: the shape of a page record. Every heading has a level
    from 1 to 6 and a text that is not empty; every content block is of
    kind [p], [li], [blockquote] or [pre] and its text has more than ten
    characters; every image has a source that is not empty; every link
    has a text and a target that are not empty. *)
Theorem page_well_formed
    (parse : string -> Bs4.node) (url html : string) (p : Page) :
  extract_structured_content parse url html = Ok (Some p) ->
  page_url p = url
  /\ Forall (fun h => 1 <= h.1 <= 6 /\ h.2 <> EmptyString) (headings p)
  /\ Forall (fun b => In b.1 block_tags /\ 10 < String.length b.2) (content_blocks p)
  /\ Forall (fun i => i.1 <> EmptyString) (images p)
  /\ Forall (fun l => l.1 <> EmptyString /\ l.2 <> EmptyString) (links p).
Proof.
  intros Hp. split; [exact (proj1 (extracted_url _ _ _ _ Hp))|].
  apply extracted_fields in Hp as [Hp _].
  destruct (main_content (cleaned (parse html))) as [main|].
  - destruct Hp as (-> & -> & Hi & Hl).
    split; [|split; [|split]]; apply Forall_forall; intros x Hx%list_elem_of_In.
    + unfold extract_headings in Hx. apply in_flat_map in Hx as (l & Hl1 & Hx).
      apply in_seq in Hl1. unfold headings_at in Hx.
      apply in_flat_map in Hx as (e & _ & Hx).
      destruct (Urllib.nonempty (Bs4.get_text e)) eqn:E; [|destruct Hx].
      destruct Hx as [<-|[]]. cbn. split; [lia|]. intros H. rewrite H in E. discriminate.
    + unfold extract_blocks in Hx. apply in_flat_map in Hx as (e & He & Hx).
      destruct (keeps_block (Bs4.get_text e)) eqn:E; [|destruct Hx].
      destruct Hx as [<-|[]]. cbn [fst snd].
      rewrite keeps_block_length in E. apply Nat.ltb_lt in E. split; [|exact E].
      apply filter_In in He as [_ He]. destruct e as [nm ats cs| |]; [|discriminate..].
      cbn [Bs4.tag_named] in He. cbn [Bs4.name_of]. unfold Urllib.mem in He.
      apply existsb_exists in He as (t & Ht & ->%String.eqb_eq). exact Ht.
    + destruct (collect_in _ _ _ _ Hi Hx) as (img & r & _ & Hf & Hr).
      destruct (Urllib.urljoin url (attr_or_empty "src" img)) as [src|e]; [|discriminate].
      change (Ok src ≫= ?k) with (k src) in Hf. cbv beta zeta in Hf.
      injection Hf as <-.
      destruct (Urllib.nonempty src) eqn:E; [|destruct Hr].
      destruct Hr as [<-|[]]. cbn. intros H. rewrite H in E. discriminate.
    + destruct (collect_in _ _ _ _ Hl Hx) as (a & r & _ & Hf & Hr).
      cbv zeta in Hf.
      destruct (Urllib.urljoin url (attr_or_empty "href" a)) as [href|e]; [|discriminate].
      change (Ok href ≫= ?k) with (k href) in Hf. cbv beta in Hf.
      injection Hf as <-.
      destruct (Urllib.nonempty (Bs4.get_text a)) eqn:E1; [|destruct Hr].
      destruct (Urllib.nonempty href) eqn:E2; [|destruct Hr].
      destruct Hr as [<-|[]]. cbn.
      split; intros H; [rewrite H in E1|rewrite H in E2]; discriminate.
  - destruct Hp as (-> & -> & -> & ->). repeat split; constructor.
Qed.

Lemma page_well_formed_witness :
  extract_structured_content (fun _ => article_tree) "https://example.com/post"
                             article_html = Ok (Some article_page)
  /\ Forall (fun h => 1 <= h.1 <= 6 /\ h.2 <> EmptyString) (headings article_page).
Proof.
  split; [exact article_extracted|].
  exact (proj1 (proj2 (page_well_formed (fun _ => article_tree) _ _ _ article_extracted))).
Defined.

(** ** Downloads *)

Lemma rsplit_dot_app (p b e : string) :
  OsPath.rsplit_dot p = Some (b, e) ->
  p = b +:+ e /\ exists e', e = String "." e' /\ Py.has_char "." e' = false.
Proof.
  revert b e. induction p as [|a p IH]; intros b e; [discriminate|].
  cbn [OsPath.rsplit_dot].
  destruct (OsPath.rsplit_dot p) as [[b' e']|] eqn:E.
  - intros [= <- <-]. destruct (IH b' e' eq_refl) as (-> & Hdot).
    split; [reflexivity|exact Hdot].
  - destruct (Ascii.eqb_spec a ".") as [->|_]; [|discriminate].
    intros [= <- <-]. split; [reflexivity|]. exists p. split; [reflexivity|].
    clear IH. induction p as [|x p IHp]; [reflexivity|].
    cbn [OsPath.rsplit_dot] in E.
    destruct (OsPath.rsplit_dot p) as [[? ?]|]; [discriminate|].
    destruct (Ascii.eqb x ".") eqn:Ex; [discriminate|].
    cbn. rewrite Ex. apply IHp. reflexivity.
Qed.

Lemma dirpart_basename (p : string) : OsPath.dirpart p +:+ OsPath.basename p = p.
Proof.
  induction p as [|a p IH]; [reflexivity|].
  cbn [OsPath.dirpart OsPath.basename].
  destruct (Py.has_char "/" (String a p)); [|reflexivity].
  rewrite app_cons, IH. reflexivity.
Qed.

(** [os.path.splitext] cuts its argument in two, and the extension is
    empty or a dot followed by characters other than a dot. *)
Lemma splitext_app (p b e : string) :
  OsPath.splitext p = (b, e) ->
  b +:+ e = p
  /\ (e = EmptyString \/ exists e', e = String "." e' /\ Py.has_char "." e' = false).
Proof.
  unfold OsPath.splitext.
  destruct (OsPath.rsplit_dot (OsPath.basename p)) as [[b' e']|] eqn:E.
  - destruct (Urllib.all_chars _ b').
    + intros [= <- <-]. split; [|left; reflexivity].
      clear. induction p as [|a p IH]; [reflexivity|]. rewrite app_cons, IH. reflexivity.
    + intros [= <- <-]. destruct (rsplit_dot_app _ _ _ E) as (Hp & Hdot).
      split; [|right; exact Hdot].
      rewrite app_assoc_string, <- Hp. apply dirpart_basename.
  - intros [= <- <-]. split; [|left; reflexivity].
    clear. induction p as [|a p IH]; [reflexivity|]. rewrite app_cons, IH. reflexivity.
Qed.

(** X9: a renamed download keeps its extension. The base and the
    extension that the collision loop works with make up the file name;
    the extension is empty or starts with the last dot of the name; and
    every candidate [base_k ext] ends with that extension. *)
Theorem candidate_keeps_extension (folder filename : string) (k : nat) :
  let base := (OsPath.splitext filename).1 in
  let ext := (OsPath.splitext filename).2 in
  base +:+ ext = filename
  /\ (ext = EmptyString
      \/ exists e', ext = String "." e' /\ Py.has_char "." e' = false)
  /\ Py.endswith (candidate folder base ext k) ext = true.
Proof.
  intros base ext.
  destruct (splitext_app filename base ext) as [Happ Hext];
    [unfold base, ext; destruct (OsPath.splitext filename); reflexivity|].
  split; [exact Happ|]. split; [exact Hext|].
  unfold candidate. destruct (join_underscore folder base) as [prefix Hjoin].
  change (base +:+ "_" +:+ ?rest) with (base +:+ String "_" rest).
  rewrite Hjoin. apply endswith_app.
  exists (prefix +:+ base +:+ String "_" (Py.str_of_nat k)).
  rewrite !app_assoc_string. reflexivity.
Qed.

Lemma digits_are_filename_chars (d : Decimal.uint) :
  Urllib.all_chars filename_char (NilEmpty.string_of_uint d) = true.
Proof. induction d; cbn; auto. Qed.

Lemma candidate_name_allowed (filename : string) (k : nat) :
  Urllib.all_chars filename_char filename = true ->
  Urllib.all_chars filename_char
    ((OsPath.splitext filename).1 +:+ "_" +:+ Py.str_of_nat k
     +:+ (OsPath.splitext filename).2) = true.
Proof.
  intros Hall.
  destruct (OsPath.splitext filename) as [base ext] eqn:E.
  destruct (splitext_app _ _ _ E) as [Happ _]. cbn [fst snd].
  rewrite <- Happ, all_chars_app in Hall. apply andb_true_iff in Hall as [Hb He].
  rewrite !all_chars_app, Hb, He. unfold Py.str_of_nat.
  rewrite digits_are_filename_chars. reflexivity.
Qed.

Section DownloadOutcome.

Variable guess_extension : string -> option string.
Variable abspath : string -> string.
Variable c : config.

Lemma resolve_filename_returns (count : nat) (url : string) (r : Response)
    (parsed : Urllib.ParseResult) :
  Urllib.urlparse url = Ok parsed ->
  exists filename, resolve_filename guess_extension count url r = Ok filename.
Proof.
  intros Hparse. unfold resolve_filename. rewrite Hparse.
  change (Ok parsed ≫= ?k) with (k parsed). cbv beta zeta.
  destruct (lacks_extension (OsPath.basename (Urllib.path parsed))); [|eauto].
  destruct (lacks_extension _); eauto.
Qed.

Lemma resolve_filename_raises (count : nat) (url : string) (r : Response) (e : exn) :
  Urllib.urlparse url = Raise e ->
  resolve_filename guess_extension count url r = Raise e.
Proof. intros Hparse. unfold resolve_filename. rewrite Hparse. reflexivity. Qed.

(** X10: what a download leaves behind. It fails, returning
    [None], exactly when the request raises, the status is not 200 or the
    URL does not parse, and then the scraper and the disk are as before.
    Otherwise it returns the absolute form of a path that did not exist;
    that path is the documents folder joined with a name that has no
    slash; the file there holds the body of the response; and
    [downloaded_docs] has one more entry, with the URL, that path, the
    cleaned file name, the declared content type and the size of the
    body. *)
Theorem download_outcome (url : string) (resp : option Response) (st : state) :
  let out := download_document guess_extension abspath c url resp st in
  (out.2 = None
   <-> resp = None
       \/ exists r, resp = Some r
                    /\ (status r <> 200 \/ exists e, Urllib.urlparse url = Raise e))
  /\ (out.2 = None -> out.1 = st)
  /\ (forall returned, out.2 = Some returned ->
        exists r filename name,
          resp = Some r
          /\ resolve_filename guess_extension (length (downloaded_docs st)) url r
             = Ok filename
          /\ Py.has_char "/" name = false
          /\ returned = abspath (OsPath.join (docs_folder c) name)
          /\ fs st !! OsPath.join (docs_folder c) name = None
          /\ fs out.1 = <[OsPath.join (docs_folder c) name := Bytes (body r)]> (fs st)
          /\ downloaded_docs out.1
             = downloaded_docs st
               ++ [mkDocInfo url returned (sanitize_filename filename)
                             (declared_type r) (String.length (body r))]
          /\ visited_urls out.1 = visited_urls st
          /\ found_urls out.1 = found_urls st
          /\ index_pages out.1 = index_pages st).
Proof.
  unfold download_document.
  destruct resp as [r|].
  2:{ cbn. split; [split; auto|]. split; [auto|discriminate]. }
  destruct (Nat.eqb_spec (status r) 200) as [Hs|Hs]; cbn [negb].
  2:{ cbn. split; [split; [intros _; right; exists r; auto|auto]|].
      split; [auto|discriminate]. }
  destruct (Urllib.urlparse url) as [parsed|e] eqn:Hparse.
  2:{ rewrite (resolve_filename_raises _ _ _ _ Hparse). cbn.
      split; [split; [intros _; right; exists r; eauto|auto]|].
      split; [auto|discriminate]. }
  destruct (resolve_filename_returns (length (downloaded_docs st)) url r parsed Hparse)
    as [filename Hname]. rewrite Hname.
  destruct (unique_path_free (fs st) (docs_folder c) (sanitize_filename filename))
    as (p & Hp & Hfree).
  rewrite Hp. cbn [fst snd]. split; [|split; [discriminate|]].
  - split; [discriminate|].
    intros [H|(r' & [= <-] & [H|[e H]])]; [discriminate|contradiction|discriminate].
  - intros returned [= <-].
    assert (Hname' : exists name,
               Py.has_char "/" name = false
               /\ p = OsPath.join (docs_folder c) name).
    { assert (Hall : Urllib.all_chars filename_char (sanitize_filename filename) = true)
        by (apply sub_outside_kept; reflexivity).
      unfold unique_path in Hp.
      pose proof (candidate_name_allowed (sanitize_filename filename)) as Hcand.
      destruct (OsPath.splitext (sanitize_filename filename)) as [base ext].
      cbn [fst snd] in Hcand.
      destruct (next_free_first _ _ _ _ _ _ _ _ Hp) as [->|(_ & k & _ & -> & _)].
      - exists (sanitize_filename filename). split; [|reflexivity].
        apply (all_chars_without _ _ _ Hall). reflexivity.
      - eexists. split; [|reflexivity].
        apply (all_chars_without _ _ _ (Hcand k Hall)). reflexivity. }
    destruct Hname' as (name & Hslash & ->).
    exists r, filename, name. cbn. auto 12.
Qed.

End DownloadOutcome.

Lemma before_app_stop (c : ascii) (s t : string) :
  Py.has_char c s = false -> Py.before c (s +:+ String c t) = s.
Proof.
  induction s as [|a s IH]; intros H.
  - rewrite app_empty. cbn. rewrite Ascii.eqb_refl. reflexivity.
  - cbn in H. apply orb_false_iff in H as [Ha Hs].
    rewrite app_cons. cbn. rewrite Ha, (IH Hs). reflexivity.
Qed.

Lemma prefix_app (p s : string) : String.prefix p (p +:+ s) = true.
Proof.
  apply prefix_correct. induction p as [|a p IH].
  - rewrite app_empty. destruct s; reflexivity.
  - rewrite app_cons. cbn [String.length substring]. rewrite IH. reflexivity.
Qed.

Lemma drop_app (p s : string) :
  ContentDisposition.drop (String.length p) (p +:+ s) = s.
Proof.
  induction p as [|a p IH]; [rewrite app_empty; destruct s; reflexivity|].
  rewrite app_cons. exact IH.
Qed.

Lemma find_filename_here (rest : string) :
  ContentDisposition.find_filename ("filename=" +:+ rest)
  = let rest' := match rest with
                 | String ch r => if Ascii.eqb ch ContentDisposition.quote then r else rest
                 | EmptyString => rest
                 end in
    if Urllib.nonempty (Py.before ContentDisposition.quote rest')
    then Some (Py.before ContentDisposition.quote rest')
    else ContentDisposition.find_filename ("ilename=" +:+ rest).
Proof.
  assert (E : "filename=" +:+ rest = String "f" ("ilename=" +:+ rest)) by reflexivity.
  rewrite E at 1. cbn [ContentDisposition.find_filename]. rewrite <- E.
  rewrite prefix_app. change 9 with (String.length "filename=").
  rewrite drop_app. reflexivity.
Qed.

Lemma find_filename_skip (a : ascii) (s : string) :
  a <> "f"%char ->
  ContentDisposition.find_filename (String a s) = ContentDisposition.find_filename s.
Proof.
  intros Ha. cbn [ContentDisposition.find_filename].
  assert (Hp : String.prefix "filename=" (String a s) = false).
  { destruct (String.prefix "filename=" (String a s)) eqn:E; [|reflexivity].
    apply prefix_correct in E. cbn [String.length substring] in E.
    injection E as E _. congruence. }
  rewrite Hp. reflexivity.
Qed.

(** X11: what the pattern reads in a Content-Disposition header. A
    quoted name is read back as it was written, whatever follows the
    closing quote; a name without quotes is read together with
    everything that follows it up to the end of the header, parameters
    included. *)
Theorem header_filename_read (name tail : string) :
  name <> EmptyString ->
  Py.has_char ContentDisposition.quote name = false ->
  ContentDisposition.find_filename (attachment name +:+ tail) = Some name
  /\ (Py.has_char ContentDisposition.quote tail = false ->
      ContentDisposition.find_filename ("attachment; filename=" +:+ name +:+ tail)
      = Some (name +:+ tail)).
Proof.
  intros Hne Hq.
  assert (Hskip : forall rest,
             ContentDisposition.find_filename ("attachment; filename=" +:+ rest)
             = ContentDisposition.find_filename ("filename=" +:+ rest)).
  { intros rest.
    change ("attachment; filename=" +:+ rest)
      with (String "a" (String "t" (String "t" (String "a" (String "c" (String "h"
              (String "m" (String "e" (String "n" (String "t" (String ";" (String " "
                 ("filename=" +:+ rest))))))))))))).
    do 12 (rewrite find_filename_skip by discriminate).
    reflexivity. }
  split.
  - unfold attachment, quoted. rewrite app_assoc_string, Hskip, find_filename_here.
    rewrite app_cons. cbv zeta. rewrite Ascii.eqb_refl.
    rewrite app_assoc_string, app_cons, app_empty, (before_app_stop _ _ _ Hq).
    destruct name; [contradiction|reflexivity].
  - intros Ht. rewrite Hskip, find_filename_here. cbv zeta.
    assert (Hall : Py.has_char ContentDisposition.quote (name +:+ tail) = false)
      by (rewrite has_char_app, Hq, Ht; reflexivity).
    destruct name as [|ch name]; [contradiction|].
    rewrite app_cons in Hall |- *.
    assert (Hch : Ascii.eqb ch ContentDisposition.quote = false)
      by (cbn in Hall; apply orb_false_iff in Hall as [H _]; exact H).
    rewrite Hch, (before_without _ _ Hall). reflexivity.
Qed.

Lemma header_filename_read_witness :
  "report.pdf" <> EmptyString
  /\ Py.has_char ContentDisposition.quote "report.pdf" = false
  /\ ContentDisposition.find_filename (attachment "report.pdf" +:+ "; size=3")
     = Some "report.pdf".
Proof.
  assert (H1 : "report.pdf" <> EmptyString) by discriminate.
  assert (H2 : Py.has_char ContentDisposition.quote "report.pdf" = false)
    by reflexivity.
  split; [exact H1|]. split; [exact H2|].
  exact (proj1 (header_filename_read "report.pdf" "; size=3" H1 H2)).
Defined.

Lemma has_char_nonempty (ch : ascii) (s : string) :
  Py.has_char ch s = true -> s <> EmptyString.
Proof. destruct s; [discriminate|discriminate]. Qed.

(** X12: the resolved name of a download always has an extension.
    When the extensions that [mimetypes] guesses contain a dot, every
    name that [download_document] resolves contains a dot, hence is not
    empty, whichever of the URL, the header and the counter it comes
    from. *)
Theorem resolved_name_has_dot
    (guess_extension : string -> option string) (count : nat) (url : string)
    (r : Response) (filename : string) :
  (forall content_type extension,
     guess_extension content_type = Some extension ->
     extension = EmptyString \/ Py.has_char "." extension = true) ->
  resolve_filename guess_extension count url r = Ok filename ->
  Py.has_char "." filename = true /\ filename <> EmptyString.
Proof.
  intros Hguess Hres.
  assert (Hdot : Py.has_char "." filename = true).
  { revert Hres. unfold resolve_filename.
    destruct (Urllib.urlparse url) as [parsed|e]; [|discriminate].
    change (Ok parsed ≫= ?k) with (k parsed). cbv beta zeta.
    rewrite !lacks_extension_dot.
    destruct (Py.has_char "." (OsPath.basename (Urllib.path parsed))) eqn:Ea;
      cbn [negb]; [intros [= <-]; exact Ea|].
    destruct (Py.has_char "." (from_header _ r)) eqn:Eb; cbn [negb];
      [intros [= <-]; exact Eb|].
    intros [= <-]. unfold generated_name.
    destruct (guess_extension (declared_type r)) as [ext|] eqn:Eg.
    - destruct (Urllib.nonempty ext) eqn:En.
      + destruct (Hguess _ _ Eg) as [->|Hd]; [discriminate|].
        rewrite has_char_app, Hd. apply orb_true_r.
      + rewrite has_char_app. apply orb_true_r.
    - rewrite has_char_app. apply orb_true_r. }
  split; [exact Hdot|exact (has_char_nonempty _ _ Hdot)].
Qed.

Lemma resolved_name_has_dot_witness :
  (forall content_type extension,
     pdf_only content_type = Some extension ->
     extension = EmptyString \/ Py.has_char "." extension = true)
  /\ resolve_filename pdf_only 0 "https://example.com/file" dotless_response
     = Ok "document_1.pdf"
  /\ Py.has_char "." "document_1.pdf" = true.
Proof.
  assert (H1 : forall content_type extension,
             pdf_only content_type = Some extension ->
             extension = EmptyString \/ Py.has_char "." extension = true).
  { intros ct ext. unfold pdf_only. destruct (String.eqb ct "application/pdf");
      [intros [= <-]; right; reflexivity|discriminate]. }
  assert (H2 : resolve_filename pdf_only 0 "https://example.com/file" dotless_response
               = Ok "document_1.pdf") by (vm_compute; reflexivity).
  split; [exact H1|]. split; [exact H2|].
  exact (proj1 (resolved_name_has_dot pdf_only 0 _ _ _ H1 H2)).
Defined.

(** ** Documents and the trailing slash *)

(** X13: the document test in the normalisation never decides
    anything. A URL that ends with a slash is not a document, so
    normalisation drops the last slash of every URL that has one after
    its fragment is removed, document or not, and changes nothing else. *)
Theorem trailing_slash_always_stripped (u : string) :
  (Py.endswith u "/" = true -> is_document u = false)
  /\ normalize u
     = if Py.endswith (strip_fragment u) "/"
       then Py.drop_last (strip_fragment u)
       else strip_fragment u.
Proof.
  assert (Hdoc : forall v, Py.endswith v "/" = true -> is_document v = false).
  { intros v [q ->]%endswith_app. apply is_document_slash. }
  split; [apply Hdoc|].
  unfold normalize, strip_trailing_slash.
  destruct (Py.endswith (strip_fragment u) "/") eqn:E.
  - rewrite (Hdoc _ E). reflexivity.
  - rewrite andb_false_r. reflexivity.
Qed.

Lemma lower_split (u p e : string) :
  Py.lower u = p +:+ e ->
  exists p' e', u = p' +:+ e' /\ Py.lower p' = p /\ Py.lower e' = e.
Proof.
  revert u. induction p as [|a p IH]; intros u H.
  - exists EmptyString, u. rewrite app_empty in H. auto.
  - rewrite app_cons in H. destruct u as [|b u]; [discriminate|].
    cbn [Py.lower] in H. injection H as Ha Hr.
    destruct (IH u Hr) as (p' & e' & -> & Hp & He).
    exists (String b p'), e'. rewrite app_cons. cbn [Py.lower].
    rewrite Ha, Hp. auto.
Qed.

(** X14: a document is recognised by the end of its URL alone, whatever
    the case of the letters: a URL is a document exactly when it ends
    with a suffix that, in lower case, is one of the document
    extensions. What comes before the suffix plays no part. *)
Theorem document_by_suffix (u : string) :
  is_document u = true
  <-> exists prefix suffix,
        u = prefix +:+ suffix /\ In (Py.lower suffix) document_extensions.
Proof.
  unfold is_document. rewrite existsb_exists. split.
  - intros (extension & Hin & [p Hp]%endswith_app).
    destruct (lower_split _ _ _ Hp) as (p' & e' & -> & _ & He).
    exists p', e'. rewrite He. auto.
  - intros (prefix & suffix & -> & Hin).
    exists (Py.lower suffix). split; [exact Hin|].
    rewrite lower_app. apply endswith_app. exists (Py.lower prefix). reflexivity.
Qed.

(** ** One iteration of the loop *)

Lemma discover_links_grows (c : config) (visited found found' : gset string)
    (url : string) (hrefs : list string) :
  discover_links c visited url hrefs found = Ok found' ->
  found ⊆ found'
  /\ forall u, u ∈ found' -> u ∉ found -> admitted c u /\ u ∉ visited.
Proof.
  revert found. induction hrefs as [|href rest IH]; intros found; cbn [discover_links].
  - intros [= <-]. split; [reflexivity|]. intros u Hu Hn. contradiction.
  - destruct (discover_link c visited url href found) as [found1|e] eqn:E; [|discriminate].
    change (Ok found1 ≫= ?k) with (k found1). cbv beta. intros Hrest.
    destruct (IH _ Hrest) as [Hsub Hnew].
    destruct (discover_link_adds _ _ _ _ _ _ E) as [->|(full & _ & Hnv & Hvalid & ->)].
    + split; [exact Hsub|exact Hnew].
    + split; [set_solver|]. intros u Hu Hn.
      destruct (decide (u = normalize full)) as [->|Hne].
      * split; [split; [exact Hvalid|apply normalize_without_fragment]|exact Hnv].
      * apply Hnew; [exact Hu|set_solver].
Qed.

(** X15: what one iteration of the loop changes, for a URL that
    is not yet visited. The URL becomes visited and nothing else does.
    For a document, no link is followed: [found_urls] only loses the URL,
    and the page index is as before. For a page, [downloaded_docs] is as
    before, no pending URL is lost, every URL that becomes pending is an
    admitted link that is not visited, and the page index gains at most
    one entry, for that URL. *)
Theorem iteration_effect
    (parse : string -> Bs4.node) (guess_extension : string -> option string)
    (abspath : string -> string) (c : config)
    (url : string) (a : answer) (st st' : state) :
  url ∉ visited_urls st ->
  iteration parse guess_extension abspath c url a st = Ok st' ->
  visited_urls st' = {[url]} ∪ visited_urls st
  /\ (is_document url = true ->
      found_urls st' = found_urls st ∖ {[url]}
      /\ index_pages st' = index_pages st)
  /\ (is_document url = false ->
      downloaded_docs st' = downloaded_docs st
      /\ found_urls st ∖ {[url]} ⊆ found_urls st'
      /\ (forall u, u ∈ found_urls st' -> u ∉ found_urls st ->
                    admitted c u /\ u ∉ {[url]} ∪ visited_urls st)
      /\ (index_pages st' = index_pages st
          \/ exists title file_path,
               index_pages st' = index_pages st ++ [(url, title, file_path)])).
Proof.
  intros Hnew. unfold iteration. cbv zeta.
  rewrite bool_decide_eq_false_2 by exact Hnew.
  destruct (is_document url) eqn:Hdoc.
  - intros [= <-].
    match goal with
    | |- context [download_document ?g ?ab ?cc ?u ?r ?s] =>
        destruct (download_effect g ab cc u r s) as (-> & -> & -> & _)
    end.
    split; [reflexivity|]. split; [auto|discriminate].
  - assert (Hsame : forall s0 : state,
              visited_urls s0 = {[url]} ∪ visited_urls st ->
              found_urls s0 = found_urls st ∖ {[url]} ->
              downloaded_docs s0 = downloaded_docs st ->
              index_pages s0 = index_pages st ->
              visited_urls s0 = {[url]} ∪ visited_urls st
              /\ (false = true -> found_urls s0 = found_urls st ∖ {[url]}
                                  /\ index_pages s0 = index_pages st)
              /\ (false = false ->
                  downloaded_docs s0 = downloaded_docs st
                  /\ found_urls st ∖ {[url]} ⊆ found_urls s0
                  /\ (forall u, u ∈ found_urls s0 -> u ∉ found_urls st ->
                                admitted c u /\ u ∉ {[url]} ∪ visited_urls st)
                  /\ (index_pages s0 = index_pages st
                      \/ exists title file_path,
                           index_pages s0 = index_pages st ++ [(url, title, file_path)]))).
    { intros s0 Hv Hf Hd Hi. split; [exact Hv|]. split; [discriminate|]. intros _.
      split; [exact Hd|]. split; [rewrite Hf; reflexivity|].
      split; [|left; exact Hi]. intros u Hu Hn. rewrite Hf in Hu. set_solver. }
    destruct (page_html a) as [html|]; [|intros [= <-]; apply Hsame; reflexivity].
    destruct (Urllib.nonempty html) eqn:Hne;
      [|intros [= <-]; apply Hsame; reflexivity].
    unfold process_page, extract_urls. rewrite Hne. cbn [negb].
    unfold set_found, set_visited.
    cbn [visited_urls found_urls downloaded_docs index_pages fs].
    destruct (discover_links c ({[url]} ∪ visited_urls st) url (hrefs_of (parse html))
                             (found_urls st ∖ {[url]})) as [found|e] eqn:El;
      [|discriminate].
    change (Ok found ≫= ?k) with (k found). cbv beta zeta.
    destruct (discover_links_grows _ _ _ _ _ _ El) as [Hsub Hadm].
    assert (Hfresh : forall u, u ∈ found -> u ∉ found_urls st ->
                               admitted c u /\ u ∉ {[url]} ∪ visited_urls st).
    { intros u Hu Hn. apply Hadm; [exact Hu|set_solver]. }
    destruct (extract_structured_content parse url html) as [[p|]|e] eqn:Ex;
      [| |discriminate].
    + change (Ok (Some p) ≫= ?k) with (k (Some p)). cbv beta iota. intros Hs.
      destruct (extracted_url _ _ _ _ Ex) as [Hurl _].
      destruct (save_effect _ _ _ _ _ Hs) as (-> & -> & -> & file_path & ->).
      rewrite Hurl. cbn.
      split; [reflexivity|]. split; [discriminate|]. intros _.
      split; [reflexivity|]. split; [exact Hsub|]. split; [exact Hfresh|].
      right. eauto.
    + change (Ok None ≫= ?k) with (k None). cbv beta iota. intros [= <-]. cbn.
      split; [reflexivity|]. split; [discriminate|]. intros _.
      split; [reflexivity|]. split; [exact Hsub|]. split; [exact Hfresh|].
      left. reflexivity.
Qed.

Lemma iteration_effect_witness :
  exists st',
    ("https://example.com/" ∉ visited_urls (initial_state example_config ∅))
    /\ iteration (fun _ => home_tree) pdf_only id example_config
                 "https://example.com/" (mkAnswer (Some home_html) None)
                 (initial_state example_config ∅) = Ok st'
    /\ visited_urls st'
       = {["https://example.com/"]} ∪ visited_urls (initial_state example_config ∅).
Proof.
  assert (H1 : "https://example.com/" ∉ visited_urls (initial_state example_config ∅))
    by (cbn; set_solver).
  assert (H2 : exists st',
             iteration (fun _ => home_tree) pdf_only id example_config
                       "https://example.com/" (mkAnswer (Some home_html) None)
                       (initial_state example_config ∅) = Ok st')
    by (eexists; vm_compute; reflexivity).
  destruct H2 as [st' H2]. exists st'. split; [exact H1|]. split; [exact H2|].
  exact (proj1 (iteration_effect _ _ _ _ _ _ _ _ H1 H2)).
Defined.

(** ** The order of the links of a page *)

Lemma discover_link_target (c : config) (visited found : gset string)
    (url href : string) :
  discover_link c visited url href found
  = (target ← link_target c visited url href; Ok (add_target target found)).
Proof.
  unfold discover_link, link_target.
  destruct (negb (Urllib.nonempty href) || Py.startswith href "javascript:");
    [reflexivity|].
  destruct (Urllib.urljoin url href) as [full_url|e]; [|reflexivity].
  change (Ok full_url ≫= ?k) with (k full_url). cbv beta zeta.
  destruct (negb (Urllib.nonempty (strip_fragment full_url))); [reflexivity|].
  fold (normalize full_url).
  destruct (is_valid_url c (normalize full_url)) as [valid|e]; [|reflexivity].
  change (Ok valid ≫= ?k) with (k valid). cbv beta.
  destruct (valid && bool_decide (normalize full_url ∉ visited)); reflexivity.
Qed.

(** The test for the two slashes that start a network location. *)
Lemma double_slash_cases {A : Type} (url : string) (f : string -> A) (g : A) :
  (exists rest, url = String "/" (String "/" rest)
                /\ match url with
                   | String "/" (String "/" rest) => f rest
                   | _ => g
                   end = f rest)
  \/ match url with
     | String "/" (String "/" rest) => f rest
     | _ => g
     end = g.
Proof.
  destruct url as [|a [|b rest]].
  - right. reflexivity.
  - right. destruct a as [[] [] [] [] [] [] [] []]; reflexivity.
  - destruct (Ascii.eqb_spec a "/") as [->|Ha];
      [destruct (Ascii.eqb_spec b "/") as [->|Hb]|].
    + left. exists rest. split; reflexivity.
    + right. destruct b as [[] [] [] [] [] [] [] []]; try reflexivity.
      contradiction.
    + right. destruct a as [[] [] [] [] [] [] [] []]; try reflexivity.
      contradiction.
Qed.

(** The only exception of [urllib.parse] is [ValueError]. *)
Lemma urlsplit_raises (url default : string) (e : exn) :
  Urllib.urlsplit url default = Raise e -> e = ValueError.
Proof.
  unfold Urllib.urlsplit.
  destruct (Urllib.split_scheme _ _) as [sch url1].
  pose proof (double_slash_cases url1
                (fun rest =>
                   let '(nl, url') := Urllib.splitnetloc rest in
                   if (Py.has_char "[" nl && negb (Py.has_char "]" nl))
                      || (Py.has_char "]" nl && negb (Py.has_char "[" nl))
                   then Raise ValueError
                   else Ok (nl, url'))
                (Ok (EmptyString, url1))) as H.
  cbv beta in H. destruct H as [(rest & -> & _)|H]; [cbv iota|rewrite H; clear H].
  - destruct (Urllib.splitnetloc rest) as [nl url'].
    destruct (_ || _); [intros [= <-]; reflexivity|].
    change (Ok ?a ≫= ?k) with (k a). cbv beta iota.
    repeat destruct (Py.has_char _ _); discriminate.
  - change (Ok ?a ≫= ?k) with (k a). cbv beta iota.
    repeat destruct (Py.has_char _ _); discriminate.
Qed.

Lemma urlparse_with_raises (url default : string) (e : exn) :
  Urllib.urlparse_with url default = Raise e -> e = ValueError.
Proof.
  unfold Urllib.urlparse_with.
  destruct (Urllib.urlsplit url default) as [r|e'] eqn:E.
  - change (Ok r ≫= ?k) with (k r). cbv beta.
    destruct (_ && _); [destruct (Urllib.splitparams _)|]; discriminate.
  - intros [= <-]. exact (urlsplit_raises _ _ _ E).
Qed.

Lemma urljoin_raises (base url : string) (e : exn) :
  Urllib.urljoin base url = Raise e -> e = ValueError.
Proof.
  unfold Urllib.urljoin.
  destruct (negb (Urllib.nonempty base)); [discriminate|].
  destruct (negb (Urllib.nonempty url)); [discriminate|].
  destruct (Urllib.urlparse_with base EmptyString) as [b|e1] eqn:Eb;
    [|intros [= <-]; exact (urlparse_with_raises _ _ _ Eb)].
  change (Ok b ≫= ?k) with (k b). cbv beta.
  destruct (Urllib.urlparse_with url (Urllib.scheme b)) as [u|e2] eqn:Eu;
    [|intros [= <-]; exact (urlparse_with_raises _ _ _ Eu)].
  change (Ok u ≫= ?k) with (k u). cbv beta zeta.
  repeat match goal with
         | |- (if ?x then _ else _) = Raise _ -> _ => destruct x
         end; discriminate.
Qed.

Lemma is_valid_url_raises (c : config) (url : string) (e : exn) :
  is_valid_url c url = Raise e -> e = ValueError.
Proof.
  unfold is_valid_url, Urllib.urlparse.
  destruct (negb (Urllib.nonempty url)); [discriminate|].
  destruct (Urllib.urlparse_with url EmptyString) as [pu|e1] eqn:E1;
    [|intros [= <-]; exact (urlparse_with_raises _ _ _ E1)].
  change (Ok pu ≫= ?k) with (k pu). cbv beta.
  destruct (Urllib.urlparse_with (base_url c) EmptyString) as [pb|e2] eqn:E2;
    [|intros [= <-]; exact (urlparse_with_raises _ _ _ E2)].
  change (Ok pb ≫= ?k) with (k pb). cbv beta.
  repeat match goal with
         | |- (if ?x then _ else _) = Raise _ -> _ => destruct x
         end; discriminate.
Qed.

Lemma link_target_raises (c : config) (visited : gset string) (url href : string)
    (e : exn) :
  link_target c visited url href = Raise e -> e = ValueError.
Proof.
  unfold link_target.
  destruct (_ || _); [discriminate|].
  destruct (Urllib.urljoin url href) as [full|e1] eqn:E1;
    [|intros [= <-]; exact (urljoin_raises _ _ _ E1)].
  change (Ok full ≫= ?k) with (k full). cbv beta.
  destruct (negb _); [discriminate|].
  destruct (is_valid_url c (normalize full)) as [valid|e2] eqn:E2;
    [|intros [= <-]; exact (is_valid_url_raises _ _ _ E2)].
  change (Ok valid ≫= ?k) with (k valid). cbv beta.
  destruct (_ && _); discriminate.
Qed.

Lemma add_target_comm (a b : option string) (found : gset string) :
  add_target a (add_target b found) = add_target b (add_target a found).
Proof. destruct a, b; cbn; set_solver. Qed.

Lemma discover_links_raise (c : config) (visited found : gset string)
    (url : string) (hrefs : list string) (e : exn) :
  discover_links c visited url hrefs found = Raise e -> e = ValueError.
Proof.
  revert found. induction hrefs as [|href rest IH]; intros found;
    cbn [discover_links]; [discriminate|].
  rewrite discover_link_target.
  destruct (link_target c visited url href) as [t|e1] eqn:E1;
    [|intros [= <-]; exact (link_target_raises _ _ _ _ _ E1)].
  change (Ok t ≫= ?k) with (k t). cbv beta.
  change (Ok ?x ≫= ?k) with (k x). cbv beta. apply IH.
Qed.

(** Whether the loop raises does not depend on the set it adds to. *)
Lemma discover_links_raise_any (c : config) (visited found found2 : gset string)
    (url : string) (hrefs : list string) (e : exn) :
  discover_links c visited url hrefs found = Raise e ->
  discover_links c visited url hrefs found2 = Raise ValueError.
Proof.
  revert found found2. induction hrefs as [|href rest IH]; intros found found2;
    cbn [discover_links]; [discriminate|].
  rewrite !discover_link_target.
  destruct (link_target c visited url href) as [t|e1] eqn:E1.
  - change (Ok t ≫= ?k) with (k t). cbv beta.
    change (Ok ?x ≫= ?k) with (k x). cbv beta. apply IH.
  - intros _. rewrite (link_target_raises _ _ _ _ _ E1). reflexivity.
Qed.

Lemma discover_links_add (c : config) (visited found found' : gset string)
    (url : string) (hrefs : list string) (t : option string) :
  discover_links c visited url hrefs found = Ok found' ->
  discover_links c visited url hrefs (add_target t found) = Ok (add_target t found').
Proof.
  revert found. induction hrefs as [|href rest IH]; intros found;
    cbn [discover_links]; [intros [= <-]; reflexivity|].
  rewrite !discover_link_target.
  destruct (link_target c visited url href) as [t1|e1]; [|discriminate].
  change (Ok t1 ≫= ?k) with (k t1). cbv beta.
  change (Ok ?x ≫= ?k) with (k x). cbv beta.
  rewrite (add_target_comm t1 t). apply IH.
Qed.

(** X16: the frontier does not depend on the order in which a page
    lists its links. For two lists of links that are permutations of one
    another, [extract_urls] either raises [ValueError] for both or leaves
    the same [found_urls] for both. *)
Theorem links_order_irrelevant (c : config) (visited found : gset string)
    (url : string) (hrefs hrefs' : list string) :
  Permutation hrefs hrefs' ->
  discover_links c visited url hrefs found
  = discover_links c visited url hrefs' found.
Proof.
  intros Hperm. revert found.
  induction Hperm as [|x l l' _ IH|x y l|l l' l'' _ IH1 _ IH2]; intros found.
  - reflexivity.
  - cbn [discover_links].
    destruct (discover_link c visited url x found) as [f1|e]; [|reflexivity].
    change (Ok f1 ≫= ?k) with (k f1). cbv beta. apply IH.
  - cbn [discover_links]. rewrite !discover_link_target.
    destruct (link_target c visited url y) as [ty|ey] eqn:Ey;
      destruct (link_target c visited url x) as [tx|ex] eqn:Ex;
      repeat (change (Ok ?a ≫= ?k) with (k a); cbv beta);
      rewrite ?discover_link_target, ?Ex, ?Ey;
      repeat (change (Ok ?a ≫= ?k) with (k a); cbv beta).
    + rewrite add_target_comm. reflexivity.
    + reflexivity.
    + reflexivity.
    + rewrite (link_target_raises _ _ _ _ _ Ex), (link_target_raises _ _ _ _ _ Ey).
      reflexivity.
  - rewrite IH1. apply IH2.
Qed.

Lemma links_order_irrelevant_witness :
  Permutation ["/about"; "https://other.com/x"] ["https://other.com/x"; "/about"]
  /\ discover_links example_config {["https://example.com/"]} "https://example.com/"
                    ["https://other.com/x"; "/about"] ∅
     = Ok {["https://example.com/about"]}.
Proof.
  assert (H : Permutation ["/about"; "https://other.com/x"]
                          ["https://other.com/x"; "/about"]) by apply perm_swap.
  split; [exact H|].
  rewrite <- (links_order_irrelevant example_config _ ∅ "https://example.com/" _ _ H).
  exact example_links_found.
Defined.

(** ** The plain text and its counts *)








(** ** The base URL *)

Lemma has_char_remove (c : ascii) (s : string) :
  Py.has_char c (Py.remove_char c s) = false.
Proof.
  induction s as [|a s IH]; [reflexivity|].
  cbn. destruct (Ascii.eqb a c) eqn:E; [exact IH|]. cbn. rewrite E. exact IH.
Qed.

Lemma has_char_remove_other (x c : ascii) (s : string) :
  Py.has_char x s = false -> Py.has_char x (Py.remove_char c s) = false.
Proof.
  induction s as [|a s IH]; [reflexivity|].
  cbn. intros [Ha Hs]%orb_false_iff.
  destruct (Ascii.eqb a c); [auto|]. cbn. rewrite Ha. auto.
Qed.

Lemma remove_char_absent (c : ascii) (s : string) :
  Py.has_char c s = false -> Py.remove_char c s = s.
Proof.
  induction s as [|a s IH]; [reflexivity|].
  cbn. intros [Ha Hs]%orb_false_iff. rewrite Ha, (IH Hs). reflexivity.
Qed.

Lemma all_chars_forall (p : ascii -> bool) (s : string) :
  Urllib.all_chars p s = true <-> forall x, Py.has_char x s = true -> p x = true.
Proof.
  induction s as [|a s IH]; cbn.
  - split; [discriminate|reflexivity].
  - rewrite andb_true_iff, IH. split.
    + intros [Ha Hs] x [->%Ascii.eqb_eq|Hx]%orb_true_iff; auto.
    + intros H. split; [apply H; rewrite Ascii.eqb_refl; reflexivity|].
      intros x Hx. apply H. rewrite Hx. apply orb_true_r.
Qed.

Lemma unsafe_removed_safe (s : string) :
  Urllib.all_chars (fun ch => negb (unsafe_char ch)) (Urllib.unsafe_removed s) = true.
Proof.
  apply all_chars_forall. intros x Hx. unfold unsafe_char.
  apply negb_true_iff, not_true_iff_false. intros H.
  unfold Urllib.unsafe_removed in Hx.
  apply orb_true_iff in H as [[H|H]%orb_true_iff|H]; apply Ascii.eqb_eq in H; subst x.
  - rewrite has_char_remove_other in Hx; [discriminate|].
    apply has_char_remove_other, has_char_remove.
  - rewrite has_char_remove in Hx. discriminate.
  - rewrite has_char_remove_other in Hx; [discriminate|]. apply has_char_remove.
Qed.

Lemma unsafe_removed_id (s : string) :
  Urllib.all_chars (fun ch => negb (unsafe_char ch)) s = true ->
  Urllib.unsafe_removed s = s.
Proof.
  intros H. unfold Urllib.unsafe_removed.
  assert (Hx : forall x, unsafe_char x = true -> Py.has_char x s = false).
  { intros x Hx. apply (all_chars_without _ _ _ H). rewrite Hx. reflexivity. }
  rewrite (remove_char_absent "009" s) by (apply Hx; reflexivity).
  rewrite (remove_char_absent "013" s) by (apply Hx; reflexivity).
  apply remove_char_absent, Hx. reflexivity.
Qed.

Lemma has_char_after (x c : ascii) (s : string) :
  Py.has_char x (Py.after c s) = true -> Py.has_char x s = true.
Proof.
  induction s as [|a s IH]; [discriminate|].
  cbn. destruct (Ascii.eqb a c); intros H; [rewrite H|rewrite (IH H)];
    apply orb_true_r.
Qed.

Lemma after_app_stop (c : ascii) (s t : string) :
  Py.has_char c s = false -> Py.after c (s +:+ String c t) = t.
Proof.
  induction s as [|a s IH]; intros H.
  - rewrite app_empty. cbn. rewrite Ascii.eqb_refl. reflexivity.
  - cbn in H. apply orb_false_iff in H as [Ha Hs].
    rewrite app_cons. cbn. rewrite Ha. exact (IH Hs).
Qed.

Lemma splitnetloc_parts (s n r : string) :
  Urllib.splitnetloc s = (n, r) ->
  Urllib.all_chars (fun ch => negb (Urllib.netloc_delim ch)) n = true
  /\ forall x, Py.has_char x n = true -> Py.has_char x s = true.
Proof.
  revert n r. induction s as [|a s IH]; intros n r; cbn [Urllib.splitnetloc].
  - intros [= <- <-]. split; [reflexivity|discriminate].
  - destruct (Urllib.netloc_delim a) eqn:Ea.
    + intros [= <- <-]. split; [reflexivity|discriminate].
    + destruct (Urllib.splitnetloc s) as [n' r'].
      intros [= <- <-]. destruct (IH n' r' eq_refl) as [Hall Hsub].
      split; [cbn; rewrite Ea, Hall; reflexivity|].
      intros x. cbn. intros [H|H]%orb_true_iff; [rewrite H; reflexivity|].
      rewrite (Hsub x H). apply orb_true_r.
Qed.

Lemma splitnetloc_whole (n : string) :
  Urllib.all_chars (fun ch => negb (Urllib.netloc_delim ch)) n = true ->
  Urllib.splitnetloc n = (n, EmptyString).
Proof.
  induction n as [|a n IH]; [reflexivity|].
  cbn. intros [Ha Hn]%andb_true_iff. apply negb_true_iff in Ha.
  rewrite Ha, (IH Hn). reflexivity.
Qed.

Lemma scheme_char_lower (a : ascii) :
  Urllib.scheme_char a = true ->
  Urllib.scheme_char (Py.lower_char a) = true
  /\ Py.lower_char (Py.lower_char a) = Py.lower_char a
  /\ unsafe_char (Py.lower_char a) = false
  /\ Ascii.eqb (Py.lower_char a) ":" = false.
Proof.
  destruct a as [[] [] [] [] [] [] [] []]; vm_compute; intros H;
    try discriminate H; repeat split.
Qed.

Lemma lower_scheme (pre : string) :
  Urllib.all_chars Urllib.scheme_char pre = true ->
  Urllib.all_chars Urllib.scheme_char (Py.lower pre) = true
  /\ Py.lower (Py.lower pre) = Py.lower pre
  /\ Urllib.all_chars (fun ch => negb (unsafe_char ch)) (Py.lower pre) = true
  /\ Py.has_char ":" (Py.lower pre) = false.
Proof.
  induction pre as [|a pre IH]; [repeat split|].
  cbn [Urllib.all_chars Py.lower]. intros [Ha Hp]%andb_true_iff.
  destruct (scheme_char_lower a Ha) as (H1 & H2 & H3 & H4).
  destruct (IH Hp) as (I1 & I2 & I3 & I4).
  cbn [Urllib.all_chars Py.has_char]. rewrite H1, H2, H3, H4, I1, I2, I3, I4.
  repeat split.
Qed.

Lemma split_scheme_cases (d u s r : string) :
  Urllib.split_scheme d u = (s, r) ->
  (s = d /\ r = u)
  \/ exists pre, pre <> EmptyString
                 /\ Urllib.all_chars Urllib.scheme_char pre = true
                 /\ s = Py.lower pre /\ r = Py.after ":" u.
Proof.
  unfold Urllib.split_scheme.
  destruct (Py.has_char ":" u); [|intros [= <- <-]; left; auto].
  destruct (Py.before ":" u) as [|a pre] eqn:E; [intros [= <- <-]; left; auto|].
  destruct (Urllib.all_chars Urllib.scheme_char (String a pre)) eqn:Ea;
    [|intros [= <- <-]; left; auto].
  intros [= <- <-]. right. exists (String a pre).
  split; [discriminate|]. auto.
Qed.

Lemma split_scheme_safe (d u s r : string) :
  Urllib.split_scheme d u = (s, r) ->
  forall x, Py.has_char x r = true -> Py.has_char x u = true.
Proof.
  intros [[_ ->]|(pre & _ & _ & _ & ->)]%split_scheme_cases x Hx; [exact Hx|].
  exact (has_char_after _ _ _ Hx).
Qed.

Lemma urlsplit_parts (url default : string) (r : Urllib.ParseResult) :
  Urllib.urlsplit url default = Ok r ->
  (exists rest,
     Urllib.split_scheme (Urllib.unsafe_removed default) (Urllib.unsafe_removed url)
     = (Urllib.scheme r, rest))
  /\ netloc_shaped (Urllib.netloc r).
Proof.
  unfold Urllib.urlsplit.
  destruct (Urllib.split_scheme _ _) as [sch url1] eqn:E.
  pose proof (split_scheme_safe _ _ _ _ E) as Hsub.
  pose proof (unsafe_removed_safe url) as Hsafe.
  assert (Hempty : netloc_shaped EmptyString) by (split; reflexivity).
  assert (Htail : forall (nl rest : string),
             netloc_shaped nl ->
             (let '(url, frag) :=
                if Py.has_char "#" rest then (Py.before "#" rest, Py.after "#" rest)
                else (rest, EmptyString) in
              let '(url, qry) :=
                if Py.has_char "?" url then (Py.before "?" url, Py.after "?" url)
                else (url, EmptyString) in
              Ok (Urllib.mkParseResult sch nl url EmptyString qry frag)) = Ok r ->
             (exists rest', (sch, url1) = (Urllib.scheme r, rest'))
             /\ netloc_shaped (Urllib.netloc r)).
  { intros nl rest Hnl. repeat destruct (Py.has_char _ _); intros [= <-]; cbn;
      (split; [exists url1; reflexivity|exact Hnl]). }
  pose proof (double_slash_cases url1
                (fun rest =>
                   let '(nl, url') := Urllib.splitnetloc rest in
                   if (Py.has_char "[" nl && negb (Py.has_char "]" nl))
                      || (Py.has_char "]" nl && negb (Py.has_char "[" nl))
                   then Raise ValueError
                   else Ok (nl, url'))
                (Ok (EmptyString, url1))) as H.
  cbv beta in H. destruct H as [(rest & -> & _)|H]; [cbv iota|rewrite H; clear H].
  - destruct (Urllib.splitnetloc rest) as [nl url'] eqn:En.
    destruct (_ || _) eqn:Eb; [discriminate|].
    change (Ok ?a ≫= ?k) with (k a). cbv beta iota.
    apply Htail. destruct (splitnetloc_parts _ _ _ En) as [Hd Hin].
    split; [|unfold brackets_match; rewrite Eb; reflexivity].
    apply all_chars_forall. intros x Hx. apply andb_true_iff. split.
    + rewrite all_chars_forall in Hd. exact (Hd x Hx).
    + rewrite all_chars_forall in Hsafe. apply Hsafe, Hsub.
      cbn. rewrite (Hin x Hx), !orb_true_r. reflexivity.
  - change (Ok ?a ≫= ?k) with (k a). cbv beta iota. exact (Htail _ _ Hempty).
Qed.

Lemma urlparse_parts (url : string) (p : Urllib.ParseResult) :
  Urllib.urlparse url = Ok p ->
  (Urllib.scheme p = EmptyString
   \/ exists pre, pre <> EmptyString
                  /\ Urllib.all_chars Urllib.scheme_char pre = true
                  /\ Urllib.scheme p = Py.lower pre)
  /\ netloc_shaped (Urllib.netloc p).
Proof.
  unfold Urllib.urlparse, Urllib.urlparse_with.
  destruct (Urllib.urlsplit url EmptyString) as [r|e] eqn:E; [|discriminate].
  change (Ok r ≫= ?k) with (k r). cbv beta.
  destruct (urlsplit_parts _ _ _ E) as [[rest Hs] Hn].
  assert (H : (Urllib.scheme r = EmptyString
               \/ exists pre, pre <> EmptyString
                   /\ Urllib.all_chars Urllib.scheme_char pre = true
                   /\ Urllib.scheme r = Py.lower pre)
              /\ netloc_shaped (Urllib.netloc r)).
  { split; [|exact Hn].
    apply split_scheme_cases in Hs as [[-> _]|(pre & H1 & H2 & H3 & _)];
      [left; reflexivity|right; exists pre; auto]. }
  destruct (_ && _); [destruct (Urllib.splitparams _)|]; intros [= <-]; exact H.
Qed.

Lemma netloc_shaped_whole (nl : string) :
  netloc_shaped nl ->
  Urllib.unsafe_removed nl = nl
  /\ Urllib.splitnetloc nl = (nl, EmptyString)
  /\ (Py.has_char "[" nl && negb (Py.has_char "]" nl))
     || (Py.has_char "]" nl && negb (Py.has_char "[" nl)) = false.
Proof.
  intros [Hall Hb]. rewrite all_chars_forall in Hall.
  split; [|split].
  - apply unsafe_removed_id, all_chars_forall. intros x Hx.
    pose proof (Hall x Hx) as H. cbv beta in H.
    apply andb_true_iff in H as [_ H]. exact H.
  - apply splitnetloc_whole, all_chars_forall. intros x Hx.
    pose proof (Hall x Hx) as H. cbv beta in H.
    apply andb_true_iff in H as [H _]. exact H.
  - unfold brackets_match in Hb. apply negb_true_iff in Hb. exact Hb.
Qed.

Lemma urlparse_scheme_netloc (pre nl : string) :
  pre <> EmptyString ->
  Urllib.all_chars Urllib.scheme_char pre = true ->
  netloc_shaped nl ->
  Urllib.urlparse (Py.lower pre +:+ "://" +:+ nl)
  = Ok (Urllib.mkParseResult (Py.lower pre) nl EmptyString EmptyString
          EmptyString EmptyString).
Proof.
  intros Hpre Hall Hnl.
  destruct (lower_scheme pre Hall) as (H1 & H2 & H3 & H4).
  destruct (netloc_shaped_whole nl Hnl) as (N1 & N2 & N3).
  assert (Hl : exists a s, Py.lower pre = String a s).
  { destruct pre as [|a s]; [contradiction|]. cbn. eauto. }
  destruct Hl as (a & s & Hl).
  unfold Urllib.urlparse, Urllib.urlparse_with, Urllib.urlsplit.
  change ("://" +:+ nl) with (String ":" ("//" +:+ nl)).
  assert (Hu : Urllib.unsafe_removed (Py.lower pre +:+ String ":" ("//" +:+ nl))
               = Py.lower pre +:+ String ":" ("//" +:+ nl)).
  { assert (Hn : Urllib.all_chars (fun ch => negb (unsafe_char ch)) nl = true).
    { apply all_chars_forall. intros x Hx. destruct Hnl as [Hshape _].
      rewrite all_chars_forall in Hshape.
      pose proof (Hshape x Hx) as H. cbv beta in H.
      apply andb_true_iff in H as [_ H]. exact H. }
    apply unsafe_removed_id. rewrite all_chars_app, H3.
    change (String ":" ("//" +:+ nl)) with ("://" +:+ nl).
    rewrite all_chars_app, Hn. reflexivity. }
  rewrite Hu.
  assert (Hs : Urllib.split_scheme (Urllib.unsafe_removed EmptyString)
                 (Py.lower pre +:+ String ":" ("//" +:+ nl))
               = (Py.lower pre, "//" +:+ nl)).
  { unfold Urllib.split_scheme.
    rewrite has_char_app. cbn [Py.has_char]. rewrite Ascii.eqb_refl, orb_true_r.
    rewrite (before_app_stop _ _ _ H4), (after_app_stop _ _ _ H4).
    rewrite Hl at 1. rewrite Hl at 1. rewrite <- Hl, H1, H2. reflexivity. }
  rewrite Hs. change ("//" +:+ nl) with (String "/" (String "/" nl)).
  cbv iota beta. rewrite N2, N3.
  change (Ok (nl, EmptyString) ≫= ?k) with (k (nl, EmptyString)). cbn.
  rewrite andb_false_r. reflexivity.
Qed.

Lemma urlparse_without_scheme (nl : string) :
  netloc_shaped nl ->
  exists pb, Urllib.urlparse ("://" +:+ nl) = Ok pb
             /\ Urllib.scheme pb = EmptyString
             /\ Urllib.netloc pb = EmptyString.
Proof.
  intros Hnl. destruct (netloc_shaped_whole nl Hnl) as (N1 & _ & _).
  unfold Urllib.urlparse, Urllib.urlparse_with, Urllib.urlsplit.
  assert (Hu : Urllib.unsafe_removed ("://" +:+ nl) = String ":" ("//" +:+ nl)).
  { rewrite <- N1 at 2. reflexivity. }
  rewrite Hu.
  assert (Hs : Urllib.split_scheme (Urllib.unsafe_removed EmptyString)
                 (String ":" ("//" +:+ nl))
               = (EmptyString, String ":" ("//" +:+ nl))) by reflexivity.
  rewrite Hs. cbv iota.
  change (Ok ?a ≫= ?k) with (k a). cbv beta iota.
  destruct (Py.has_char "#" _); destruct (Py.has_char "?" _);
    change (Ok ?a ≫= ?k) with (k a); cbv beta;
    (destruct (_ && _); [destruct (Urllib.splitparams _)|]);
    eexists; (split; [reflexivity|split; reflexivity]).
Qed.

Lemma other_netloc_invalid (c : config) (u : string) (pu pb : Urllib.ParseResult) :
  Urllib.urlparse u = Ok pu ->
  Urllib.urlparse (base_url c) = Ok pb ->
  Urllib.netloc pu <> EmptyString ->
  Urllib.netloc pu <> Urllib.netloc pb ->
  is_valid_url c u = Ok false.
Proof.
  intros Hu Hb Hne Hdiff. unfold is_valid_url.
  destruct u as [|a u].
  { vm_compute in Hu. injection Hu as <-. contradiction. }
  change (negb (Urllib.nonempty (String a u))) with false. cbv iota.
  rewrite Hu, Hb. change (Ok ?x ≫= ?k) with (k x). cbv beta.
  change (Ok ?x ≫= ?k) with (k x). cbv beta.
  assert (H1 : Urllib.nonempty (Urllib.netloc pu) = true).
  { unfold Urllib.nonempty. apply negb_true_iff, String.eqb_neq. exact Hne. }
  assert (H2 : String.eqb (Urllib.netloc pu) (Urllib.netloc pb) = false)
    by (apply String.eqb_neq; exact Hdiff).
  rewrite H1, H2. reflexivity.
Qed.

(** X18: the base URL and the start URL. When the scraper is
    created, the start URL parses, and so does the base URL built from
    it: [is_valid_url] never fails on the base URL. If the start URL has
    a scheme, the base URL parses back to that scheme and that network
    location, with nothing else. If it has none, the base URL has no
    network location. Either way a URL with a network location other
    than that of the base URL is not valid. *)
Theorem base_url_parses_back (start out docs : string) (c : config) :
  init start out docs = Ok c ->
  exists p pb,
    Urllib.urlparse start = Ok p
    /\ Urllib.urlparse (base_url c) = Ok pb
    /\ (Urllib.scheme p <> EmptyString ->
        pb = Urllib.mkParseResult (Urllib.scheme p) (Urllib.netloc p)
               EmptyString EmptyString EmptyString EmptyString)
    /\ (Urllib.scheme p = EmptyString -> Urllib.netloc pb = EmptyString)
    /\ (forall u pu,
          Urllib.urlparse u = Ok pu ->
          Urllib.netloc pu <> EmptyString ->
          Urllib.netloc pu <> Urllib.netloc pb ->
          is_valid_url c u = Ok false).
Proof.
  unfold init. destruct (Urllib.urlparse start) as [p|e] eqn:Hp; [|discriminate].
  change (Ok p ≫= ?k) with (k p). cbv beta. intros [= <-]. cbn [base_url].
  destruct (urlparse_parts _ _ Hp) as [Hscheme Hnl].
  assert (Hpb : exists pb,
             Urllib.urlparse (Urllib.scheme p +:+ "://" +:+ Urllib.netloc p) = Ok pb
             /\ (Urllib.scheme p <> EmptyString ->
                 pb = Urllib.mkParseResult (Urllib.scheme p) (Urllib.netloc p)
                        EmptyString EmptyString EmptyString EmptyString)
             /\ (Urllib.scheme p = EmptyString -> Urllib.netloc pb = EmptyString)).
  { destruct Hscheme as [Hs|(pre & Hpre & Hall & Hs)]; rewrite Hs.
    - rewrite app_empty.
      destruct (urlparse_without_scheme _ Hnl) as (pb & Hpb & _ & Hn).
      exists pb. split; [exact Hpb|]. split; [contradiction|]. intros _. exact Hn.
    - exists (Urllib.mkParseResult (Py.lower pre) (Urllib.netloc p)
                EmptyString EmptyString EmptyString EmptyString).
      split; [exact (urlparse_scheme_netloc _ _ Hpre Hall Hnl)|].
      split; [reflexivity|]. intros H. destruct pre; [contradiction|discriminate]. }
  destruct Hpb as (pb & Hpb & H1 & H2).
  exists p, pb. split; [reflexivity|]. split; [exact Hpb|].
  split; [exact H1|]. split; [exact H2|].
  intros u pu Hu Hne Hdiff.
  exact (other_netloc_invalid (mkConfig start out docs _) u pu pb Hu Hpb Hne Hdiff).
Qed.

Lemma base_url_parses_back_witness :
  init "example.com/blog" "out" "docs"
  = Ok (mkConfig "example.com/blog" "out" "docs" "://")
  /\ is_valid_url (mkConfig "example.com/blog" "out" "docs" "://")
                  "https://example.com/blog/post" = Ok false.
Proof.
  assert (H : init "example.com/blog" "out" "docs"
              = Ok (mkConfig "example.com/blog" "out" "docs" "://"))
    by (vm_compute; reflexivity).
  split; [exact H|].
  destruct (base_url_parses_back _ _ _ _ H) as (p & pb & Hp & Hpb & _ & Hn & Hv).
  assert (Hs : Urllib.scheme p = EmptyString).
  { vm_compute in Hp. injection Hp as <-. reflexivity. }
  apply (Hv _ (Urllib.mkParseResult "https" "example.com" "/blog/post" "" "" ""));
    [vm_compute; reflexivity|discriminate|].
  rewrite (Hn Hs). discriminate.
Defined.

(** ** The two validators *)

(** X19: the validator of [WordPressScraper] against that of
    [WebsiteScraper], for the same base URL. They raise on the same
    URLs; and a URL is valid for [WordPressScraper] and has none of the
    endings that [WebsiteScraper] ignores exactly when it is valid for
    [WebsiteScraper] and has none of the patterns that [WordPressScraper]
    ignores. *)
Theorem validators_compared (c : config) (u : string) :
  (forall e, is_valid_url c u = Raise e
             <-> WebsiteScraper.is_valid_url (base_url c) u = Raise e)
  /\ (is_valid_url c u = Ok true
      /\ existsb (Py.endswith (Py.lower u)) WebsiteScraper.ignore_exts = false
      <-> WebsiteScraper.is_valid_url (base_url c) u = Ok true
          /\ existsb (fun pattern => Py.contains pattern u) ignored_patterns = false).
Proof.
  unfold is_valid_url, WebsiteScraper.is_valid_url.
  destruct (negb (Urllib.nonempty u)).
  { split; [intros e; split; discriminate|]. split; intros [H _]; discriminate. }
  destruct (Urllib.urlparse u) as [pu|e1].
  2:{ split; [intros e; split; intros H; exact H|]. split; intros [H _]; discriminate. }
  change (Ok pu ≫= ?k) with (k pu). cbv beta.
  destruct (Urllib.urlparse (base_url c)) as [pb|e2].
  2:{ split; [intros e; split; intros H; exact H|]. split; intros [H _]; discriminate. }
  change (Ok pb ≫= ?k) with (k pb). cbv beta.
  destruct (_ && _).
  { split; [intros e; split; discriminate|]. split; intros [H _]; discriminate. }
  assert (Hexts : existsb (Py.endswith (Py.lower u)) WebsiteScraper.ignore_exts
                  = existsb (Py.endswith (Py.lower u)) ignore_exts
                    || existsb (Py.endswith (Py.lower u))
                         [".jpg"; ".jpeg"; ".png"; ".gif"; ".svg"; ".ico"]).
  { change WebsiteScraper.ignore_exts
      with (ignore_exts ++ [".jpg"; ".jpeg"; ".png"; ".gif"; ".svg"; ".ico"]).
    apply existsb_app. }
  rewrite Hexts. clear Hexts.
  destruct (existsb (Py.endswith (Py.lower u)) ignore_exts); cbn [orb].
  { split; [intros e; split; discriminate|]. split; intros [H _]; discriminate. }
  destruct (existsb (fun pattern => Py.contains pattern u) ignored_patterns);
    destruct (existsb (Py.endswith (Py.lower u)) _);
    (split; [intros e; split; discriminate|]);
    split; intros [H1 H2]; try discriminate; split; reflexivity.
Qed.
